(** * salt/modules/influx.py: the InfluxDB execution module

    A shallow embedding of the module's functions and the properties of its
    existence-gated mutations, parameter resolution, scope selection and
    query forwarding.

    The module talks to two collaborators that it does not define: the
    [config.option] lookup of the minion and the [influxdb] client library.
    The first is a key/default lookup in a store; the second is kept
    abstract: a client method call is answered by a function [remote] of
    the client's constructor arguments, the calls already made on that
    client object, the method called and the state of the outside world.
    Every method call and every log record is appended to a trace, so that
    what a function did to its client can be stated and proved. *)

From Stdlib Require Import Ascii.
From stdpp Require Import base option list strings gmap.

(** ** Python values *)

#[warnings="-register-all"]
Inductive pyval : Type :=
| PNone
| PBool (b : bool)
| PInt (z : Z)
| PStr (s : string)
| PList (l : list pyval)
| PDict (d : list (string * pyval)).

Inductive exn : Type :=
| KeyError (key : string)
| TypeError
| ClientError (what : string).

Inductive res (A : Type) : Type :=
| Ret (a : A)
| Raise (e : exn).
Arguments Ret {A} a.
Arguments Raise {A} e.

(** [bool(v)]: the truth value Python gives [v] in [if v] and [not v]. *)
Definition truthy (v : pyval) : bool :=
  match v with
  | PNone => false
  | PBool b => b
  | PInt z => negb (z =? 0)%Z
  | PStr s => negb (String.eqb s "")
  | PList l => match l with [] => false | _ => true end
  | PDict d => match d with [] => false | _ => true end
  end.

(** [isinstance(v, list)] *)
Definition isinstance_list (v : pyval) : bool :=
  match v with PList _ => true | _ => false end.

(** [d[key]] in an association list holding a dict's items. *)
Fixpoint dict_get (d : list (string * pyval)) (key : string) : option pyval :=
  match d with
  | [] => None
  | (k, v) :: d' => if String.eqb k key then Some v else dict_get d' key
  end.

(** [v[key]] for a string key: a dict answers or raises [KeyError]; no other
    value of this model takes a string subscript. *)
Definition getitem (v : pyval) (key : string) : res pyval :=
  match v with
  | PDict d =>
      match dict_get d key with
      | Some x => Ret x
      | None => Raise (KeyError key)
      end
  | _ => Raise TypeError
  end.

(** [[f(x) for x in l]]: the elements are evaluated in order and the first
    exception ends the comprehension. *)
Fixpoint comprehension (f : pyval -> res pyval) (l : list pyval)
  : res (list pyval) :=
  match l with
  | [] => Ret []
  | x :: l' =>
      match f x with
      | Raise e => Raise e
      | Ret y =>
          match comprehension f l' with
          | Raise e => Raise e
          | Ret ys => Ret (y :: ys)
          end
      end
  end.

(** [for x in v]: the items iterated over; only reached for lists here. *)
Definition items (v : pyval) : list pyval :=
  match v with PList l => l | _ => [] end.

(** [name == v] for a string [name]: equal strings and nothing else. *)
Definition str_eq (name : string) (v : pyval) : bool :=
  match v with PStr s => String.eqb name s | _ => false end.

(** [name in l] for a string [name]. *)
Definition str_in (name : string) (l : list pyval) : bool :=
  existsb (str_eq name) l.

(** ** The client library's interface *)

Module influxdb.

(** The arguments [InfluxDBClient(host=, port=, username=, password=)]
    was built from. *)
Record client : Type := InfluxDBClient {
  host : pyval;
  port : pyval;
  username : pyval;
  password : pyval
}.

(** The client methods the module calls. *)
Inductive method : Type :=
| get_database_list
| create_database (name : pyval)
| delete_database (name : pyval)
| switch_db (database : pyval)
| get_database_users
| get_list_cluster_admins
| add_database_user (name passwd : pyval)
| add_cluster_admin (name passwd : pyval)
| update_database_user_password (name passwd : pyval)
| update_cluster_admin_password (name passwd : pyval)
| delete_database_user (user : pyval)
| delete_cluster_admin (user : pyval)
| query (q time_precision chunked : pyval).

(** A client object: what it was built from and the calls made on it. *)
Record handle : Type := Handle {
  built : client;
  calls : list method
}.

(** The calls that change what the server stores. *)
Definition mutating (m : method) : bool :=
  match m with
  | create_database _ | delete_database _
  | add_database_user _ _ | add_cluster_admin _ _
  | update_database_user_password _ _
  | update_cluster_admin_password _ _
  | delete_database_user _ | delete_cluster_admin _ => true
  | _ => false
  end.

(** The two families of principal operations. *)
Definition cluster_admin_op (m : method) : bool :=
  match m with
  | get_list_cluster_admins | add_cluster_admin _ _
  | update_cluster_admin_password _ _ | delete_cluster_admin _ => true
  | _ => false
  end.

Definition database_user_op (m : method) : bool :=
  match m with
  | get_database_users | add_database_user _ _
  | update_database_user_password _ _ | delete_database_user _ => true
  | _ => false
  end.

End influxdb.

(** ** Effects: the outside world, the trace and the monad *)

Inductive event : Type :=
| EvCall (c : influxdb.client) (m : influxdb.method)
| EvLog (fmt : string) (args : list pyval).

Record world (L : Type) : Type := World {
  lib : L;
  trace : list event
}.
Arguments World {L} lib trace.
Arguments lib {L} w.
Arguments trace {L} w.

Definition M (L A : Type) : Type := world L -> res A * world L.

#[export] Instance M_ret {L} : MRet (M L) :=
  fun A (a : A) w => (Ret a, w).

#[export] Instance M_bind {L} : MBind (M L) :=
  fun A B (f : A -> M L B) (m : M L A) w =>
    match m w with
    | (Ret a, w') => f a w'
    | (Raise e, w') => (Raise e, w')
    end.

(** A pure computation that may raise. *)
Definition lift {L A} (r : res A) : M L A := fun w => (r, w).

(** [log.info(fmt.format(...))]: the record keeps the format string and
    the arguments of [format] apart. *)
Definition log_info {L} (fmt : string) (args : list pyval) : M L unit :=
  fun w => (Ret tt, World (lib w) (trace w ++ [EvLog fmt args])).

Section Influx.

Context {L : Type}.

(** What the client library answers: from the client's constructor
    arguments, the calls already made on the object, the method called and
    the state of the world, a value or an exception and the next state. *)
Variable remote :
  influxdb.client -> list influxdb.method -> influxdb.method -> L ->
  res pyval * L.

(** The minion's configuration store behind [config.option]. *)
Variable cfg : gmap string pyval.

(** Modelled from the spec: [__salt__['config.option']] is defined in
    another module of the repository; the spec gives it as a key/default
    lookup: the stored value under the key, the default when there is
    none. *)
Definition config_option (key : string) (dflt : pyval) : pyval :=
  default dflt (cfg !! key).

(** [client.m(...)] where the result is used. *)
Definition invoke (c : influxdb.handle) (m : influxdb.method) : M L pyval :=
  fun w =>
    let '(r, l') := remote (influxdb.built c) (influxdb.calls c) m (lib w) in
    (r, World l' (trace w ++ [EvCall (influxdb.built c) m])).

(** [client.m(...)] as a statement: the result is dropped and the object,
    changed by the call, is used further. *)
Definition invoke_ (c : influxdb.handle) (m : influxdb.method)
  : M L influxdb.handle :=
  _ ← invoke c m;
  mret (influxdb.Handle (influxdb.built c) (influxdb.calls c ++ [m])).

Definition _client (user password host port : pyval) : influxdb.handle :=
  let user :=
    if negb (truthy user)
    then config_option "influxdb.user" (PStr "root") else user in
  let password :=
    if negb (truthy password)
    then config_option "influxdb.password" (PStr "root") else password in
  let host :=
    if negb (truthy host)
    then config_option "influxdb.host" (PStr "localhost") else host in
  let port :=
    if negb (truthy port)
    then config_option "influxdb.port" (PInt 8086) else port in
  influxdb.Handle (influxdb.InfluxDBClient host port user password) [].

Definition db_list (user password host port : pyval) : M L pyval :=
  let client := _client user password host port in
  invoke client influxdb.get_database_list.

Definition db_exists (name : string) (user password host port : pyval)
  : M L pyval :=
  dbs ← db_list user password host port;
  if negb (isinstance_list dbs) then mret (PBool false)
  else
    names ← lift (comprehension (fun db => getitem db "name") (items dbs));
    mret (PBool (str_in name names)).

Definition db_create (name : string) (user password host port : pyval)
  : M L pyval :=
  e ← db_exists name PNone PNone PNone PNone;
  if truthy e then
    _ ← log_info "DB {0!r} already exists" [PStr name];
    mret (PBool false)
  else
    let client := _client user password host port in
    invoke client (influxdb.create_database (PStr name)).

Definition db_remove (name : string) (user password host port : pyval)
  : M L pyval :=
  e ← db_exists name PNone PNone PNone PNone;
  if negb (truthy e) then
    _ ← log_info "DB {0!r} does not exist" [PStr name];
    mret (PBool false)
  else
    let client := _client user password host port in
    invoke client (influxdb.delete_database (PStr name)).

Definition user_list (database user password host port : pyval)
  : M L pyval :=
  let client := _client user password host port in
  if truthy database then
    client ← invoke_ client (influxdb.switch_db database);
    invoke client influxdb.get_database_users
  else invoke client influxdb.get_list_cluster_admins.

Definition user_exists (name : string)
  (database user password host port : pyval) : M L pyval :=
  users ← user_list database user password host port;
  if negb (isinstance_list users) then mret (PBool false)
  else
    names ← lift (comprehension (fun u => getitem u "name") (items users));
    mret (PBool (str_in name names)).

Definition user_create (name : string)
  (passwd database user password host port : pyval) : M L pyval :=
  e ← user_exists name database PNone PNone PNone PNone;
  if truthy e then
    _ ← (if truthy database
         then log_info "User {0!r} already exists for DB {0!r}"
                [PStr name; database]
         else log_info "Cluster admin {0!r} already exists" [PStr name]);
    mret (PBool false)
  else
    let client := _client user password host port in
    if truthy database then
      client ← invoke_ client (influxdb.switch_db database);
      invoke client (influxdb.add_database_user (PStr name) passwd)
    else invoke client (influxdb.add_cluster_admin (PStr name) passwd).

Definition user_chpass (name : string)
  (passwd database user password host port : pyval) : M L pyval :=
  e ← user_exists name database PNone PNone PNone PNone;
  if negb (truthy e) then
    _ ← (if truthy database
         then log_info "User {0!r} does not exist for DB {0!r}"
                [PStr name; database]
         else log_info "Cluster admin {0!r} does not exist" [PStr name]);
    mret (PBool false)
  else
    let client := _client user password host port in
    if truthy database then
      client ← invoke_ client (influxdb.switch_db database);
      invoke client
        (influxdb.update_database_user_password (PStr name) passwd)
    else
      invoke client
        (influxdb.update_cluster_admin_password (PStr name) passwd).

Definition user_remove (name : string)
  (database user password host port : pyval) : M L pyval :=
  e ← user_exists name database PNone PNone PNone PNone;
  if negb (truthy e) then
    _ ← (if truthy database
         then log_info "User {0!r} does not exist for DB {0!r}"
                [PStr name; database]
         else log_info "Cluster admin {0!r} does not exist" [PStr name]);
    mret (PBool false)
  else
    let client := _client user password host port in
    if truthy database then
      client ← invoke_ client (influxdb.switch_db database);
      invoke client (influxdb.delete_database_user user)
    else invoke client (influxdb.delete_cluster_admin user).

(** [time_precision] and [chunked] have defaults other than [None]: an
    omitted argument is [None] here and takes the default of the [def]. *)
Definition query (database query : pyval)
  (time_precision chunked : option pyval)
  (user password host port : pyval) : M L pyval :=
  let time_precision := default (PStr "s") time_precision in
  let chunked := default (PBool false) chunked in
  let client := _client user password host port in
  client ← invoke_ client (influxdb.switch_db database);
  invoke client (influxdb.query query time_precision chunked).

(** The outcomes of the branch on [database] that [user_list],
    [user_create], [user_chpass] and [user_remove] all take on a client [c]
    in library state [l]: the answer, the next library state and the calls
    recorded.  [m_db] is the database-user call, [m_admin] the cluster-admin
    call. *)
Inductive scoped (database : pyval) (c : influxdb.handle)
    (m_db m_admin : influxdb.method) (l : L)
  : res pyval -> L -> list event -> Prop :=
| scoped_admin r l1 :
    truthy database = false ->
    remote (influxdb.built c) (influxdb.calls c) m_admin l = (r, l1) ->
    scoped database c m_db m_admin l r l1 [EvCall (influxdb.built c) m_admin]
| scoped_switch_raised e l1 :
    truthy database = true ->
    remote (influxdb.built c) (influxdb.calls c)
      (influxdb.switch_db database) l = (Raise e, l1) ->
    scoped database c m_db m_admin l (Raise e) l1
      [EvCall (influxdb.built c) (influxdb.switch_db database)]
| scoped_db v l1 r l2 :
    truthy database = true ->
    remote (influxdb.built c) (influxdb.calls c)
      (influxdb.switch_db database) l = (Ret v, l1) ->
    remote (influxdb.built c)
      (influxdb.calls c ++ [influxdb.switch_db database]) m_db l1 = (r, l2) ->
    scoped database c m_db m_admin l r l2
      [EvCall (influxdb.built c) (influxdb.switch_db database);
       EvCall (influxdb.built c) m_db].

(** The outcome of one call [c.m(...)] in library state [l]. *)
Inductive called (c : influxdb.handle) (m : influxdb.method) (l : L)
  : res pyval -> L -> list event -> Prop :=
| called_intro r l1 :
    remote (influxdb.built c) (influxdb.calls c) m l = (r, l1) ->
    called c m l r l1 [EvCall (influxdb.built c) m].

(** The outcomes of a guarded mutation.  The existence check answered [rg],
    left the library in [lg] and recorded [gevs].  An exception of the check
    ends the function; when the truth value of the check's answer is
    [skip_if] the function logs and returns [False]; otherwise the action
    runs from [lg] with one of the outcomes [act] allows. *)
Inductive guarded (skip_if : bool) (rg : res pyval) (lg : L)
    (gevs : list event) (logged : event)
    (act : L -> res pyval -> L -> list event -> Prop)
  : res pyval -> L -> list event -> Prop :=
| guarded_raised e :
    rg = Raise e -> guarded skip_if rg lg gevs logged act (Raise e) lg gevs
| guarded_skip v :
    rg = Ret v -> truthy v = skip_if ->
    guarded skip_if rg lg gevs logged act (Ret (PBool false)) lg
      (gevs ++ [logged])
| guarded_act v r l1 aevs :
    rg = Ret v -> truthy v = negb skip_if -> act lg r l1 aevs ->
    guarded skip_if rg lg gevs logged act r l1 (gevs ++ aevs).

End Influx.

Arguments config_option cfg key dflt : assert.
Arguments _client cfg user password host port : assert.

(** ** A reference library

    A small in-memory server behind the client interface, used to run the
    module on concrete inputs.  It accepts the account root/root only and
    answers every other account with an in-band error string; it stores
    database names, cluster admins and the users of each database. *)

Module Ref.

Record server : Type := Server {
  databases : list string;
  cluster_admins : list string;
  database_users : list (string * string)
}.

Definition record (name : string) : pyval := PDict [("name", PStr name)].

Definition authorized (c : influxdb.client) : bool :=
  str_eq "root" (influxdb.username c) && str_eq "root" (influxdb.password c).

(** The database the client object was last switched to. *)
Fixpoint selected (calls : list influxdb.method) (cur : option string)
  : option string :=
  match calls with
  | [] => cur
  | influxdb.switch_db (PStr d) :: calls' => selected calls' (Some d)
  | _ :: calls' => selected calls' cur
  end.

Definition mem (x : string) (l : list string) : bool :=
  existsb (String.eqb x) l.

Definition remove (x : string) (l : list string) : list string :=
  filter (fun y => negb (String.eqb x y)) l.

Definition users_of (d : string) (s : server) : list string :=
  map snd (filter (fun du => String.eqb d (fst du)) (database_users s)).

Definition denied : pyval := PStr "Invalid username/password".

Definition remote (c : influxdb.client) (calls : list influxdb.method)
  (m : influxdb.method) (s : server) : res pyval * server :=
  if negb (authorized c) then (Ret denied, s) else
  match m with
  | influxdb.get_database_list =>
      (Ret (PList (map record (databases s))), s)
  | influxdb.create_database (PStr n) =>
      if mem n (databases s) then (Ret (PBool false), s)
      else (Ret (PBool true),
            Server (databases s ++ [n]) (cluster_admins s) (database_users s))
  | influxdb.delete_database (PStr n) =>
      if mem n (databases s)
      then (Ret (PBool true),
            Server (remove n (databases s)) (cluster_admins s)
              (database_users s))
      else (Ret (PBool false), s)
  | influxdb.switch_db _ => (Ret (PBool true), s)
  | influxdb.get_list_cluster_admins =>
      (Ret (PList (map record (cluster_admins s))), s)
  | influxdb.get_database_users =>
      match selected calls None with
      | Some d => (Ret (PList (map record (users_of d s))), s)
      | None => (Ret (PStr "no database selected"), s)
      end
  | influxdb.add_cluster_admin (PStr n) _ =>
      if mem n (cluster_admins s) then (Ret (PBool false), s)
      else (Ret (PBool true),
            Server (databases s) (cluster_admins s ++ [n]) (database_users s))
  | influxdb.add_database_user (PStr n) _ =>
      match selected calls None with
      | Some d =>
          if mem n (users_of d s) then (Ret (PBool false), s)
          else (Ret (PBool true),
                Server (databases s) (cluster_admins s)
                  (database_users s ++ [(d, n)]))
      | None => (Ret (PBool false), s)
      end
  | influxdb.update_cluster_admin_password (PStr n) _ =>
      (Ret (PBool (mem n (cluster_admins s))), s)
  | influxdb.update_database_user_password (PStr n) _ =>
      match selected calls None with
      | Some d => (Ret (PBool (mem n (users_of d s))), s)
      | None => (Ret (PBool false), s)
      end
  | influxdb.delete_cluster_admin (PStr n) =>
      if mem n (cluster_admins s)
      then (Ret (PBool true),
            Server (databases s) (remove n (cluster_admins s))
              (database_users s))
      else (Ret (PBool false), s)
  | influxdb.delete_database_user (PStr n) =>
      match selected calls None with
      | Some d =>
          if mem n (users_of d s)
          then (Ret (PBool true),
                Server (databases s) (cluster_admins s)
                  (filter (fun du => negb (String.eqb d (fst du)
                                           && String.eqb n (snd du)))
                     (database_users s)))
          else (Ret (PBool false), s)
      | None => (Ret (PBool false), s)
      end
  | influxdb.query q time_precision chunked =>
      (Ret (PList [q; time_precision; chunked]), s)
  | _ => (Ret (PBool false), s)
  end.

(** A server with one database, one cluster admin and one database user. *)
Definition s0 : server :=
  Server ["metrics"] ["root"] [("metrics", "alice")].

Definition empty : server := Server [] [] [].

Definition w0 : world server := World s0 [].

(** The client built when nothing is passed and nothing is configured, and
    one built for an account the server does not know. *)
Definition root : influxdb.client :=
  influxdb.InfluxDBClient (PStr "localhost") (PInt 8086)
    (PStr "root") (PStr "root").

Definition mallory : influxdb.client :=
  influxdb.InfluxDBClient (PStr "localhost") (PInt 8086)
    (PStr "mallory") (PStr "guess").

(** The worlds the existence checks leave when run from [w0] with no
    connection arguments. *)
Definition listed_dbs : world server :=
  World s0 [EvCall root influxdb.get_database_list].

Definition listed_admins : world server :=
  World s0 [EvCall root influxdb.get_list_cluster_admins].

Definition listed_users : world server :=
  World s0 [EvCall root (influxdb.switch_db (PStr "metrics"));
            EvCall root influxdb.get_database_users].

(** The worlds a first [db_create] of "metrics" on the empty server and a
    first [user_create] of "bob" in "metrics" on [s0] leave. *)
Definition created_db : world server :=
  World (Server ["metrics"] [] [])
    [EvCall root influxdb.get_database_list;
     EvCall root (influxdb.create_database (PStr "metrics"))].

Definition created_user : world server :=
  World (Server ["metrics"] ["root"] [("metrics", "alice"); ("metrics", "bob")])
    [EvCall root (influxdb.switch_db (PStr "metrics"));
     EvCall root influxdb.get_database_users;
     EvCall root (influxdb.switch_db (PStr "metrics"));
     EvCall root (influxdb.add_database_user (PStr "bob") (PStr "pw"))].

(** A library that cannot reach its server: every call raises. *)
Definition offline (c : influxdb.client) (calls : list influxdb.method)
  (m : influxdb.method) (s : server) : res pyval * server :=
  (Raise (ClientError "connection refused"), s).

End Ref.

(** ** Further reference libraries

    Libraries that misbehave in the ways the module has to cope with. *)

Module Faulty.

(** A listing whose second record has no ['name'] item. *)
Definition nameless (c : influxdb.client) (calls : list influxdb.method)
  (m : influxdb.method) (s : Ref.server) : res pyval * Ref.server :=
  match m with
  | influxdb.get_database_list | influxdb.get_list_cluster_admins
  | influxdb.get_database_users =>
      (Ret (PList [Ref.record "metrics"; PDict [("id", PInt 7)]]), s)
  | _ => Ref.remote c calls m s
  end.

(** Listings that answer with an in-band error; everything else as [Ref]
    does it. *)
Definition unlisted (c : influxdb.client) (calls : list influxdb.method)
  (m : influxdb.method) (s : Ref.server) : res pyval * Ref.server :=
  match m with
  | influxdb.get_database_list | influxdb.get_list_cluster_admins
  | influxdb.get_database_users => (Ret (PStr "503 Service Unavailable"), s)
  | _ => Ref.remote c calls m s
  end.

(** The users of a database cannot be listed: that call raises. *)
Definition no_user_listing (c : influxdb.client)
  (calls : list influxdb.method) (m : influxdb.method) (s : Ref.server)
  : res pyval * Ref.server :=
  match m with
  | influxdb.get_database_users => (Raise (ClientError "timed out"), s)
  | _ => Ref.remote c calls m s
  end.

(** The world [db_remove] of "metrics" leaves when run from [Ref.w0]. *)
Definition removed_db : world Ref.server :=
  World (Ref.Server [] ["root"] [("metrics", "alice")])
    [EvCall Ref.root influxdb.get_database_list;
     EvCall Ref.root (influxdb.delete_database (PStr "metrics"))].

End Faulty.

(** ** Two servers

    A world with two servers, one on the configured host and one on "db2",
    each holding its own databases.  A client talks to the server its host
    names; creating a database that exists raises. *)

Module Hosts.

Definition on_db2 (c : influxdb.client) : bool :=
  str_eq "db2" (influxdb.host c).

Definition serve (m : influxdb.method) (dbs : list string)
  : res pyval * list string :=
  match m with
  | influxdb.get_database_list => (Ret (PList (map Ref.record dbs)), dbs)
  | influxdb.create_database (PStr n) =>
      if Ref.mem n dbs
      then (Raise (ClientError "database exists"), dbs)
      else (Ret (PBool true), dbs ++ [n])
  | influxdb.delete_database (PStr n) =>
      if Ref.mem n dbs
      then (Ret (PBool true), Ref.remove n dbs)
      else (Raise (ClientError "database missing"), dbs)
  | _ => (Raise (ClientError "not served"), dbs)
  end.

(** The state: the databases of the configured host and those of "db2". *)
Definition remote (c : influxdb.client) (calls : list influxdb.method)
  (m : influxdb.method) (s : list string * list string)
  : res pyval * (list string * list string) :=
  if on_db2 c
  then let '(r, dbs) := serve m (snd s) in (r, (fst s, dbs))
  else let '(r, dbs) := serve m (fst s) in (r, (dbs, snd s)).

(** The client built for [host='db2'] with nothing else passed. *)
Definition db2 : influxdb.client :=
  influxdb.InfluxDBClient (PStr "db2") (PInt 8086) (PStr "root") (PStr "root").

End Hosts.

(** ** Loading the module and rendering its log messages *)

Definition __virtualname__ : string := "influxdb".

(** [__virtual__()]: [HAS_INFLUXDB] is what the [import influxdb] at the top
    of the module left. *)
Definition __virtual__ (HAS_INFLUXDB : bool) : pyval :=
  if HAS_INFLUXDB then PStr __virtualname__ else PBool false.

(** The value of a decimal digit character. *)
Definition digit (c : ascii) : option nat :=
  let code := nat_of_ascii c in
  if (48 <=? code) && (code <=? 57) then Some (code - 48) else None.

(** [fmt.format(...)] for the format strings of this module: literal
    text, the escapes [{{] and [}}], and replacement fields [{n!r}] with a
    one-digit positional index, which render [repr(args[n])].  [None] stands
    for an exception ([IndexError] for a missing argument, [ValueError] for a
    stray brace) and for any field outside this fragment.  [repr] itself is
    a parameter. *)
Fixpoint format (repr : pyval -> string) (fmt : string) (args : list pyval)
  : option string :=
  match fmt with
  | EmptyString => Some EmptyString
  | String "{" (String "{" s) => String "{"%char <$> format repr s args
  | String "}" (String "}" s) => String "}"%char <$> format repr s args
  | String "{" (String d (String "!" (String "r" (String "}" s)))) =>
      n ← digit d;
      a ← args !! n;
      rest ← format repr s args;
      Some (repr a +:+ rest)
  | String "{" _ => None
  | String "}" _ => None
  | String c s => String c <$> format repr s args
  end%char.

(** The messages logged in a trace, rendered. *)
Definition messages (repr : pyval -> string) (t : list event)
  : list (option string) :=
  omap (fun ev =>
          match ev with
          | EvLog fmt args => Some (format repr fmt args)
          | EvCall _ _ => None
          end) t.

(** ** Observations on traces and listings *)

(** The mutating client calls recorded in a trace, in order. *)
Definition mutations (t : list event) : list influxdb.method :=
  omap (fun ev =>
          match ev with
          | EvCall _ m => if influxdb.mutating m then Some m else None
          | EvLog _ _ => None
          end) t.

(** The client calls recorded in a trace, in order. *)
Definition calls_of (t : list event) : list influxdb.method :=
  omap (fun ev =>
          match ev with EvCall _ m => Some m | EvLog _ _ => None end) t.


(** A record of a listing that has a ['name'] item. *)
Definition has_name (r : pyval) : Prop :=
  exists x, getitem r "name" = Ret x.

(** A record of a listing whose ['name'] item is the string [name]. *)
Definition named (name : string) (r : pyval) : Prop :=
  getitem r "name" = Ret (PStr name).

(** A listing result that shows [name]: a list of records with names, one
    of them [name]. *)
Definition shows (name : string) (v : pyval) : Prop :=
  exists recs, v = PList recs /\ Forall has_name recs /\
               Exists (named name) recs.

(** A listing result the existence check can read without raising: not a
    list at all, or a list of records with names. *)
Definition readable (v : pyval) : Prop :=
  isinstance_list v = false \/ Forall has_name (items v).

(** What the existence check answers, given what its listing call answered:
    an exception passes through, a value that is not a list gives [False],
    a list gives the membership of [name] among the ['name'] items, unless
    reading an item raises. *)
Inductive checked (name : string) : res pyval -> res pyval -> Prop :=
| checked_raised e : checked name (Raise e) (Raise e)
| checked_not_list v :
    isinstance_list v = false -> checked name (Ret v) (Ret (PBool false))
| checked_list recs ns :
    comprehension (fun r => getitem r "name") recs = Ret ns ->
    checked name (Ret (PList recs)) (Ret (PBool (str_in name ns)))
| checked_bad_record recs e :
    comprehension (fun r => getitem r "name") recs = Raise e ->
    checked name (Ret (PList recs)) (Raise e).

(** In a database-scoped trace every database-user call comes right after a
    switch of the same client to [database], and nothing else is called. *)
Fixpoint switched_first (database : pyval) (evs : list event) : Prop :=
  match evs with
  | [] => True
  | EvLog _ _ :: evs' => switched_first database evs'
  | EvCall c (influxdb.switch_db d) :: evs' =>
      d = database /\
      match evs' with
      | [] => True
      | EvCall c' m :: evs'' =>
          c' = c /\ influxdb.database_user_op m = true /\
          switched_first database evs''
      | EvLog _ _ :: _ => False
      end
  | EvCall _ _ :: _ => False
  end.

(** In a cluster-scoped trace only cluster-admin calls are made. *)
Definition cluster_only (evs : list event) : Prop :=
  Forall (fun m => influxdb.cluster_admin_op m = true) (calls_of evs).

(** Running [m] in [w] appends to the trace events that satisfy [P]. *)
Definition emits {L A} (m : M L A) (w : world L) (P : list event -> Prop)
  : Prop :=
  exists evs, trace (m w).2 = trace w ++ evs /\ P evs.

(** A principal operation routed to the cluster admins: [user_exists] makes
    exactly the call of [get_list_cluster_admins]; each mutation starts with
    that call on the guard's client and, when its existence check lets it
    act, makes the one cluster-admin call and returns its answer. *)
Definition cluster_routed {L}
    (remote : influxdb.client -> list influxdb.method -> influxdb.method -> L ->
              res pyval * L)
    (cfg : gmap string pyval) (name : string)
    (passwd database user password host port : pyval) (w : world L) : Prop :=
  let b := influxdb.built (_client cfg user password host port) in
  let gb := influxdb.built (_client cfg PNone PNone PNone PNone) in
  let guard := user_exists remote cfg name database PNone PNone PNone PNone in
  trace (user_exists remote cfg name database user password host port w).2
  = trace w ++ [EvCall b influxdb.get_list_cluster_admins] /\
  (exists rest,
     trace (user_create remote cfg name passwd database user password host
              port w).2
     = trace w ++ EvCall gb influxdb.get_list_cluster_admins :: rest) /\
  (exists rest,
     trace (user_chpass remote cfg name passwd database user password host
              port w).2
     = trace w ++ EvCall gb influxdb.get_list_cluster_admins :: rest) /\
  (exists rest,
     trace (user_remove remote cfg name database user password host port w).2
     = trace w ++ EvCall gb influxdb.get_list_cluster_admins :: rest) /\
  (forall w1 r l2,
     guard w = (Ret (PBool false), w1) ->
     remote b [] (influxdb.add_cluster_admin (PStr name) passwd) (lib w1)
     = (r, l2) ->
     user_create remote cfg name passwd database user password host port w
     = (r, World l2
             (trace w1
              ++ [EvCall b (influxdb.add_cluster_admin (PStr name) passwd)])))
  /\
  (forall w1 r l2,
     guard w = (Ret (PBool true), w1) ->
     remote b [] (influxdb.update_cluster_admin_password (PStr name) passwd)
       (lib w1) = (r, l2) ->
     user_chpass remote cfg name passwd database user password host port w
     = (r, World l2
             (trace w1
              ++ [EvCall b (influxdb.update_cluster_admin_password
                              (PStr name) passwd)]))) /\
  (forall w1 r l2,
     guard w = (Ret (PBool true), w1) ->
     remote b [] (influxdb.delete_cluster_admin user) (lib w1) = (r, l2) ->
     user_remove remote cfg name database user password host port w
     = (r, World l2
             (trace w1 ++ [EvCall b (influxdb.delete_cluster_admin user)]))).

(** A principal operation routed to the users of [database]: [user_list]
    switches its client to [database] and, when the switch returns, calls
    [get_database_users] on it; [user_exists] makes the same calls; each
    mutation starts with the switch on the guard's client and, when its
    existence check lets it act, switches its own client and makes the one
    database-user call, returning its answer. *)
Definition database_routed {L}
    (remote : influxdb.client -> list influxdb.method -> influxdb.method -> L ->
              res pyval * L)
    (cfg : gmap string pyval) (name : string)
    (passwd database user password host port : pyval) (w : world L) : Prop :=
  let b := influxdb.built (_client cfg user password host port) in
  let gb := influxdb.built (_client cfg PNone PNone PNone PNone) in
  let guard := user_exists remote cfg name database PNone PNone PNone PNone in
  let switch := influxdb.switch_db database in
  (forall e l1,
     remote b [] switch (lib w) = (Raise e, l1) ->
     user_list remote cfg database user password host port w
     = (Raise e, World l1 (trace w ++ [EvCall b switch]))) /\
  (forall v l1 r l2,
     remote b [] switch (lib w) = (Ret v, l1) ->
     remote b [switch] influxdb.get_database_users l1 = (r, l2) ->
     user_list remote cfg database user password host port w
     = (r, World l2 (trace w ++ [EvCall b switch;
                                 EvCall b influxdb.get_database_users]))) /\
  (user_exists remote cfg name database user password host port w).2
  = (user_list remote cfg database user password host port w).2 /\
  (exists rest,
     trace (user_create remote cfg name passwd database user password host
              port w).2
     = trace w ++ EvCall gb switch :: rest) /\
  (exists rest,
     trace (user_chpass remote cfg name passwd database user password host
              port w).2
     = trace w ++ EvCall gb switch :: rest) /\
  (exists rest,
     trace (user_remove remote cfg name database user password host port w).2
     = trace w ++ EvCall gb switch :: rest) /\
  (forall w1 v l1 r l2,
     guard w = (Ret (PBool false), w1) ->
     remote b [] switch (lib w1) = (Ret v, l1) ->
     remote b [switch] (influxdb.add_database_user (PStr name) passwd) l1
     = (r, l2) ->
     user_create remote cfg name passwd database user password host port w
     = (r, World l2
             (trace w1
              ++ [EvCall b switch;
                  EvCall b (influxdb.add_database_user (PStr name) passwd)])))
  /\
  (forall w1 v l1 r l2,
     guard w = (Ret (PBool true), w1) ->
     remote b [] switch (lib w1) = (Ret v, l1) ->
     remote b [switch]
       (influxdb.update_database_user_password (PStr name) passwd) l1
     = (r, l2) ->
     user_chpass remote cfg name passwd database user password host port w
     = (r, World l2
             (trace w1
              ++ [EvCall b switch;
                  EvCall b (influxdb.update_database_user_password
                              (PStr name) passwd)]))) /\
  (forall w1 v l1 r l2,
     guard w = (Ret (PBool true), w1) ->
     remote b [] switch (lib w1) = (Ret v, l1) ->
     remote b [switch] (influxdb.delete_database_user user) l1 = (r, l2) ->
     user_remove remote cfg name database user password host port w
     = (r, World l2
             (trace w1 ++ [EvCall b switch;
                           EvCall b (influxdb.delete_database_user user)]))).

(** ** Python values: basic facts *)

Lemma comprehension_names (recs : list pyval) :
  Forall has_name recs ->
  exists ns, comprehension (fun r => getitem r "name") recs = Ret ns /\
             Forall2 (fun r n => getitem r "name" = Ret n) recs ns.
Proof.
  induction 1 as [|r recs [x Hx] _ (ns & Hns & Hall)]; simpl.
  - exists []. split; [reflexivity | constructor].
  - exists (x :: ns). rewrite Hx, Hns. split; [reflexivity|].
    constructor; assumption.
Qed.

Lemma comprehension_Ret (recs ns : list pyval) :
  comprehension (fun r => getitem r "name") recs = Ret ns ->
  Forall2 (fun r n => getitem r "name" = Ret n) recs ns.
Proof.
  revert ns. induction recs as [|r recs IH]; simpl; intros ns H.
  - injection H as <-. constructor.
  - destruct (getitem r "name") as [x|e] eqn:Hx; [|discriminate].
    destruct (comprehension _ recs) as [ys|e]; [|discriminate].
    injection H as <-. constructor; [assumption | apply IH; reflexivity].
Qed.

Lemma str_eq_true (name : string) (v : pyval) :
  str_eq name v = true <-> v = PStr name.
Proof.
  destruct v; simpl; try (split; [discriminate | intros; discriminate]).
  rewrite String.eqb_eq. split; [intros ->; reflexivity | ].
  intros H; injection H as ->; reflexivity.
Qed.

Lemma str_in_names (name : string) (recs ns : list pyval) :
  Forall2 (fun r n => getitem r "name" = Ret n) recs ns ->
  str_in name ns = true <-> Exists (named name) recs.
Proof.
  unfold str_in, named. induction 1 as [|r n recs ns Hr _ IH]; simpl.
  - split; [discriminate | intros H; inversion H].
  - rewrite orb_true_iff, IH, Exists_cons, str_eq_true.
    split; (intros [H|H]; [left | right; exact H]); congruence.
Qed.

Lemma checked_bool (name : string) (rl : res pyval) (v : pyval) :
  checked name rl (Ret v) -> exists b, v = PBool b.
Proof. inversion 1; eexists; reflexivity. Qed.

Lemma checked_true (name : string) (rl : res pyval) (v : pyval) :
  checked name rl (Ret v) -> truthy v = true -> v = PBool true.
Proof. inversion 1; simpl; intros; congruence. Qed.

Lemma checked_fun (name : string) (rl r r' : res pyval) :
  checked name rl r -> checked name rl r' -> r = r'.
Proof.
  destruct 1; inversion 1; subst; try reflexivity; try discriminate;
    congruence.
Qed.

Lemma checked_shows (name : string) (v : pyval) (r : res pyval) :
  shows name v -> checked name (Ret v) r -> r = Ret (PBool true).
Proof.
  intros (recs & -> & Hwf & Hex) Hck.
  destruct (comprehension_names recs Hwf) as (ns & Hns & Hall).
  apply (str_in_names name) in Hall. apply Hall in Hex.
  inversion Hck; subst; try discriminate; congruence.
Qed.

Lemma checked_readable (name : string) (v : pyval) (r : res pyval) :
  readable v -> checked name (Ret v) r -> exists b, r = Ret (PBool b).
Proof.
  intros Hv Hck. inversion Hck; subst; try (eexists; reflexivity).
  destruct Hv as [Hv|Hv]; [discriminate|].
  destruct (comprehension_names _ Hv) as (ns & Hns & _).
  simpl in Hns. congruence.
Qed.

Lemma mutations_app (t t' : list event) :
  mutations (t ++ t') = mutations t ++ mutations t'.
Proof. apply omap_app. Qed.

Lemma calls_of_app (t t' : list event) :
  calls_of (t ++ t') = calls_of t ++ calls_of t'.
Proof. apply omap_app. Qed.

(** ** The module's functions *)

Section Properties.

Context {L : Type}.
Variable remote :
  influxdb.client -> list influxdb.method -> influxdb.method -> L ->
  res pyval * L.
Variable cfg : gmap string pyval.

Ltac unfold_M :=
  unfold mbind, M_bind, mret, M_ret, lift, log_info, invoke_, invoke in *.

(** What [db_exists] and [user_exists] make of the value their listing call
    returned. *)
Lemma exists_of_listing (name : string) (v : pyval) (w : world L) :
  let check : M L pyval :=
    if negb (isinstance_list v) then mret (PBool false)
    else
      names ← lift (comprehension (fun r => getitem r "name") (items v));
      mret (PBool (str_in name names)) in
  (isinstance_list v = false -> check w = (Ret (PBool false), w)) /\
  (forall recs, v = PList recs ->
     (forall w', check w = (Ret (PBool true), w') ->
        w' = w /\ Exists (named name) recs) /\
     (Forall has_name recs ->
        exists b, check w = (Ret (PBool b), w) /\
                  (b = true <-> Exists (named name) recs))).
Proof.
  intros check. split.
  - intros Hv. subst check. rewrite Hv. reflexivity.
  - intros recs ->. subst check. simpl. unfold_M. split.
    + intros w' H.
      destruct (comprehension _ recs) as [ns|e] eqn:Hns; [|discriminate].
      injection H as Hb <-. split; [reflexivity|].
      apply comprehension_Ret in Hns.
      apply (str_in_names name) in Hns. apply Hns, Hb.
    + intros Hwf. destruct (comprehension_names recs Hwf) as (ns & -> & Hall).
      exists (str_in name ns). split; [reflexivity|].
      apply str_in_names, Hall.
Qed.

(** C3. Fail-open existence check: when the listing call ([db_list], or
    [user_list] for the given database) returns a value that is not a list,
    [db_exists] and [user_exists] return [False]; nothing is raised and
    nothing further is called. *)
Theorem exists_fail_open (name : string)
    (database user password host port v : pyval) (w w1 : world L) :
  isinstance_list v = false ->
  (db_list remote cfg user password host port w = (Ret v, w1) ->
   db_exists remote cfg name user password host port w
   = (Ret (PBool false), w1)) /\
  (user_list remote cfg database user password host port w = (Ret v, w1) ->
   user_exists remote cfg name database user password host port w
   = (Ret (PBool false), w1)).
Proof.
  intros Hv. split; intros Hl.
  - unfold db_exists. unfold mbind at 1, M_bind at 1. rewrite Hl.
    apply (exists_of_listing name v w1), Hv.
  - unfold user_exists. unfold mbind at 1, M_bind at 1. rewrite Hl.
    apply (exists_of_listing name v w1), Hv.
Qed.

(** C8. Membership by exact name: when the listing call returns a list,
    [db_exists] and [user_exists] return [True] only if some record of the
    listing has the queried string as its ['name'] item; and when every
    record of the listing has a ['name'] item they return a boolean that is
    [True] if and only if some record's ['name'] item is that very string. *)
Theorem exists_iff_name_listed (name : string)
    (database user password host port : pyval) (recs : list pyval)
    (w w1 : world L) :
  (db_list remote cfg user password host port w = (Ret (PList recs), w1) ->
   (forall w', db_exists remote cfg name user password host port w
               = (Ret (PBool true), w') -> Exists (named name) recs) /\
   (Forall has_name recs ->
    exists b, db_exists remote cfg name user password host port w
              = (Ret (PBool b), w1) /\
              (b = true <-> Exists (named name) recs))) /\
  (user_list remote cfg database user password host port w
   = (Ret (PList recs), w1) ->
   (forall w', user_exists remote cfg name database user password host port w
               = (Ret (PBool true), w') -> Exists (named name) recs) /\
   (Forall has_name recs ->
    exists b, user_exists remote cfg name database user password host port w
              = (Ret (PBool b), w1) /\
              (b = true <-> Exists (named name) recs))).
Proof.
  split; intros Hl.
  - unfold db_exists. unfold mbind at 1 3, M_bind at 1 3. rewrite Hl.
    destruct (exists_of_listing name (PList recs) w1) as [_ H].
    destruct (H recs eq_refl) as [H1 H2]. split.
    + intros w' Hw'. apply (H1 w' Hw').
    + exact H2.
  - unfold user_exists. unfold mbind at 1 3, M_bind at 1 3. rewrite Hl.
    destruct (exists_of_listing name (PList recs) w1) as [_ H].
    destruct (H recs eq_refl) as [H1 H2]. split.
    + intros w' Hw'. apply (H1 w' Hw').
    + exact H2.
Qed.

(** *** Running the monad *)

Lemma bind_run {A B} (m : M L A) (k : A -> M L B) (w : world L) :
  (m ≫= k) w =
  match m w with
  | (Ret a, w') => k a w'
  | (Raise e, w') => (Raise e, w')
  end.
Proof. reflexivity. Qed.

Lemma invoke_run (c : influxdb.handle) (m : influxdb.method) (w : world L) :
  invoke remote c m w =
  ((remote (influxdb.built c) (influxdb.calls c) m (lib w)).1,
   World (remote (influxdb.built c) (influxdb.calls c) m (lib w)).2
     (trace w ++ [EvCall (influxdb.built c) m])).
Proof.
  unfold invoke.
  destruct (remote (influxdb.built c) (influxdb.calls c) m (lib w)).
  reflexivity.
Qed.

(** The branch on [database], run in world [w], has one of the outcomes of
    [scoped]. *)
Lemma scoped_run (database : pyval) (c : influxdb.handle)
    (m_db m_admin : influxdb.method) (w : world L) :
  let act : M L pyval :=
    if truthy database then
      c' ← invoke_ remote c (influxdb.switch_db database);
      invoke remote c' m_db
    else invoke remote c m_admin in
  exists r l' evs,
    act w = (r, World l' (trace w ++ evs)) /\
    scoped remote database c m_db m_admin (lib w) r l' evs.
Proof.
  intros act. subst act. destruct (truthy database) eqn:Hdb.
  - unfold invoke_. rewrite !bind_run, invoke_run.
    destruct (remote (influxdb.built c) (influxdb.calls c)
                (influxdb.switch_db database) (lib w)) as [[v|e] l1] eqn:Hsw;
      cbn [fst snd].
    + unfold mret, M_ret. rewrite invoke_run.
      cbn [influxdb.built influxdb.calls lib trace].
      destruct (remote (influxdb.built c)
                  (influxdb.calls c ++ [influxdb.switch_db database]) m_db l1)
        as [r l2] eqn:Hm.
      exists r, l2. eexists. rewrite <- app_assoc. split; [reflexivity|].
      eapply scoped_db; eassumption.
    + exists (Raise e), l1. eexists. split; [reflexivity|].
      apply scoped_switch_raised; assumption.
  - rewrite invoke_run.
    destruct (remote (influxdb.built c) (influxdb.calls c) m_admin (lib w))
      as [r l1] eqn:Hm.
    exists r, l1. eexists. split; [reflexivity|].
    apply scoped_admin; assumption.
Qed.


Lemma called_run (c : influxdb.handle) (m : influxdb.method) (w : world L) :
  exists r l',
    invoke remote c m w = (r, World l' (trace w ++ [EvCall (influxdb.built c) m]))
    /\ called remote c m (lib w) r l' [EvCall (influxdb.built c) m].
Proof.
  rewrite invoke_run.
  destruct (remote (influxdb.built c) (influxdb.calls c) m (lib w))
    as [r l1] eqn:Hm.
  exists r, l1. split; [reflexivity | constructor; exact Hm].
Qed.

(** The tail of [db_exists] and [user_exists]: it changes nothing and
    answers as [checked] says. *)
Lemma check_run (name : string) (v : pyval) (w : world L) :
  let check : M L pyval :=
    if negb (isinstance_list v) then mret (PBool false)
    else
      names ← lift (comprehension (fun r => getitem r "name") (items v));
      mret (PBool (str_in name names)) in
  exists r, check w = (r, w) /\ checked name (Ret v) r.
Proof.
  intros check. subst check. destruct (isinstance_list v) eqn:Hv; simpl.
  - destruct v; try discriminate. simpl. unfold_M.
    destruct (comprehension _ l) as [ns|e] eqn:Hns.
    + eexists. split; [reflexivity | constructor; exact Hns].
    + eexists. split; [reflexivity | constructor; exact Hns].
  - eexists. split; [reflexivity | constructor; exact Hv].
Qed.

(** A guarded mutation has one of the outcomes of [guarded]. *)
Lemma guarded_run (skip_if : bool) (guard : M L pyval)
    (k : pyval -> M L pyval) (skip body : M L pyval) (logged : event)
    (act : L -> res pyval -> L -> list event -> Prop) (w : world L)
    (rg : res pyval) (lg : L) (gevs : list event) :
  (forall e w', k e w' = if eqb (truthy e) skip_if then skip w' else body w') ->
  (forall w', skip w'
              = (Ret (PBool false), World (lib w') (trace w' ++ [logged]))) ->
  (forall w', exists r l' aevs,
      body w' = (r, World l' (trace w' ++ aevs)) /\ act (lib w') r l' aevs) ->
  guard w = (rg, World lg (trace w ++ gevs)) ->
  exists r l' evs,
    (guard ≫= k) w = (r, World l' (trace w ++ evs)) /\
    guarded skip_if rg lg gevs logged act r l' evs.
Proof.
  intros Hk Hskip Hbody Hg. rewrite bind_run, Hg.
  destruct rg as [v|e].
  - rewrite Hk. destruct (eqb (truthy v) skip_if) eqn:Hv.
    + apply eqb_prop in Hv. rewrite Hskip. cbn [lib trace].
      exists (Ret (PBool false)), lg, (gevs ++ [logged]).
      rewrite app_assoc. split; [reflexivity|].
      eapply guarded_skip; [reflexivity | exact Hv].
    + destruct (Hbody (World lg (trace w ++ gevs)))
        as (r & l' & aevs & -> & Hact). cbn [lib trace] in *.
      exists r, l', (gevs ++ aevs). rewrite app_assoc.
      split; [reflexivity|].
      eapply guarded_act; [reflexivity | | exact Hact].
      destruct (truthy v), skip_if; simpl in *; congruence.
  - exists (Raise e), lg, gevs. split; [reflexivity|].
    apply guarded_raised. reflexivity.
Qed.

(** *** The outcomes of each function *)

Local Abbreviation guard_client := (_client cfg PNone PNone PNone PNone).

Lemma db_exists_run (name : string) (user password host port : pyval)
    (w : world L) :
  let c := _client cfg user password host port in
  exists rl r l',
    called remote c influxdb.get_database_list (lib w) rl l'
      [EvCall (influxdb.built c) influxdb.get_database_list] /\
    checked name rl r /\
    db_list remote cfg user password host port w
    = (rl, World l' (trace w
                     ++ [EvCall (influxdb.built c) influxdb.get_database_list]))
    /\
    db_exists remote cfg name user password host port w
    = (r, World l' (trace w
                    ++ [EvCall (influxdb.built c) influxdb.get_database_list])).
Proof.
  intros c. unfold db_exists, db_list. fold c.
  destruct (called_run c influxdb.get_database_list w)
    as (rl & l' & Hrun & Hcalled).
  rewrite bind_run, Hrun. destruct rl as [v|e].
  - destruct (check_run name v
                (World l' (trace w ++ [EvCall (influxdb.built c)
                                         influxdb.get_database_list])))
      as (r & Hr & Hck).
    exists (Ret v), r, l'. split; [exact Hcalled|]. split; [exact Hck|].
    split; [reflexivity | exact Hr].
  - exists (Raise e), (Raise e), l'. split; [exact Hcalled|].
    split; [constructor|]. split; reflexivity.
Qed.

Lemma user_exists_run (name : string)
    (database user password host port : pyval) (w : world L) :
  let c := _client cfg user password host port in
  exists rl r l' evs,
    scoped remote database c influxdb.get_database_users
      influxdb.get_list_cluster_admins (lib w) rl l' evs /\
    checked name rl r /\
    user_list remote cfg database user password host port w
    = (rl, World l' (trace w ++ evs)) /\
    user_exists remote cfg name database user password host port w
    = (r, World l' (trace w ++ evs)).
Proof.
  intros c. unfold user_exists, user_list. fold c.
  destruct (scoped_run database c influxdb.get_database_users
              influxdb.get_list_cluster_admins w)
    as (rl & l' & evs & Hrun & Hsc).
  cbv zeta in Hrun. rewrite bind_run, Hrun. destruct rl as [v|e].
  - destruct (check_run name v (World l' (trace w ++ evs))) as (r & Hr & Hck).
    exists (Ret v), r, l', evs. split; [exact Hsc|]. split; [exact Hck|].
    split; [reflexivity | exact Hr].
  - exists (Raise e), (Raise e), l', evs. split; [exact Hsc|].
    split; [constructor|]. split; reflexivity.
Qed.

Lemma db_create_run (name : string) (user password host port : pyval)
    (w : world L) :
  let g := EvCall (influxdb.built guard_client) influxdb.get_database_list in
  exists rl rg lg,
    called remote guard_client influxdb.get_database_list (lib w) rl lg [g] /\
    checked name rl rg /\
    db_exists remote cfg name PNone PNone PNone PNone w
    = (rg, World lg (trace w ++ [g])) /\
    exists r l' evs,
      db_create remote cfg name user password host port w
      = (r, World l' (trace w ++ evs)) /\
      guarded true rg lg [g] (EvLog "DB {0!r} already exists" [PStr name])
        (called remote (_client cfg user password host port)
           (influxdb.create_database (PStr name)))
        r l' evs.
Proof.
  intros g.
  destruct (db_exists_run name PNone PNone PNone PNone w)
    as (rl & rg & lg & Hcalled & Hck & _ & Hg).
  exists rl, rg, lg. split; [exact Hcalled|]. split; [exact Hck|].
  split; [exact Hg|]. unfold db_create.
  eapply guarded_run; [ | | | exact Hg].
  - intros e w'. destruct (truthy e); reflexivity.
  - intros w'. reflexivity.
  - intros w'.
    destruct (called_run (_client cfg user password host port)
                (influxdb.create_database (PStr name)) w')
      as (r & l' & Hrun & Hc).
    exists r, l'. eexists. split; [exact Hrun | exact Hc].
Qed.

Lemma db_remove_run (name : string) (user password host port : pyval)
    (w : world L) :
  let g := EvCall (influxdb.built guard_client) influxdb.get_database_list in
  exists rl rg lg,
    called remote guard_client influxdb.get_database_list (lib w) rl lg [g] /\
    checked name rl rg /\
    db_exists remote cfg name PNone PNone PNone PNone w
    = (rg, World lg (trace w ++ [g])) /\
    exists r l' evs,
      db_remove remote cfg name user password host port w
      = (r, World l' (trace w ++ evs)) /\
      guarded false rg lg [g] (EvLog "DB {0!r} does not exist" [PStr name])
        (called remote (_client cfg user password host port)
           (influxdb.delete_database (PStr name)))
        r l' evs.
Proof.
  intros g.
  destruct (db_exists_run name PNone PNone PNone PNone w)
    as (rl & rg & lg & Hcalled & Hck & _ & Hg).
  exists rl, rg, lg. split; [exact Hcalled|]. split; [exact Hck|].
  split; [exact Hg|]. unfold db_remove.
  eapply guarded_run; [ | | | exact Hg].
  - intros e w'. destruct (truthy e); reflexivity.
  - intros w'. reflexivity.
  - intros w'.
    destruct (called_run (_client cfg user password host port)
                (influxdb.delete_database (PStr name)) w')
      as (r & l' & Hrun & Hc).
    exists r, l'. eexists. split; [exact Hrun | exact Hc].
Qed.

Lemma user_create_run (name : string)
    (passwd database user password host port : pyval) (w : world L) :
  exists rl rg lg gevs,
    scoped remote database guard_client influxdb.get_database_users
      influxdb.get_list_cluster_admins (lib w) rl lg gevs /\
    checked name rl rg /\
    user_exists remote cfg name database PNone PNone PNone PNone w
    = (rg, World lg (trace w ++ gevs)) /\
    exists r l' evs,
      user_create remote cfg name passwd database user password host port w
      = (r, World l' (trace w ++ evs)) /\
      guarded true rg lg gevs
        (if truthy database
         then EvLog "User {0!r} already exists for DB {0!r}" [PStr name; database]
         else EvLog "Cluster admin {0!r} already exists" [PStr name])
        (scoped remote database (_client cfg user password host port)
           (influxdb.add_database_user (PStr name) passwd) (influxdb.add_cluster_admin (PStr name) passwd))
        r l' evs.
Proof.
  destruct (user_exists_run name database PNone PNone PNone PNone w)
    as (rl & rg & lg & gevs & Hsc & Hck & _ & Hg).
  exists rl, rg, lg, gevs. split; [exact Hsc|]. split; [exact Hck|].
  split; [exact Hg|]. unfold user_create.
  eapply guarded_run; [ | | | exact Hg].
  - intros e w'. destruct (truthy e); reflexivity.
  - intros w'. destruct (truthy database); reflexivity.
  - intros w'.
    exact (scoped_run database (_client cfg user password host port)
             (influxdb.add_database_user (PStr name) passwd) (influxdb.add_cluster_admin (PStr name) passwd) w').
Qed.

Lemma user_chpass_run (name : string)
    (passwd database user password host port : pyval) (w : world L) :
  exists rl rg lg gevs,
    scoped remote database guard_client influxdb.get_database_users
      influxdb.get_list_cluster_admins (lib w) rl lg gevs /\
    checked name rl rg /\
    user_exists remote cfg name database PNone PNone PNone PNone w
    = (rg, World lg (trace w ++ gevs)) /\
    exists r l' evs,
      user_chpass remote cfg name passwd database user password host port w
      = (r, World l' (trace w ++ evs)) /\
      guarded false rg lg gevs
        (if truthy database
         then EvLog "User {0!r} does not exist for DB {0!r}" [PStr name; database]
         else EvLog "Cluster admin {0!r} does not exist" [PStr name])
        (scoped remote database (_client cfg user password host port)
           (influxdb.update_database_user_password (PStr name) passwd) (influxdb.update_cluster_admin_password (PStr name) passwd))
        r l' evs.
Proof.
  destruct (user_exists_run name database PNone PNone PNone PNone w)
    as (rl & rg & lg & gevs & Hsc & Hck & _ & Hg).
  exists rl, rg, lg, gevs. split; [exact Hsc|]. split; [exact Hck|].
  split; [exact Hg|]. unfold user_chpass.
  eapply guarded_run; [ | | | exact Hg].
  - intros e w'. destruct (truthy e); reflexivity.
  - intros w'. destruct (truthy database); reflexivity.
  - intros w'.
    exact (scoped_run database (_client cfg user password host port)
             (influxdb.update_database_user_password (PStr name) passwd) (influxdb.update_cluster_admin_password (PStr name) passwd) w').
Qed.

Lemma user_remove_run (name : string)
    (database user password host port : pyval) (w : world L) :
  exists rl rg lg gevs,
    scoped remote database guard_client influxdb.get_database_users
      influxdb.get_list_cluster_admins (lib w) rl lg gevs /\
    checked name rl rg /\
    user_exists remote cfg name database PNone PNone PNone PNone w
    = (rg, World lg (trace w ++ gevs)) /\
    exists r l' evs,
      user_remove remote cfg name database user password host port w
      = (r, World l' (trace w ++ evs)) /\
      guarded false rg lg gevs
        (if truthy database
         then EvLog "User {0!r} does not exist for DB {0!r}" [PStr name; database]
         else EvLog "Cluster admin {0!r} does not exist" [PStr name])
        (scoped remote database (_client cfg user password host port)
           (influxdb.delete_database_user user) (influxdb.delete_cluster_admin user))
        r l' evs.
Proof.
  destruct (user_exists_run name database PNone PNone PNone PNone w)
    as (rl & rg & lg & gevs & Hsc & Hck & _ & Hg).
  exists rl, rg, lg, gevs. split; [exact Hsc|]. split; [exact Hck|].
  split; [exact Hg|]. unfold user_remove.
  eapply guarded_run; [ | | | exact Hg].
  - intros e w'. destruct (truthy e); reflexivity.
  - intros w'. destruct (truthy database); reflexivity.
  - intros w'.
    exact (scoped_run database (_client cfg user password host port)
             (influxdb.delete_database_user user) (influxdb.delete_cluster_admin user) w').
Qed.

(** How a connection argument is resolved: itself when truthy, else the
    store's value under its key, else the default. *)
Lemma client_fields (user password host port : pyval) :
  _client cfg user password host port =
  influxdb.Handle
    (influxdb.InfluxDBClient
       (if truthy host then host
        else config_option cfg "influxdb.host" (PStr "localhost"))
       (if truthy port then port
        else config_option cfg "influxdb.port" (PInt 8086))
       (if truthy user then user
        else config_option cfg "influxdb.user" (PStr "root"))
       (if truthy password then password
        else config_option cfg "influxdb.password" (PStr "root")))
    [].
Proof.
  unfold _client.
  destruct (truthy user), (truthy password), (truthy host), (truthy port);
    reflexivity.
Qed.

(** C4, amended. Parameter resolution is total and has three levels, the
    first decided by truth value: for each of user, password, host and port
    a truthy argument is used as it is; otherwise the value the store holds
    under the field's key is used; otherwise the built-in default (user
    "root", password "root", host "localhost", port 8086).  The client is
    always built, from these four values, with no call made on it yet. *)
Theorem client_resolution (user password host port : pyval) :
  let c := influxdb.built (_client cfg user password host port) in
  ((truthy user = true -> influxdb.username c = user) /\
   (truthy user = false -> forall v,
      cfg !! "influxdb.user" = Some v -> influxdb.username c = v) /\
   (truthy user = false ->
      cfg !! "influxdb.user" = None -> influxdb.username c = PStr "root")) /\
  ((truthy password = true -> influxdb.password c = password) /\
   (truthy password = false -> forall v,
      cfg !! "influxdb.password" = Some v -> influxdb.password c = v) /\
   (truthy password = false ->
      cfg !! "influxdb.password" = None ->
      influxdb.password c = PStr "root")) /\
  ((truthy host = true -> influxdb.host c = host) /\
   (truthy host = false -> forall v,
      cfg !! "influxdb.host" = Some v -> influxdb.host c = v) /\
   (truthy host = false ->
      cfg !! "influxdb.host" = None ->
      influxdb.host c = PStr "localhost")) /\
  ((truthy port = true -> influxdb.port c = port) /\
   (truthy port = false -> forall v,
      cfg !! "influxdb.port" = Some v -> influxdb.port c = v) /\
   (truthy port = false ->
      cfg !! "influxdb.port" = None -> influxdb.port c = PInt 8086)) /\
  influxdb.calls (_client cfg user password host port) = [].
Proof.
  rewrite client_fields. cbn [influxdb.built influxdb.calls influxdb.username
    influxdb.password influxdb.host influxdb.port]. unfold config_option.
  repeat split.
  all: try (intros ->; reflexivity).
  all: try (intros -> v ->; reflexivity).
  all: intros -> ->; reflexivity.
Qed.

(** *** The existence check changes nothing *)

Lemma scoped_listing_mutations database c l r l' evs :
  scoped remote database c influxdb.get_database_users
    influxdb.get_list_cluster_admins l r l' evs ->
  mutations evs = [].
Proof. destruct 1; reflexivity. Qed.

Lemma scoped_mutations database c m_db m_admin l r l' evs :
  influxdb.mutating m_db = true -> influxdb.mutating m_admin = true ->
  scoped remote database c m_db m_admin l r l' evs ->
  (mutations evs = [] /\ exists e, r = Raise e) \/
  mutations evs = [if truthy database then m_db else m_admin].
Proof.
  intros Hdb Hadm. destruct 1 as [r l1 -> _|e l1 -> _|v l1 r l2 -> _ _].
  - right. simpl. rewrite Hadm. reflexivity.
  - left. split; [reflexivity | eexists; reflexivity].
  - right. simpl. rewrite Hdb. reflexivity.
Qed.

Lemma db_exists_mutations name user password host port w r w1 :
  db_exists remote cfg name user password host port w = (r, w1) ->
  mutations (trace w1) = mutations (trace w).
Proof.
  destruct (db_exists_run name user password host port w)
    as (rl & r' & l' & _ & _ & _ & Hrun).
  rewrite Hrun. intros H. injection H as _ <-. cbn [trace].
  rewrite mutations_app. apply app_nil_r.
Qed.

Lemma user_exists_mutations name database user password host port w r w1 :
  user_exists remote cfg name database user password host port w = (r, w1) ->
  mutations (trace w1) = mutations (trace w).
Proof.
  destruct (user_exists_run name database user password host port w)
    as (rl & r' & l' & evs & Hsc & _ & _ & Hrun).
  rewrite Hrun. intros H. injection H as _ <-. cbn [trace].
  rewrite mutations_app, (scoped_listing_mutations _ _ _ _ _ _ Hsc).
  apply app_nil_r.
Qed.

(** A guarded mutation records at most one mutating call, the action's, and
    only after an existence check whose answer was not the skipping one. *)
Lemma guarded_once (skip_if : bool) (rg rl r : res pyval) (lg l' : L)
    (gevs evs : list event) (logged : event)
    (act : L -> res pyval -> L -> list event -> Prop) (name : string)
    (m : influxdb.method) :
  checked name rl rg ->
  mutations gevs = [] ->
  mutations [logged] = [] ->
  (forall l r l' aevs, act l r l' aevs ->
                       mutations aevs = [] \/ mutations aevs = [m]) ->
  guarded skip_if rg lg gevs logged act r l' evs ->
  mutations evs = [] \/
  (mutations evs = [m] /\ rg = Ret (PBool (negb skip_if))).
Proof.
  intros Hck Hg Hlog Hact.
  destruct 1 as [e ->|v -> Hv|v r l1 aevs -> Hv Ha].
  - left. exact Hg.
  - left. rewrite mutations_app, Hg, Hlog. reflexivity.
  - rewrite mutations_app, Hg. simpl.
    destruct (Hact _ _ _ _ Ha) as [->| ->]; [left; reflexivity | right].
    split; [reflexivity|].
    destruct (checked_bool _ _ _ Hck) as [b ->]. simpl in Hv. congruence.
Qed.

Lemma called_mutations c m l r l' evs :
  influxdb.mutating m = true ->
  called remote c m l r l' evs ->
  mutations evs = [] \/ mutations evs = [m].
Proof. intros Hm. destruct 1. right. simpl. rewrite Hm. reflexivity. Qed.

Lemma scoped_once database c m_db m_admin l r l' evs :
  influxdb.mutating m_db = true -> influxdb.mutating m_admin = true ->
  scoped remote database c m_db m_admin l r l' evs ->
  mutations evs = [] \/
  mutations evs = [if truthy database then m_db else m_admin].
Proof.
  intros Hdb Hadm Hsc.
  destruct (scoped_mutations _ _ _ _ _ _ _ _ Hdb Hadm Hsc) as [[H _]|H];
    [left | right]; exact H.
Qed.

(** The branch on [database], written out for each way it can go. *)
Lemma scoped_admin_run (database : pyval) (c : influxdb.handle)
    (m_db m_admin : influxdb.method) (w : world L) (r : res pyval) (l2 : L) :
  let act : M L pyval :=
    if truthy database then
      c' ← invoke_ remote c (influxdb.switch_db database);
      invoke remote c' m_db
    else invoke remote c m_admin in
  truthy database = false ->
  remote (influxdb.built c) (influxdb.calls c) m_admin (lib w) = (r, l2) ->
  act w = (r, World l2 (trace w ++ [EvCall (influxdb.built c) m_admin])).
Proof.
  intros act Hdb Hm. subst act. rewrite Hdb, invoke_run, Hm. reflexivity.
Qed.

Lemma scoped_db_run (database : pyval) (c : influxdb.handle)
    (m_db m_admin : influxdb.method) (w : world L) (v : pyval)
    (r : res pyval) (l1 l2 : L) :
  let act : M L pyval :=
    if truthy database then
      c' ← invoke_ remote c (influxdb.switch_db database);
      invoke remote c' m_db
    else invoke remote c m_admin in
  truthy database = true ->
  remote (influxdb.built c) (influxdb.calls c)
    (influxdb.switch_db database) (lib w) = (Ret v, l1) ->
  remote (influxdb.built c) (influxdb.calls c ++ [influxdb.switch_db database])
    m_db l1 = (r, l2) ->
  act w = (r, World l2 (trace w
                        ++ [EvCall (influxdb.built c)
                              (influxdb.switch_db database);
                            EvCall (influxdb.built c) m_db])).
Proof.
  intros act Hdb Hsw Hm. subst act. rewrite Hdb. unfold invoke_.
  rewrite !bind_run, invoke_run, Hsw. cbn [fst snd]. unfold mret, M_ret.
  rewrite invoke_run. cbn [influxdb.built influxdb.calls lib trace].
  rewrite Hm, <- app_assoc. reflexivity.
Qed.

(** C2. Remove and change-password are guarded by the existence check.
    When the check the function makes ([db_exists name], or
    [user_exists name database]) answers [False], [db_remove], [user_remove]
    and [user_chpass] return [False] and no mutating call reaches the client.
    When it answers [True], the one action call is issued (after the switch
    to the database, for a database-scoped principal) and its result is
    returned.  In every run at most one mutating call is recorded, and one is
    recorded only when the check answered [True]. *)
Theorem remove_chpass_guard (name : string)
    (passwd database user password host port : pyval) (w w1 : world L) :
  let c := _client cfg user password host port in
  let b := influxdb.built c in
  (* db_remove *)
  ((db_exists remote cfg name PNone PNone PNone PNone w
    = (Ret (PBool false), w1) ->
    exists w2,
      db_remove remote cfg name user password host port w
      = (Ret (PBool false), w2) /\
      lib w2 = lib w1 /\ mutations (trace w2) = mutations (trace w)) /\
   (db_exists remote cfg name PNone PNone PNone PNone w
    = (Ret (PBool true), w1) ->
    forall r l2,
      remote b [] (influxdb.delete_database (PStr name)) (lib w1) = (r, l2) ->
      db_remove remote cfg name user password host port w
      = (r, World l2
              (trace w1 ++ [EvCall b (influxdb.delete_database (PStr name))])))
   /\
   (forall r w2,
      db_remove remote cfg name user password host port w = (r, w2) ->
      mutations (trace w2) = mutations (trace w) \/
      (mutations (trace w2)
       = mutations (trace w) ++ [influxdb.delete_database (PStr name)] /\
       exists w1', db_exists remote cfg name PNone PNone PNone PNone w
                   = (Ret (PBool true), w1')))) /\
  (* user_remove *)
  ((user_exists remote cfg name database PNone PNone PNone PNone w
    = (Ret (PBool false), w1) ->
    exists w2,
      user_remove remote cfg name database user password host port w
      = (Ret (PBool false), w2) /\
      lib w2 = lib w1 /\ mutations (trace w2) = mutations (trace w)) /\
   (user_exists remote cfg name database PNone PNone PNone PNone w
    = (Ret (PBool true), w1) ->
    (truthy database = false ->
     forall r l2,
       remote b [] (influxdb.delete_cluster_admin user) (lib w1) = (r, l2) ->
       user_remove remote cfg name database user password host port w
       = (r, World l2
               (trace w1 ++ [EvCall b (influxdb.delete_cluster_admin user)])))
    /\
    (truthy database = true ->
     forall v l1 r l2,
       remote b [] (influxdb.switch_db database) (lib w1) = (Ret v, l1) ->
       remote b [influxdb.switch_db database]
         (influxdb.delete_database_user user) l1 = (r, l2) ->
       user_remove remote cfg name database user password host port w
       = (r, World l2
               (trace w1 ++ [EvCall b (influxdb.switch_db database);
                             EvCall b (influxdb.delete_database_user user)]))))
   /\
   (forall r w2,
      user_remove remote cfg name database user password host port w
      = (r, w2) ->
      mutations (trace w2) = mutations (trace w) \/
      (mutations (trace w2)
       = mutations (trace w)
         ++ [if truthy database then influxdb.delete_database_user user
             else influxdb.delete_cluster_admin user] /\
       exists w1',
         user_exists remote cfg name database PNone PNone PNone PNone w
         = (Ret (PBool true), w1')))) /\
  (* user_chpass *)
  ((user_exists remote cfg name database PNone PNone PNone PNone w
    = (Ret (PBool false), w1) ->
    exists w2,
      user_chpass remote cfg name passwd database user password host port w
      = (Ret (PBool false), w2) /\
      lib w2 = lib w1 /\ mutations (trace w2) = mutations (trace w)) /\
   (user_exists remote cfg name database PNone PNone PNone PNone w
    = (Ret (PBool true), w1) ->
    (truthy database = false ->
     forall r l2,
       remote b []
         (influxdb.update_cluster_admin_password (PStr name) passwd) (lib w1)
       = (r, l2) ->
       user_chpass remote cfg name passwd database user password host port w
       = (r, World l2
               (trace w1
                ++ [EvCall b (influxdb.update_cluster_admin_password
                                (PStr name) passwd)])))
    /\
    (truthy database = true ->
     forall v l1 r l2,
       remote b [] (influxdb.switch_db database) (lib w1) = (Ret v, l1) ->
       remote b [influxdb.switch_db database]
         (influxdb.update_database_user_password (PStr name) passwd) l1
       = (r, l2) ->
       user_chpass remote cfg name passwd database user password host port w
       = (r, World l2
               (trace w1
                ++ [EvCall b (influxdb.switch_db database);
                    EvCall b (influxdb.update_database_user_password
                                (PStr name) passwd)]))))
   /\
   (forall r w2,
      user_chpass remote cfg name passwd database user password host port w
      = (r, w2) ->
      mutations (trace w2) = mutations (trace w) \/
      (mutations (trace w2)
       = mutations (trace w)
         ++ [if truthy database
             then influxdb.update_database_user_password (PStr name) passwd
             else influxdb.update_cluster_admin_password (PStr name) passwd]
       /\
       exists w1',
         user_exists remote cfg name database PNone PNone PNone PNone w
         = (Ret (PBool true), w1')))).
Proof.
  intros c b.
  assert (Hlog : forall (d : pyval) (e1 e2 : string) (a1 a2 : list pyval),
             mutations [if truthy d then EvLog e1 a1 else EvLog e2 a2] = []).
  { intros d e1 e2 a1 a2. destruct (truthy d); reflexivity. }
  split; [|split]; (split; [|split]).
  (* db_remove *)
  - intros Hg. unfold db_remove. rewrite bind_run, Hg. eexists.
    split; [reflexivity|]. split; [reflexivity|]. cbn [trace].
    rewrite mutations_app, (db_exists_mutations _ _ _ _ _ _ _ _ Hg).
    apply app_nil_r.
  - intros Hg r l2 Hr. unfold db_remove. rewrite bind_run, Hg.
    cbn [truthy negb]. cbv zeta. rewrite invoke_run. fold c b.
    change (influxdb.calls c) with (@nil influxdb.method).
    rewrite Hr. reflexivity.
  - intros r w2 Hrun.
    destruct (db_remove_run name user password host port w)
      as (rl & rg & lg & _ & Hck & Hg & r' & l' & evs & Hrun' & Hgd).
    rewrite Hrun' in Hrun. injection Hrun as _ <-. cbn [trace].
    rewrite mutations_app.
    eapply (guarded_once false) in Hgd;
      [ | exact Hck | reflexivity | reflexivity
        | intros ? ? ? ?; apply called_mutations; reflexivity ].
    destruct Hgd as [-> | [-> ->]].
    + left. apply app_nil_r.
    + right. split; [reflexivity|]. eexists. exact Hg.
  (* user_remove *)
  - intros Hg. unfold user_remove. rewrite bind_run, Hg. cbn [truthy negb].
    rewrite bind_run.
    destruct (truthy database); (eexists; split; [reflexivity|];
      split; [reflexivity|]; cbn [trace];
      rewrite mutations_app, (user_exists_mutations _ _ _ _ _ _ _ _ _ Hg);
      apply app_nil_r).
  - intros Hg. unfold user_remove. rewrite bind_run, Hg. cbn [truthy negb].
    split.
    + intros Hdb r l2 Hr.
      apply (scoped_admin_run database c
               (influxdb.delete_database_user user)
               (influxdb.delete_cluster_admin user) w1 r l2 Hdb Hr).
    + intros Hdb v l1 r l2 Hsw Hr.
      apply (scoped_db_run database c
               (influxdb.delete_database_user user)
               (influxdb.delete_cluster_admin user) w1 v r l1 l2 Hdb Hsw Hr).
  - intros r w2 Hrun.
    destruct (user_remove_run name database user password host port w)
      as (rl & rg & lg & gevs & Hsc & Hck & Hg & r' & l' & evs & Hrun' & Hgd).
    rewrite Hrun' in Hrun. injection Hrun as _ <-. cbn [trace].
    rewrite mutations_app.
    eapply (guarded_once false) in Hgd;
      [ | exact Hck | exact (scoped_listing_mutations _ _ _ _ _ _ Hsc)
        | apply Hlog
        | intros ? ? ? ?; apply scoped_once; reflexivity ].
    destruct Hgd as [-> | [-> ->]].
    + left. apply app_nil_r.
    + right. split; [reflexivity|]. eexists. exact Hg.
  (* user_chpass *)
  - intros Hg. unfold user_chpass. rewrite bind_run, Hg. cbn [truthy negb].
    rewrite bind_run.
    destruct (truthy database); (eexists; split; [reflexivity|];
      split; [reflexivity|]; cbn [trace];
      rewrite mutations_app, (user_exists_mutations _ _ _ _ _ _ _ _ _ Hg);
      apply app_nil_r).
  - intros Hg. unfold user_chpass. rewrite bind_run, Hg. cbn [truthy negb].
    split.
    + intros Hdb r l2 Hr.
      apply (scoped_admin_run database c
               (influxdb.update_database_user_password (PStr name) passwd)
               (influxdb.update_cluster_admin_password (PStr name) passwd)
               w1 r l2 Hdb Hr).
    + intros Hdb v l1 r l2 Hsw Hr.
      apply (scoped_db_run database c
               (influxdb.update_database_user_password (PStr name) passwd)
               (influxdb.update_cluster_admin_password (PStr name) passwd)
               w1 v r l1 l2 Hdb Hsw Hr).
  - intros r w2 Hrun.
    destruct (user_chpass_run name passwd database user password host port w)
      as (rl & rg & lg & gevs & Hsc & Hck & Hg & r' & l' & evs & Hrun' & Hgd).
    rewrite Hrun' in Hrun. injection Hrun as _ <-. cbn [trace].
    rewrite mutations_app.
    eapply (guarded_once false) in Hgd;
      [ | exact Hck | exact (scoped_listing_mutations _ _ _ _ _ _ Hsc)
        | apply Hlog
        | intros ? ? ? ?; apply scoped_once; reflexivity ].
    destruct Hgd as [-> | [-> ->]].
    + left. apply app_nil_r.
    + right. split; [reflexivity|]. eexists. exact Hg.
Qed.

(** *** Calling create twice *)

Lemma scoped_fun database c m_db m_admin l r l' evs r2 l2 evs2 :
  scoped remote database c m_db m_admin l r l' evs ->
  scoped remote database c m_db m_admin l r2 l2 evs2 ->
  r = r2 /\ l' = l2 /\ evs = evs2.
Proof.
  destruct 1; inversion 1; subst; try congruence.
  - split; [|split]; congruence.
  - split; [|split]; congruence.
  - assert (l1 = l3) by congruence. subst l3.
    split; [|split]; congruence.
Qed.

(** What the existence checks answer depends on the library state only. *)
Lemma db_exists_lib name user password host port (w w' : world L) :
  lib w = lib w' ->
  (db_exists remote cfg name user password host port w).1
  = (db_exists remote cfg name user password host port w').1 /\
  lib (db_exists remote cfg name user password host port w).2
  = lib (db_exists remote cfg name user password host port w').2.
Proof.
  intros Hl.
  destruct (db_exists_run name user password host port w)
    as (rl & r & l1 & Hc & Hck & _ & ->).
  destruct (db_exists_run name user password host port w')
    as (rl' & r' & l1' & Hc' & Hck' & _ & ->).
  inversion Hc; subst. inversion Hc'; subst. rewrite Hl in *.
  assert (rl = rl' /\ l1 = l1') as [-> ->] by (split; congruence).
  split; [apply (checked_fun name rl'); assumption | reflexivity].
Qed.

Lemma user_exists_lib name database user password host port (w w' : world L) :
  lib w = lib w' ->
  (user_exists remote cfg name database user password host port w).1
  = (user_exists remote cfg name database user password host port w').1 /\
  lib (user_exists remote cfg name database user password host port w).2
  = lib (user_exists remote cfg name database user password host port w').2.
Proof.
  intros Hl.
  destruct (user_exists_run name database user password host port w)
    as (rl & r & l1 & evs & Hc & Hck & _ & ->).
  destruct (user_exists_run name database user password host port w')
    as (rl' & r' & l1' & evs' & Hc' & Hck' & _ & ->).
  rewrite Hl in Hc. destruct (scoped_fun _ _ _ _ _ _ _ _ _ _ _ Hc Hc')
    as (-> & -> & ->).
  split; [apply (checked_fun name rl'); assumption | reflexivity].
Qed.

Lemma app_one_neq {A} (l : list A) (x : A) : l ++ [x] <> l.
Proof.
  intros H. apply (f_equal length) in H. rewrite length_app in H.
  simpl in H. lia.
Qed.

Lemma guarded_create_returned (rg : res pyval) (lg l' : L)
    (gevs evs : list event) (logged : event)
    (act : L -> res pyval -> L -> list event -> Prop) (r1 : pyval) :
  guarded true rg lg gevs logged act (Ret r1) l' evs ->
  (exists v, rg = Ret v /\ truthy v = true /\ l' = lg /\
             evs = gevs ++ [logged]) \/
  (exists v aevs, rg = Ret v /\ truthy v = false /\
                  act lg (Ret r1) l' aevs /\ evs = gevs ++ aevs).
Proof.
  inversion 1 as [e Hrg Hr|v Hrg Hv Hr Hl Hevs
                 |v r' l1 aevs Hrg Hv Hact Hr Hl Hevs].
  - left. exists v. repeat split; assumption.
  - right. exists v, aevs. repeat split; assumption.
Qed.

(** X12. Create is idempotent through its existence guard, on the guard's
    own connection.  When the check the function makes answers [True],
    [db_create] and [user_create] make no create call, log an informational
    record and return [False].  And when a first create call returned
    normally, a second one in the world it left returns [False], issues no
    mutating call and leaves the library state, hence the collection, as it
    was -- provided that the guard's listing, which is made through the
    configured or default connection whatever the caller passed, reads
    without changing that state and shows the name once a create call has
    been issued. *)
Theorem create_idempotent (name : string)
    (passwd database user password host port r1 : pyval) (w w1 : world L) :
  (* the guard *)
  (db_exists remote cfg name PNone PNone PNone PNone w
   = (Ret (PBool true), w1) ->
   db_create remote cfg name user password host port w
   = (Ret (PBool false),
      World (lib w1)
        (trace w1 ++ [EvLog "DB {0!r} already exists" [PStr name]])) /\
   mutations (trace w1) = mutations (trace w)) /\
  (user_exists remote cfg name database PNone PNone PNone PNone w
   = (Ret (PBool true), w1) ->
   user_create remote cfg name passwd database user password host port w
   = (Ret (PBool false),
      World (lib w1)
        (trace w1
         ++ [if truthy database
             then EvLog "User {0!r} already exists for DB {0!r}"
                    [PStr name; database]
             else EvLog "Cluster admin {0!r} already exists" [PStr name]])) /\
   mutations (trace w1) = mutations (trace w)) /\
  (* twice in succession *)
  ((forall w0, lib (db_list remote cfg PNone PNone PNone PNone w0).2 = lib w0) ->
   db_create remote cfg name user password host port w = (Ret r1, w1) ->
   (mutations (trace w1) <> mutations (trace w) ->
    exists v w', db_list remote cfg PNone PNone PNone PNone w1 = (Ret v, w') /\
                 shows name v) ->
   exists w2,
     db_create remote cfg name user password host port w1
     = (Ret (PBool false), w2) /\
     lib w2 = lib w1 /\ mutations (trace w2) = mutations (trace w1)) /\
  ((forall w0, lib (user_list remote cfg database PNone PNone PNone PNone w0).2
               = lib w0) ->
   user_create remote cfg name passwd database user password host port w
   = (Ret r1, w1) ->
   (mutations (trace w1) <> mutations (trace w) ->
    exists v w',
      user_list remote cfg database PNone PNone PNone PNone w1 = (Ret v, w') /\
      shows name v) ->
   exists w2,
     user_create remote cfg name passwd database user password host port w1
     = (Ret (PBool false), w2) /\
     lib w2 = lib w1 /\ mutations (trace w2) = mutations (trace w1)).
Proof.
  assert (Hdb : forall wa wb,
             db_exists remote cfg name PNone PNone PNone PNone wa
             = (Ret (PBool true), wb) ->
             db_create remote cfg name user password host port wa
             = (Ret (PBool false),
                World (lib wb)
                  (trace wb ++ [EvLog "DB {0!r} already exists" [PStr name]]))).
  { intros wa wb Hg. unfold db_create. rewrite bind_run, Hg. reflexivity. }
  assert (Hus : forall wa wb,
             user_exists remote cfg name database PNone PNone PNone PNone wa
             = (Ret (PBool true), wb) ->
             user_create remote cfg name passwd database user password host
               port wa
             = (Ret (PBool false),
                World (lib wb)
                  (trace wb
                   ++ [if truthy database
                       then EvLog "User {0!r} already exists for DB {0!r}"
                              [PStr name; database]
                       else EvLog "Cluster admin {0!r} already exists"
                              [PStr name]]))).
  { intros wa wb Hg. unfold user_create. rewrite bind_run, Hg.
    cbn [truthy]. rewrite bind_run. destruct (truthy database); reflexivity. }
  split; [|split; [|split]].
  - intros Hg. split; [apply Hdb, Hg|].
    apply (db_exists_mutations _ _ _ _ _ _ _ _ Hg).
  - intros Hg. split; [apply Hus, Hg|].
    apply (user_exists_mutations _ _ _ _ _ _ _ _ _ Hg).
  - intros Hro Hrun Hvis.
    (* it is enough that the guard answers True in [w1] *)
    cut (exists wb, db_exists remote cfg name PNone PNone PNone PNone w1
                    = (Ret (PBool true), wb) /\ lib wb = lib w1).
    { intros (wb & Hg & Hl). eexists. split; [apply Hdb, Hg|].
      split; [exact Hl|]. cbn [trace]. rewrite mutations_app.
      rewrite (db_exists_mutations _ _ _ _ _ _ _ _ Hg). apply app_nil_r. }
    destruct (db_exists_run name PNone PNone PNone PNone w1)
      as (rl2 & rg2 & l2 & _ & Hck2 & Hl2 & Hg2).
    assert (Hlib2 : l2 = lib w1).
    { specialize (Hro w1). rewrite Hl2 in Hro. exact Hro. }
    cut (rg2 = Ret (PBool true)).
    { intros ->. eexists. split; [exact Hg2 | exact Hlib2]. }
    destruct (db_create_run name user password host port w)
      as (rl & rg & lg & _ & Hck & Hg & r & l' & evs & Hrun' & Hgd).
    rewrite Hrun' in Hrun. injection Hrun as -> Hw1.
    assert (Hlw1 : lib w1 = l') by (rewrite <- Hw1; reflexivity).
    assert (Htw1 : trace w1 = trace w ++ evs) by (rewrite <- Hw1; reflexivity).
    clear Hw1.
    destruct (guarded_create_returned _ _ _ _ _ _ _ _ Hgd)
      as [(v & -> & Hv & -> & ->) | (v & aevs & -> & Hv & Hact & ->)].
    + (* the first call was already skipped *)
      assert (Hlw : lib w = lib w1).
      { destruct (db_exists_run name PNone PNone PNone PNone w)
          as (rl0 & rg0 & l0 & _ & _ & Hl0 & Hg0).
        rewrite Hg0 in Hg. injection Hg as _ <-.
        specialize (Hro w). rewrite Hl0 in Hro. rewrite Hlw1, <- Hro.
        reflexivity. }
      destruct (db_exists_lib name PNone PNone PNone PNone w w1 Hlw)
        as [Ha _].
      rewrite Hg, Hg2 in Ha. cbn [fst] in Ha. subst rg2.
      rewrite (checked_true _ _ _ Hck Hv). reflexivity.
    + (* the first call issued the create *)
      destruct Hact as [r l1' Hrem].
      destruct Hvis as (v' & w' & Hlist & Hshows).
      { rewrite Htw1, !mutations_app. simpl. apply app_one_neq. }
      rewrite Hl2 in Hlist. injection Hlist as -> _.
      apply (checked_shows name v' rg2 Hshows Hck2).
  - intros Hro Hrun Hvis.
    cut (exists wb,
            user_exists remote cfg name database PNone PNone PNone PNone w1
            = (Ret (PBool true), wb) /\ lib wb = lib w1).
    { intros (wb & Hg & Hl). eexists. split; [apply Hus, Hg|].
      split; [exact Hl|]. cbn [trace]. rewrite mutations_app.
      rewrite (user_exists_mutations _ _ _ _ _ _ _ _ _ Hg).
      destruct (truthy database); apply app_nil_r. }
    destruct (user_exists_run name database PNone PNone PNone PNone w1)
      as (rl2 & rg2 & l2 & gevs2 & _ & Hck2 & Hl2 & Hg2).
    assert (Hlib2 : l2 = lib w1).
    { specialize (Hro w1). rewrite Hl2 in Hro. exact Hro. }
    cut (rg2 = Ret (PBool true)).
    { intros ->. eexists. split; [exact Hg2 | exact Hlib2]. }
    destruct (user_create_run name passwd database user password host port w)
      as (rl & rg & lg & gevs & Hsc & Hck & Hg & r & l' & evs & Hrun' & Hgd).
    rewrite Hrun' in Hrun. injection Hrun as -> Hw1.
    assert (Hlw1 : lib w1 = l') by (rewrite <- Hw1; reflexivity).
    assert (Htw1 : trace w1 = trace w ++ evs) by (rewrite <- Hw1; reflexivity).
    clear Hw1.
    assert (Hgm : mutations gevs = [])
      by exact (scoped_listing_mutations _ _ _ _ _ _ Hsc).
    destruct (guarded_create_returned _ _ _ _ _ _ _ _ Hgd)
      as [(v & -> & Hv & -> & ->) | (v & aevs & -> & Hv & Hact & ->)].
    + assert (Hlw : lib w = lib w1).
      { destruct (user_exists_run name database PNone PNone PNone PNone w)
          as (rl0 & rg0 & l0 & gevs0 & _ & _ & Hl0 & Hg0).
        rewrite Hg0 in Hg. injection Hg as _ <- _.
        specialize (Hro w). rewrite Hl0 in Hro. rewrite Hlw1, <- Hro.
        reflexivity. }
      destruct (user_exists_lib name database PNone PNone PNone PNone w w1 Hlw)
        as [Ha _].
      rewrite Hg, Hg2 in Ha. cbn [fst] in Ha. subst rg2.
      rewrite (checked_true _ _ _ Hck Hv). reflexivity.
    + destruct Hvis as (v' & w' & Hlist & Hshows).
      { rewrite Htw1, !mutations_app, Hgm. simpl.
        destruct (fun H1 H2 => scoped_mutations _ _ _ _ _ _ _ _ H1 H2 Hact)
          as [[_ [e He]]| ->]; [reflexivity | reflexivity | discriminate|].
        apply app_one_neq. }
      rewrite Hl2 in Hlist. injection Hlist as -> _.
      apply (checked_shows name v' rg2 Hshows Hck2).
Qed.

(** *** Which family of calls a principal operation makes *)

Lemma scoped_false_cases database c m_db m_admin l r l' evs :
  truthy database = false ->
  scoped remote database c m_db m_admin l r l' evs ->
  evs = [EvCall (influxdb.built c) m_admin] /\
  remote (influxdb.built c) (influxdb.calls c) m_admin l = (r, l').
Proof. intros Hdb. destruct 1; try congruence. split; trivial. Qed.

Lemma scoped_true_cases database c m_db m_admin l r l' evs :
  truthy database = true ->
  scoped remote database c m_db m_admin l r l' evs ->
  (exists e, r = Raise e /\
             evs = [EvCall (influxdb.built c) (influxdb.switch_db database)])
  \/
  evs = [EvCall (influxdb.built c) (influxdb.switch_db database);
         EvCall (influxdb.built c) m_db].
Proof.
  intros Hdb. destruct 1; try congruence.
  - left. eexists. split; reflexivity.
  - right. reflexivity.
Qed.

Lemma guarded_cluster_only (skip_if : bool) (database : pyval)
    (gc ac : influxdb.handle) (l : L) (rl rg r : res pyval) (lg l' : L)
    (gevs evs : list event) (logged : event)
    (m_db m_admin : influxdb.method) :
  truthy database = false ->
  influxdb.cluster_admin_op m_admin = true ->
  calls_of [logged] = [] ->
  scoped remote database gc influxdb.get_database_users
    influxdb.get_list_cluster_admins l rl lg gevs ->
  guarded skip_if rg lg gevs logged
    (scoped remote database ac m_db m_admin) r l' evs ->
  cluster_only evs.
Proof.
  intros Hdb Hadm Hlog Hsc Hgd.
  destruct (scoped_false_cases _ _ _ _ _ _ _ _ Hdb Hsc) as [-> _].
  destruct Hgd as [e _|v _ _|v r l1 aevs _ _ Hact].
  - repeat constructor.
  - unfold cluster_only. rewrite calls_of_app, Hlog. repeat constructor.
  - destruct (scoped_false_cases _ _ _ _ _ _ _ _ Hdb Hact) as [-> _].
    unfold cluster_only. simpl. repeat constructor. exact Hadm.
Qed.

Lemma guarded_switched_first (skip_if : bool) (database : pyval)
    (gc ac : influxdb.handle) (l : L) (rl rg r : res pyval) (lg l' : L)
    (gevs evs : list event) (f1 f2 : string) (a1 a2 : list pyval)
    (m_db m_admin : influxdb.method) (name : string) :
  truthy database = true ->
  influxdb.database_user_op m_db = true ->
  scoped remote database gc influxdb.get_database_users
    influxdb.get_list_cluster_admins l rl lg gevs ->
  checked name rl rg ->
  guarded skip_if rg lg gevs (if truthy database then EvLog f1 a1
                              else EvLog f2 a2)
    (scoped remote database ac m_db m_admin) r l' evs ->
  switched_first database evs.
Proof.
  intros Hdb Hop Hsc Hck Hgd.
  destruct (scoped_true_cases _ _ _ _ _ _ _ _ Hdb Hsc) as [(e & -> & ->)| ->].
  - inversion Hck; subst.
    destruct Hgd as [e' _|v Hv _|v r l1 aevs Hv _ _]; try discriminate.
    simpl. split; trivial.
  - destruct Hgd as [e _|v _ _|v r l1 aevs _ _ Hact].
    + simpl. repeat split.
    + rewrite Hdb. simpl. repeat split.
    + destruct (scoped_true_cases _ _ _ _ _ _ _ _ Hdb Hact)
        as [(e & -> & ->)| ->]; simpl; repeat split; exact Hop.
Qed.

(** With no database the library is asked for cluster-admin calls only: when
    it answers those without raising, so does the branch. *)
Lemma scoped_admin_returns database c m_db m_admin l r l' evs :
  truthy database = false ->
  influxdb.cluster_admin_op m_admin = true ->
  (forall c hist m l, influxdb.cluster_admin_op m = true ->
                      exists v, (remote c hist m l).1 = Ret v) ->
  scoped remote database c m_db m_admin l r l' evs ->
  exists v, r = Ret v.
Proof.
  intros Hdb Hadm Hlib Hsc.
  destruct (scoped_false_cases _ _ _ _ _ _ _ _ Hdb Hsc) as [_ Hrem].
  destruct (Hlib (influxdb.built c) (influxdb.calls c) m_admin l Hadm)
    as [v Hv].
  rewrite Hrem in Hv. exists v. exact Hv.
Qed.

(** A falsy [database] sends all five principal operations to the
    cluster-admin calls. *)
Lemma cluster_scope (name : string)
    (passwd database user password host port : pyval) (w : world L) :
  truthy database = false ->
  user_list remote cfg database user password host port w
  = invoke remote (_client cfg user password host port)
      influxdb.get_list_cluster_admins w /\
  emits (user_list remote cfg database user password host port) w
    cluster_only /\
  emits (user_exists remote cfg name database user password host port) w
    cluster_only /\
  emits (user_create remote cfg name passwd database user password host port)
    w cluster_only /\
  emits (user_chpass remote cfg name passwd database user password host port)
    w cluster_only /\
  emits (user_remove remote cfg name database user password host port) w
    cluster_only.
Proof.
  intros Hdb. unfold emits.
  assert (Hlog : forall (e1 e2 : string) (a1 a2 : list pyval),
             calls_of [if truthy database then EvLog e1 a1 else EvLog e2 a2]
             = []).
  { intros. destruct (truthy database); reflexivity. }
  split; [unfold user_list; rewrite Hdb; reflexivity|].
  destruct (user_exists_run name database user password host port w)
    as (rl & r & l' & evs & Hsc & _ & Hl & He).
  destruct (scoped_false_cases _ _ _ _ _ _ _ _ Hdb Hsc) as [-> _].
  assert (Hco : forall c, cluster_only
                            [EvCall c influxdb.get_list_cluster_admins])
    by (intros c; repeat constructor).
  split; [eexists; rewrite Hl; split; [reflexivity | apply Hco]|].
  split; [eexists; rewrite He; split; [reflexivity | apply Hco]|].
  split; [|split].
  - destruct (user_create_run name passwd database user password host port w)
      as (? & ? & ? & ? & Hg & _ & _ & ? & ? & evs' & -> & Hgd).
    exists evs'. split; [reflexivity|].
    eapply guarded_cluster_only;
      [exact Hdb| |apply Hlog|exact Hg|exact Hgd]; reflexivity.
  - destruct (user_chpass_run name passwd database user password host port w)
      as (? & ? & ? & ? & Hg & _ & _ & ? & ? & evs' & -> & Hgd).
    exists evs'. split; [reflexivity|].
    eapply guarded_cluster_only;
      [exact Hdb| |apply Hlog|exact Hg|exact Hgd]; reflexivity.
  - destruct (user_remove_run name database user password host port w)
      as (? & ? & ? & ? & Hg & _ & _ & ? & ? & evs' & -> & Hgd).
    exists evs'. split; [reflexivity|].
    eapply guarded_cluster_only;
      [exact Hdb| |apply Hlog|exact Hg|exact Hgd]; reflexivity.
Qed.

Lemma guarded_starts (skip_if : bool) (rg r : res pyval) (lg l' : L)
    (gevs evs : list event) (logged hd : event)
    (act : L -> res pyval -> L -> list event -> Prop) :
  (exists tl, gevs = hd :: tl) ->
  guarded skip_if rg lg gevs logged act r l' evs ->
  exists rest, evs = hd :: rest.
Proof.
  intros [tl ->]. destruct 1; eexists; simpl; reflexivity.
Qed.

(** A falsy [database] routes to the cluster admins. *)
Lemma cluster_routing (name : string)
    (passwd database user password host port : pyval) (w : world L) :
  truthy database = false ->
  cluster_routed remote cfg name passwd database user password host port w.
Proof.
  intros Hdb. unfold cluster_routed. cbv zeta.
  split.
  { destruct (user_exists_run name database user password host port w)
      as (rl & r & l' & evs & Hsc & _ & _ & ->).
    destruct (scoped_false_cases _ _ _ _ _ _ _ _ Hdb Hsc) as [-> _].
    reflexivity. }
  split.
  { destruct (user_create_run name passwd database user password host port w)
      as (? & ? & ? & gevs & Hsc & _ & _ & ? & ? & evs & -> & Hgd).
    destruct (scoped_false_cases _ _ _ _ _ _ _ _ Hdb Hsc) as [-> _].
    destruct (guarded_starts _ _ _ _ _ _ _ _ _ _ (ex_intro _ [] eq_refl) Hgd)
      as [rest ->].
    exists rest. reflexivity. }
  split.
  { destruct (user_chpass_run name passwd database user password host port w)
      as (? & ? & ? & gevs & Hsc & _ & _ & ? & ? & evs & -> & Hgd).
    destruct (scoped_false_cases _ _ _ _ _ _ _ _ Hdb Hsc) as [-> _].
    destruct (guarded_starts _ _ _ _ _ _ _ _ _ _ (ex_intro _ [] eq_refl) Hgd)
      as [rest ->].
    exists rest. reflexivity. }
  split.
  { destruct (user_remove_run name database user password host port w)
      as (? & ? & ? & gevs & Hsc & _ & _ & ? & ? & evs & -> & Hgd).
    destruct (scoped_false_cases _ _ _ _ _ _ _ _ Hdb Hsc) as [-> _].
    destruct (guarded_starts _ _ _ _ _ _ _ _ _ _ (ex_intro _ [] eq_refl) Hgd)
      as [rest ->].
    exists rest. reflexivity. }
  split; [|split].
  - intros w1 r l2 Hg Hr. unfold user_create. rewrite bind_run, Hg.
    cbn [truthy].
    apply (scoped_admin_run database (_client cfg user password host port)
             (influxdb.add_database_user (PStr name) passwd)
             (influxdb.add_cluster_admin (PStr name) passwd) w1 r l2 Hdb Hr).
  - intros w1 r l2 Hg Hr. unfold user_chpass. rewrite bind_run, Hg.
    cbn [truthy negb].
    apply (scoped_admin_run database (_client cfg user password host port)
             (influxdb.update_database_user_password (PStr name) passwd)
             (influxdb.update_cluster_admin_password (PStr name) passwd)
             w1 r l2 Hdb Hr).
  - intros w1 r l2 Hg Hr. unfold user_remove. rewrite bind_run, Hg.
    cbn [truthy negb].
    apply (scoped_admin_run database (_client cfg user password host port)
             (influxdb.delete_database_user user)
             (influxdb.delete_cluster_admin user) w1 r l2 Hdb Hr).
Qed.

(** A truthy [database] routes to the users of that database. *)
Lemma database_routing (name : string)
    (passwd database user password host port : pyval) (w : world L) :
  truthy database = true ->
  database_routed remote cfg name passwd database user password host port w.
Proof.
  intros Hdb. unfold database_routed. cbv zeta.
  assert (Hstart : forall gevs rl lg,
             scoped remote database (_client cfg PNone PNone PNone PNone)
               influxdb.get_database_users influxdb.get_list_cluster_admins
               (lib w) rl lg gevs ->
             exists tl,
               gevs = EvCall (influxdb.built
                                (_client cfg PNone PNone PNone PNone))
                        (influxdb.switch_db database) :: tl).
  { intros gevs rl lg Hsc.
    destruct (scoped_true_cases _ _ _ _ _ _ _ _ Hdb Hsc)
      as [(e & _ & ->)| ->]; eexists; reflexivity. }
  split.
  { intros e l1 Hsw. unfold user_list, invoke_.
    rewrite Hdb, !bind_run, invoke_run.
    change (influxdb.calls (_client cfg user password host port))
      with (@nil influxdb.method).
    rewrite Hsw. reflexivity. }
  split.
  { intros v l1 r l2 Hsw Hr.
    apply (scoped_db_run database (_client cfg user password host port)
             influxdb.get_database_users influxdb.get_list_cluster_admins
             w v r l1 l2 Hdb Hsw Hr). }
  split.
  { destruct (user_exists_run name database user password host port w)
      as (rl & r & l' & evs & _ & _ & -> & ->). reflexivity. }
  split.
  { destruct (user_create_run name passwd database user password host port w)
      as (? & ? & ? & gevs & Hsc & _ & _ & ? & ? & evs & -> & Hgd).
    destruct (guarded_starts _ _ _ _ _ _ _ _ _ _ (Hstart _ _ _ Hsc) Hgd)
      as [rest ->].
    exists rest. reflexivity. }
  split.
  { destruct (user_chpass_run name passwd database user password host port w)
      as (? & ? & ? & gevs & Hsc & _ & _ & ? & ? & evs & -> & Hgd).
    destruct (guarded_starts _ _ _ _ _ _ _ _ _ _ (Hstart _ _ _ Hsc) Hgd)
      as [rest ->].
    exists rest. reflexivity. }
  split.
  { destruct (user_remove_run name database user password host port w)
      as (? & ? & ? & gevs & Hsc & _ & _ & ? & ? & evs & -> & Hgd).
    destruct (guarded_starts _ _ _ _ _ _ _ _ _ _ (Hstart _ _ _ Hsc) Hgd)
      as [rest ->].
    exists rest. reflexivity. }
  split; [|split].
  - intros w1 v l1 r l2 Hg Hsw Hr. unfold user_create.
    rewrite bind_run, Hg. cbn [truthy].
    apply (scoped_db_run database (_client cfg user password host port)
             (influxdb.add_database_user (PStr name) passwd)
             (influxdb.add_cluster_admin (PStr name) passwd)
             w1 v r l1 l2 Hdb Hsw Hr).
  - intros w1 v l1 r l2 Hg Hsw Hr. unfold user_chpass.
    rewrite bind_run, Hg. cbn [truthy negb].
    apply (scoped_db_run database (_client cfg user password host port)
             (influxdb.update_database_user_password (PStr name) passwd)
             (influxdb.update_cluster_admin_password (PStr name) passwd)
             w1 v r l1 l2 Hdb Hsw Hr).
  - intros w1 v l1 r l2 Hg Hsw Hr. unfold user_remove.
    rewrite bind_run, Hg. cbn [truthy negb].
    apply (scoped_db_run database (_client cfg user password host port)
             (influxdb.delete_database_user user)
             (influxdb.delete_cluster_admin user)
             w1 v r l1 l2 Hdb Hsw Hr).
Qed.

(** The families of calls the principal operations keep to, and that the
    absent database is no error. *)
Lemma scope_families (name : string)
    (passwd database user password host port : pyval) (w : world L) :
  (user_list remote cfg PNone user password host port w
   = invoke remote (_client cfg user password host port)
       influxdb.get_list_cluster_admins w /\
   emits (user_list remote cfg PNone user password host port) w cluster_only
   /\
   emits (user_exists remote cfg name PNone user password host port) w
     cluster_only /\
   emits (user_create remote cfg name passwd PNone user password host port) w
     cluster_only /\
   emits (user_chpass remote cfg name passwd PNone user password host port) w
     cluster_only /\
   emits (user_remove remote cfg name PNone user password host port) w
     cluster_only) /\
  (truthy database = true ->
   emits (user_list remote cfg database user password host port) w
     (switched_first database) /\
   emits (user_exists remote cfg name database user password host port) w
     (switched_first database) /\
   emits
     (user_create remote cfg name passwd database user password host port) w
     (switched_first database) /\
   emits
     (user_chpass remote cfg name passwd database user password host port) w
     (switched_first database) /\
   emits (user_remove remote cfg name database user password host port) w
     (switched_first database)) /\
  ((forall c hist m l, influxdb.cluster_admin_op m = true ->
                       exists v, (remote c hist m l).1 = Ret v) ->
   (forall c hist l v,
      (remote c hist influxdb.get_list_cluster_admins l).1 = Ret v ->
      readable v) ->
   (exists v, (user_list remote cfg PNone user password host port w).1
              = Ret v) /\
   (exists v, (user_exists remote cfg name PNone user password host port w).1
              = Ret v) /\
   (exists v,
      (user_create remote cfg name passwd PNone user password host port w).1
      = Ret v) /\
   (exists v,
      (user_chpass remote cfg name passwd PNone user password host port w).1
      = Ret v) /\
   (exists v, (user_remove remote cfg name PNone user password host port w).1
              = Ret v)).
Proof.
  split; [|split].
  - exact (cluster_scope name passwd PNone user password host port w eq_refl).
  - intros Hdb. unfold emits.
    destruct (user_exists_run name database user password host port w)
      as (rl & r & l' & evs & Hsc & _ & Hl & He).
    assert (Hsf : switched_first database evs).
    { destruct (scoped_true_cases _ _ _ _ _ _ _ _ Hdb Hsc)
        as [(e & -> & ->)| ->]; simpl; repeat split. }
    split; [eexists; rewrite Hl; split; [reflexivity | exact Hsf]|].
    split; [eexists; rewrite He; split; [reflexivity | exact Hsf]|].
    split; [|split].
    + destruct
        (user_create_run name passwd database user password host port w)
        as (? & ? & ? & ? & Hg & Hck & _ & ? & ? & evs' & -> & Hgd).
      exists evs'. split; [reflexivity|].
      eapply guarded_switched_first;
        [exact Hdb| |exact Hg|exact Hck|exact Hgd]; reflexivity.
    + destruct
        (user_chpass_run name passwd database user password host port w)
        as (? & ? & ? & ? & Hg & Hck & _ & ? & ? & evs' & -> & Hgd).
      exists evs'. split; [reflexivity|].
      eapply guarded_switched_first;
        [exact Hdb| |exact Hg|exact Hck|exact Hgd]; reflexivity.
    + destruct (user_remove_run name database user password host port w)
        as (? & ? & ? & ? & Hg & Hck & _ & ? & ? & evs' & -> & Hgd).
      exists evs'. split; [reflexivity|].
      eapply guarded_switched_first;
        [exact Hdb| |exact Hg|exact Hck|exact Hgd]; reflexivity.
  - intros Hlib Hread.
    assert (Hguard : forall rl rg lg gevs,
               scoped remote PNone (_client cfg PNone PNone PNone PNone)
                 influxdb.get_database_users influxdb.get_list_cluster_admins
                 (lib w) rl lg gevs ->
               checked name rl rg -> exists b, rg = Ret (PBool b)).
    { intros rl rg lg gevs Hsc Hck.
      destruct (scoped_false_cases PNone _ _ _ _ _ _ _ eq_refl Hsc) as [_ Hrem].
      destruct (scoped_admin_returns PNone _ _ influxdb.get_list_cluster_admins
                  _ _ _ _ eq_refl eq_refl Hlib Hsc)
        as [v ->].
      eapply checked_readable; [|exact Hck].
      eapply Hread. rewrite Hrem. reflexivity. }
    assert (Hact : forall skip_if rg lg gevs logged ac m_db m_admin r l' evs,
               influxdb.cluster_admin_op m_admin = true ->
               (exists b, rg = Ret (PBool b)) ->
               guarded skip_if rg lg gevs logged
                 (scoped remote PNone ac m_db m_admin) r l' evs ->
               exists v, r = Ret v).
    { intros skip_if rg lg gevs logged ac m_db m_admin r l' evs Hadm [b ->].
      destruct 1 as [e He|v _ _|v r l1 aevs _ _ Ha].
      - discriminate.
      - eexists; reflexivity.
      - exact (scoped_admin_returns PNone _ _ _ _ _ _ _ eq_refl Hadm Hlib Ha). }
    destruct (user_exists_run name PNone user password host port w)
      as (rl & r & l' & evs & Hsc & Hck & Hl & He).
    destruct (scoped_admin_returns PNone _ _ influxdb.get_list_cluster_admins
                  _ _ _ _ eq_refl eq_refl Hlib Hsc)
      as [v ->].
    split; [exists v; rewrite Hl; reflexivity|].
    split.
    { destruct (scoped_false_cases PNone _ _ _ _ _ _ _ eq_refl Hsc) as [_ Hrem].
      assert (Hv : readable v) by (eapply Hread; rewrite Hrem; reflexivity).
      destruct (checked_readable _ _ _ Hv Hck) as [b ->].
      eexists. rewrite He. reflexivity. }
    split; [|split].
    + destruct (user_create_run name passwd PNone user password host port w)
        as (? & ? & ? & ? & Hg & Hck' & _ & ? & ? & evs' & -> & Hgd).
      eapply Hact; [|eapply Hguard; eassumption|exact Hgd]; reflexivity.
    + destruct (user_chpass_run name passwd PNone user password host port w)
        as (? & ? & ? & ? & Hg & Hck' & _ & ? & ? & evs' & -> & Hgd).
      eapply Hact; [|eapply Hguard; eassumption|exact Hgd]; reflexivity.
    + destruct (user_remove_run name PNone user password host port w)
        as (? & ? & ? & ? & Hg & Hck' & _ & ? & ? & evs' & -> & Hgd).
      eapply Hact; [|eapply Hguard; eassumption|exact Hgd]; reflexivity.
Qed.


(** C5. Scope disambiguation.  Called with [database=None], each of
    [user_list], [user_exists], [user_create], [user_chpass] and
    [user_remove] makes cluster-admin calls only (no switch, no database-user
    call): [user_list] and [user_exists] are exactly the call of
    [get_list_cluster_admins], and each mutation starts with that call and,
    when its existence check lets it act, makes the one cluster-admin call
    ([add_cluster_admin], [update_cluster_admin_password],
    [delete_cluster_admin]) and returns its answer.  Called with a database
    name (a truthy [database]), each of them makes database-user calls only,
    every one of them right after a [switch_db] to that database on the same
    client: [user_list] and [user_exists] switch and then call
    [get_database_users], and each mutation starts with the switch and, when
    its check lets it act, switches its own client and makes the one
    database-user call.  The absent database is no error: when the library
    answers the cluster-admin calls without raising and its listing can be
    read, each of the five returns normally. *)
Theorem scope_disambiguation (name : string)
    (passwd database user password host port : pyval) (w : world L) :
  ((user_list remote cfg PNone user password host port w
   = invoke remote (_client cfg user password host port)
       influxdb.get_list_cluster_admins w /\
   emits (user_list remote cfg PNone user password host port) w cluster_only
   /\
   emits (user_exists remote cfg name PNone user password host port) w
     cluster_only /\
   emits (user_create remote cfg name passwd PNone user password host port) w
     cluster_only /\
   emits (user_chpass remote cfg name passwd PNone user password host port) w
     cluster_only /\
   emits (user_remove remote cfg name PNone user password host port) w
     cluster_only) /\
  (truthy database = true ->
   emits (user_list remote cfg database user password host port) w
     (switched_first database) /\
   emits (user_exists remote cfg name database user password host port) w
     (switched_first database) /\
   emits
     (user_create remote cfg name passwd database user password host port) w
     (switched_first database) /\
   emits
     (user_chpass remote cfg name passwd database user password host port) w
     (switched_first database) /\
   emits (user_remove remote cfg name database user password host port) w
     (switched_first database)) /\
  ((forall c hist m l, influxdb.cluster_admin_op m = true ->
                       exists v, (remote c hist m l).1 = Ret v) ->
   (forall c hist l v,
      (remote c hist influxdb.get_list_cluster_admins l).1 = Ret v ->
      readable v) ->
   (exists v, (user_list remote cfg PNone user password host port w).1
              = Ret v) /\
   (exists v, (user_exists remote cfg name PNone user password host port w).1
              = Ret v) /\
   (exists v,
      (user_create remote cfg name passwd PNone user password host port w).1
      = Ret v) /\
   (exists v,
      (user_chpass remote cfg name passwd PNone user password host port w).1
      = Ret v) /\
   (exists v, (user_remove remote cfg name PNone user password host port w).1
              = Ret v))) /\
  cluster_routed remote cfg name passwd PNone user password host port w /\
  (truthy database = true ->
   database_routed remote cfg name passwd database user password host port w).
Proof.
  split;
    [exact (scope_families name passwd database user password host port w)|].
  split.
  - exact (cluster_routing name passwd PNone user password host port w
             eq_refl).
  - exact (database_routing name passwd database user password host port w).
Qed.

(** *** Which client the guard and the action go through *)





(** Falsy connection arguments and a falsy database give the computations
    of the omitted ones. *)
Lemma falsy_arguments_same (name : string)
    (passwd user password host port : pyval) (w : world L) :
  (_client cfg (PStr "") password host port
   = _client cfg PNone password host port /\
   _client cfg user (PStr "") host port = _client cfg user PNone host port /\
   _client cfg user password (PStr "") port
   = _client cfg user password PNone port /\
   _client cfg user password host (PInt 0)
   = _client cfg user password host PNone) /\
  influxdb.built (_client cfg (PStr "") (PStr "") (PStr "") (PInt 0))
  = influxdb.InfluxDBClient
      (default (PStr "localhost") (cfg !! "influxdb.host"))
      (default (PInt 8086) (cfg !! "influxdb.port"))
      (default (PStr "root") (cfg !! "influxdb.user"))
      (default (PStr "root") (cfg !! "influxdb.password")) /\
  (user_list remote cfg (PStr "") user password host port
   = user_list remote cfg PNone user password host port /\
   user_exists remote cfg name (PStr "") user password host port
   = user_exists remote cfg name PNone user password host port /\
   user_create remote cfg name passwd (PStr "") user password host port
   = user_create remote cfg name passwd PNone user password host port /\
   user_chpass remote cfg name passwd (PStr "") user password host port
   = user_chpass remote cfg name passwd PNone user password host port /\
   user_remove remote cfg name (PStr "") user password host port
   = user_remove remote cfg name PNone user password host port) /\
  (user_list remote cfg (PStr "") user password host port w
   = invoke remote (_client cfg user password host port)
       influxdb.get_list_cluster_admins w /\
   emits (user_list remote cfg (PStr "") user password host port) w
     cluster_only /\
   emits (user_exists remote cfg name (PStr "") user password host port) w
     cluster_only /\
   emits (user_create remote cfg name passwd (PStr "") user password host port)
     w cluster_only /\
   emits (user_chpass remote cfg name passwd (PStr "") user password host port)
     w cluster_only /\
   emits (user_remove remote cfg name (PStr "") user password host port) w
     cluster_only).
Proof.
  split; [repeat split; reflexivity|].
  split; [reflexivity|].
  split; [repeat split; reflexivity|].
  exact (cluster_scope name passwd (PStr "") user password host port w
           eq_refl).
Qed.

(** C10. Presence is decided by truth value.  An empty string passed for
    user, password or host, and a port of 0, give the same client as an
    omitted argument: the field comes from the configuration store, or is the
    built-in default when the store has no value.  An empty-string database
    makes each principal operation the same computation as with no database
    and routes it to the cluster admins: [user_list] and [user_exists] are
    exactly the call of [get_list_cluster_admins], and each mutation starts
    with that call and, when its existence check lets it act, makes the one
    cluster-admin call and returns its answer -- no switch and no
    database-user call is made. *)
Theorem falsy_arguments_absent (name : string)
    (passwd user password host port : pyval) (w : world L) :
  ((_client cfg (PStr "") password host port
   = _client cfg PNone password host port /\
   _client cfg user (PStr "") host port = _client cfg user PNone host port /\
   _client cfg user password (PStr "") port
   = _client cfg user password PNone port /\
   _client cfg user password host (PInt 0)
   = _client cfg user password host PNone) /\
  influxdb.built (_client cfg (PStr "") (PStr "") (PStr "") (PInt 0))
  = influxdb.InfluxDBClient
      (default (PStr "localhost") (cfg !! "influxdb.host"))
      (default (PInt 8086) (cfg !! "influxdb.port"))
      (default (PStr "root") (cfg !! "influxdb.user"))
      (default (PStr "root") (cfg !! "influxdb.password")) /\
  (user_list remote cfg (PStr "") user password host port
   = user_list remote cfg PNone user password host port /\
   user_exists remote cfg name (PStr "") user password host port
   = user_exists remote cfg name PNone user password host port /\
   user_create remote cfg name passwd (PStr "") user password host port
   = user_create remote cfg name passwd PNone user password host port /\
   user_chpass remote cfg name passwd (PStr "") user password host port
   = user_chpass remote cfg name passwd PNone user password host port /\
   user_remove remote cfg name (PStr "") user password host port
   = user_remove remote cfg name PNone user password host port) /\
  (user_list remote cfg (PStr "") user password host port w
   = invoke remote (_client cfg user password host port)
       influxdb.get_list_cluster_admins w /\
   emits (user_list remote cfg (PStr "") user password host port) w
     cluster_only /\
   emits (user_exists remote cfg name (PStr "") user password host port) w
     cluster_only /\
   emits (user_create remote cfg name passwd (PStr "") user password host port)
     w cluster_only /\
   emits (user_chpass remote cfg name passwd (PStr "") user password host port)
     w cluster_only /\
   emits (user_remove remote cfg name (PStr "") user password host port) w
     cluster_only)) /\
  cluster_routed remote cfg name passwd (PStr "") user password host port w.
Proof.
  split.
  - exact (falsy_arguments_same name passwd user password host port w).
  - exact (cluster_routing name passwd (PStr "") user password host port w
             eq_refl).
Qed.

(** C7. Query forwarding is a passthrough.  [query] switches the client
    built from the connection arguments to [database]; when the switch
    returns, it calls [query] on the same client with the query text, the
    time precision and the chunked flag it was given, and its answer, value
    or exception, is the answer of that call; when the switch raises, the
    exception is the answer and nothing is queried.  An omitted
    [time_precision] is ['s'] and an omitted [chunked] is [False]. *)
Theorem query_passthrough
    (database q time_precision chunked user password host port : pyval)
    (w : world L) :
  let b := influxdb.built (_client cfg user password host port) in
  (forall v l1 r l2,
     remote b [] (influxdb.switch_db database) (lib w) = (Ret v, l1) ->
     remote b [influxdb.switch_db database]
       (influxdb.query q time_precision chunked) l1 = (r, l2) ->
     query remote cfg database q (Some time_precision) (Some chunked)
       user password host port w
     = (r, World l2
             (trace w
              ++ [EvCall b (influxdb.switch_db database);
                  EvCall b (influxdb.query q time_precision chunked)]))) /\
  (forall e l1,
     remote b [] (influxdb.switch_db database) (lib w) = (Raise e, l1) ->
     query remote cfg database q (Some time_precision) (Some chunked)
       user password host port w
     = (Raise e,
        World l1 (trace w ++ [EvCall b (influxdb.switch_db database)]))) /\
  query remote cfg database q None None user password host port
  = query remote cfg database q (Some (PStr "s")) (Some (PBool false))
      user password host port /\
  query remote cfg database q (Some time_precision) None
    user password host port
  = query remote cfg database q (Some time_precision) (Some (PBool false))
      user password host port /\
  query remote cfg database q None (Some chunked) user password host port
  = query remote cfg database q (Some (PStr "s")) (Some chunked)
      user password host port.
Proof.
  intros b. split; [|split; [|repeat split; reflexivity]].
  - intros v l1 r l2 Hsw Hq. unfold query, invoke_. cbn [default]. unfold id.
    rewrite !bind_run, invoke_run. fold b.
    change (influxdb.calls (_client cfg user password host port))
      with (@nil influxdb.method).
    rewrite Hsw. cbn [fst snd]. unfold mret, M_ret. rewrite invoke_run.
    cbn [influxdb.built influxdb.calls lib trace].
    change (influxdb.calls (_client cfg user password host port))
      with (@nil influxdb.method).
    cbn [app]. fold b. rewrite Hq, <- app_assoc. reflexivity.
  - intros e l1 Hsw. unfold query, invoke_. cbn [default]. unfold id.
    rewrite !bind_run, invoke_run. fold b.
    change (influxdb.calls (_client cfg user password host port))
      with (@nil influxdb.method).
    rewrite Hsw. reflexivity.
Qed.

End Properties.

(** ** The theorems at concrete inputs

    The module run against the reference library [Ref], with an empty
    configuration store. *)

Lemma exists_fail_open_witness :
  db_exists Ref.remote ∅ "metrics" (PStr "mallory") (PStr "guess") PNone PNone
    Ref.w0
  = (Ret (PBool false),
     World Ref.s0 [EvCall Ref.mallory influxdb.get_database_list]) /\
  user_exists Ref.remote ∅ "root" PNone (PStr "mallory") (PStr "guess")
    PNone PNone Ref.w0
  = (Ret (PBool false),
     World Ref.s0 [EvCall Ref.mallory influxdb.get_list_cluster_admins]).
Proof.
  split.
  - apply (exists_fail_open Ref.remote ∅ "metrics" PNone (PStr "mallory")
             (PStr "guess") PNone PNone Ref.denied Ref.w0
             (World Ref.s0 [EvCall Ref.mallory influxdb.get_database_list])
             eq_refl).
    reflexivity.
  - apply (exists_fail_open Ref.remote ∅ "root" PNone (PStr "mallory")
             (PStr "guess") PNone PNone Ref.denied Ref.w0
             (World Ref.s0
                [EvCall Ref.mallory influxdb.get_list_cluster_admins])
             eq_refl).
    reflexivity.
Defined.

Lemma exists_iff_name_listed_witness :
  (exists b,
     db_exists Ref.remote ∅ "metrics" PNone PNone PNone PNone Ref.w0
     = (Ret (PBool b),
        World Ref.s0 [EvCall Ref.root influxdb.get_database_list]) /\
     (b = true <-> Exists (named "metrics") [Ref.record "metrics"])) /\
  (exists b,
     user_exists Ref.remote ∅ "bob" (PStr "metrics") PNone PNone PNone PNone
       Ref.w0
     = (Ret (PBool b),
        World Ref.s0
          [EvCall Ref.root (influxdb.switch_db (PStr "metrics"));
           EvCall Ref.root influxdb.get_database_users]) /\
     (b = true <-> Exists (named "bob") [Ref.record "alice"])).
Proof.
  split.
  - refine (proj2 (proj1 (exists_iff_name_listed Ref.remote ∅ "metrics" PNone
                            PNone PNone PNone PNone [Ref.record "metrics"]
                            Ref.w0 _) eq_refl) _).
    repeat constructor. exists (PStr "metrics"). reflexivity.
  - refine (proj2 (proj2 (exists_iff_name_listed Ref.remote ∅ "bob"
                            (PStr "metrics") PNone PNone PNone PNone
                            [Ref.record "alice"] Ref.w0 _) eq_refl) _).
    repeat constructor. exists (PStr "alice"). reflexivity.
Defined.

Lemma client_resolution_witness :
  let c := influxdb.built
             (_client (<["influxdb.host" := PStr "db1"]> ∅)
                (PStr "admin") PNone PNone PNone) in
  influxdb.username c = PStr "admin" /\
  influxdb.password c = PStr "root" /\
  influxdb.host c = PStr "db1" /\
  influxdb.port c = PInt 8086.
Proof.
  destruct (client_resolution (<["influxdb.host" := PStr "db1"]> ∅)
              (PStr "admin") PNone PNone PNone)
    as ((Hu & _) & (_ & _ & Hp) & (_ & Hh & _) & (_ & _ & Hpo) & _).
  split; [apply Hu; reflexivity|].
  split; [apply Hp; reflexivity|].
  split; [apply (Hh eq_refl (PStr "db1")); reflexivity|].
  apply Hpo; reflexivity.
Defined.

(** C4 as the spec states it fails: an explicitly supplied empty password is
    not used; the built-in default takes its place. *)
Lemma client_explicit_empty_password_overridden :
  influxdb.password
    (influxdb.built (_client ∅ (PStr "admin") (PStr "") PNone PNone))
  = PStr "root" /\
  influxdb.password
    (influxdb.built (_client ∅ (PStr "admin") (PStr "") PNone PNone))
  <> PStr "".
Proof. split; [reflexivity | discriminate]. Qed.

(** C6, on the code.  [user_remove] checks that the principal [name] exists
    and then deletes the principal named by [user], the account it connects
    as: asked to remove the cluster admin "alice" while connecting as
    "root", it deletes "root" and leaves "alice". *)
Theorem user_remove_deletes_connecting_user :
  user_remove Ref.remote ∅ "alice" PNone (PStr "root") (PStr "root")
    PNone PNone (World (Ref.Server [] ["root"; "alice"] []) [])
  = (Ret (PBool true),
     World (Ref.Server [] ["alice"] [])
       [EvCall Ref.root influxdb.get_list_cluster_admins;
        EvCall Ref.root (influxdb.delete_cluster_admin (PStr "root"))]).
Proof. reflexivity. Qed.

(** C1, on the code.  Create is not idempotent when the caller names a
    connection.  [db_create] checks existence with no connection arguments,
    that is on the configured host, and creates on the host it was given:
    called twice with [host='db2'], the second call lists the databases of
    the configured host again, finds none, logs nothing and sends
    [create_database] to "db2" a second time, where it fails. *)
Theorem db_create_twice_on_other_host :
  db_create Hosts.remote ∅ "metrics" PNone PNone (PStr "db2") PNone
    (World ([], []) [])
  = (Ret (PBool true),
     World ([], ["metrics"])
       [EvCall Ref.root influxdb.get_database_list;
        EvCall Hosts.db2 (influxdb.create_database (PStr "metrics"))]) /\
  db_create Hosts.remote ∅ "metrics" PNone PNone (PStr "db2") PNone
    (World ([], ["metrics"])
       [EvCall Ref.root influxdb.get_database_list;
        EvCall Hosts.db2 (influxdb.create_database (PStr "metrics"))])
  = (Raise (ClientError "database exists"),
     World ([], ["metrics"])
       [EvCall Ref.root influxdb.get_database_list;
        EvCall Hosts.db2 (influxdb.create_database (PStr "metrics"));
        EvCall Ref.root influxdb.get_database_list;
        EvCall Hosts.db2 (influxdb.create_database (PStr "metrics"))]).
Proof. split; reflexivity. Qed.

Lemma query_passthrough_witness :
  query Ref.remote ∅ (PStr "metrics") (PStr "SELECT * FROM cpu")
    (Some (PStr "m")) (Some (PBool true)) PNone PNone PNone PNone Ref.w0
  = (Ret (PList [PStr "SELECT * FROM cpu"; PStr "m"; PBool true]),
     World Ref.s0
       [EvCall Ref.root (influxdb.switch_db (PStr "metrics"));
        EvCall Ref.root
          (influxdb.query (PStr "SELECT * FROM cpu") (PStr "m")
             (PBool true))]) /\
  query Ref.offline ∅ (PStr "metrics") (PStr "SELECT * FROM cpu")
    (Some (PStr "m")) (Some (PBool true)) PNone PNone PNone PNone Ref.w0
  = (Raise (ClientError "connection refused"),
     World Ref.s0 [EvCall Ref.root (influxdb.switch_db (PStr "metrics"))]).
Proof.
  split.
  - refine (proj1 (query_passthrough Ref.remote ∅ (PStr "metrics")
                     (PStr "SELECT * FROM cpu") (PStr "m") (PBool true)
                     PNone PNone PNone PNone Ref.w0)
              (PBool true) Ref.s0
              (Ret (PList [PStr "SELECT * FROM cpu"; PStr "m"; PBool true]))
              Ref.s0 _ _); reflexivity.
  - refine (proj1 (proj2 (query_passthrough Ref.offline ∅ (PStr "metrics")
                            (PStr "SELECT * FROM cpu") (PStr "m") (PBool true)
                            PNone PNone PNone PNone Ref.w0))
              (ClientError "connection refused") Ref.s0 _).
    reflexivity.
Defined.

Lemma remove_chpass_guard_witness :
  (* db_remove: absent, present, and the count of mutating calls *)
  ((exists w2,
      db_remove Ref.remote ∅ "logs" PNone PNone PNone PNone Ref.w0
      = (Ret (PBool false), w2) /\
      lib w2 = Ref.s0 /\ mutations (trace w2) = []) /\
   db_remove Ref.remote ∅ "metrics" PNone PNone PNone PNone Ref.w0
   = (Ret (PBool true),
      World (Ref.Server [] ["root"] [("metrics", "alice")])
        [EvCall Ref.root influxdb.get_database_list;
         EvCall Ref.root (influxdb.delete_database (PStr "metrics"))]) /\
   ([influxdb.delete_database (PStr "metrics")] = [] \/
    ([influxdb.delete_database (PStr "metrics")]
     = [] ++ [influxdb.delete_database (PStr "metrics")] /\
     exists w1',
       db_exists Ref.remote ∅ "metrics" PNone PNone PNone PNone Ref.w0
       = (Ret (PBool true), w1')))) /\
  (* user_remove *)
  ((exists w2,
      user_remove Ref.remote ∅ "bob" (PStr "metrics") PNone PNone PNone PNone
        Ref.w0
      = (Ret (PBool false), w2) /\
      lib w2 = Ref.s0 /\ mutations (trace w2) = []) /\
   user_remove Ref.remote ∅ "root" PNone (PStr "root") (PStr "root") PNone
     PNone Ref.w0
   = (Ret (PBool true),
      World (Ref.Server ["metrics"] [] [("metrics", "alice")])
        [EvCall Ref.root influxdb.get_list_cluster_admins;
         EvCall Ref.root (influxdb.delete_cluster_admin (PStr "root"))]) /\
   user_remove Ref.remote ∅ "alice" (PStr "metrics") PNone PNone PNone PNone
     Ref.w0
   = (Ret (PBool false),
      World Ref.s0
        [EvCall Ref.root (influxdb.switch_db (PStr "metrics"));
         EvCall Ref.root influxdb.get_database_users;
         EvCall Ref.root (influxdb.switch_db (PStr "metrics"));
         EvCall Ref.root (influxdb.delete_database_user PNone)]) /\
   ([influxdb.delete_database_user PNone] = [] \/
    ([influxdb.delete_database_user PNone]
     = [] ++ [influxdb.delete_database_user PNone] /\
     exists w1',
       user_exists Ref.remote ∅ "alice" (PStr "metrics") PNone PNone PNone
         PNone Ref.w0
       = (Ret (PBool true), w1')))) /\
  (* user_chpass *)
  ((exists w2,
      user_chpass Ref.remote ∅ "bob" (PStr "new") PNone PNone PNone PNone
        PNone Ref.w0
      = (Ret (PBool false), w2) /\
      lib w2 = Ref.s0 /\ mutations (trace w2) = []) /\
   user_chpass Ref.remote ∅ "root" (PStr "new") PNone PNone PNone PNone PNone
     Ref.w0
   = (Ret (PBool true),
      World Ref.s0
        [EvCall Ref.root influxdb.get_list_cluster_admins;
         EvCall Ref.root
           (influxdb.update_cluster_admin_password (PStr "root")
              (PStr "new"))]) /\
   user_chpass Ref.remote ∅ "alice" (PStr "new") (PStr "metrics") PNone PNone
     PNone PNone Ref.w0
   = (Ret (PBool true),
      World Ref.s0
        [EvCall Ref.root (influxdb.switch_db (PStr "metrics"));
         EvCall Ref.root influxdb.get_database_users;
         EvCall Ref.root (influxdb.switch_db (PStr "metrics"));
         EvCall Ref.root
           (influxdb.update_database_user_password (PStr "alice")
              (PStr "new"))]) /\
   ([influxdb.update_database_user_password (PStr "alice") (PStr "new")] = []
    \/
    ([influxdb.update_database_user_password (PStr "alice") (PStr "new")]
     = [] ++ [influxdb.update_database_user_password (PStr "alice")
                (PStr "new")] /\
     exists w1',
       user_exists Ref.remote ∅ "alice" (PStr "metrics") PNone PNone PNone
         PNone Ref.w0
       = (Ret (PBool true), w1')))).
Proof.
  pose proof (fun name passwd database user password w1 =>
                remove_chpass_guard Ref.remote ∅ name passwd database user
                  password PNone PNone Ref.w0 w1) as T.
  cbv zeta in T.
  split; [|split].
  - destruct (T "logs" PNone PNone PNone PNone Ref.listed_dbs)
      as ((Habs & _ & _) & _).
    destruct (T "metrics" PNone PNone PNone PNone Ref.listed_dbs)
      as ((_ & Hpre & Hcnt) & _).
    split; [exact (Habs eq_refl)|].
    split; [exact (Hpre eq_refl (Ret (PBool true))
                     (Ref.Server [] ["root"] [("metrics", "alice")])
                     eq_refl)|].
    exact (Hcnt _ _ eq_refl).
  - destruct (T "bob" PNone (PStr "metrics") PNone PNone Ref.listed_users)
      as (_ & (Habs & _ & _) & _).
    destruct (T "root" PNone PNone (PStr "root") (PStr "root")
                Ref.listed_admins)
      as (_ & (_ & Hadm & _) & _).
    destruct (T "alice" PNone (PStr "metrics") PNone PNone Ref.listed_users)
      as (_ & (_ & Hdbu & Hcnt) & _).
    split; [exact (Habs eq_refl)|].
    split; [exact (proj1 (Hadm eq_refl) eq_refl (Ret (PBool true))
                     (Ref.Server ["metrics"] [] [("metrics", "alice")])
                     eq_refl)|].
    split; [exact (proj2 (Hdbu eq_refl) eq_refl (PBool true) Ref.s0
                     (Ret (PBool false)) Ref.s0 eq_refl eq_refl)|].
    exact (Hcnt _ _ eq_refl).
  - destruct (T "bob" (PStr "new") PNone PNone PNone Ref.listed_admins)
      as (_ & _ & (Habs & _ & _)).
    destruct (T "root" (PStr "new") PNone PNone PNone Ref.listed_admins)
      as (_ & _ & (_ & Hadm & _)).
    destruct (T "alice" (PStr "new") (PStr "metrics") PNone PNone
                Ref.listed_users)
      as (_ & _ & (_ & Hdbu & Hcnt)).
    split; [exact (Habs eq_refl)|].
    split; [exact (proj1 (Hadm eq_refl) eq_refl (Ret (PBool true)) Ref.s0
                     eq_refl)|].
    split; [exact (proj2 (Hdbu eq_refl) eq_refl (PBool true) Ref.s0
                     (Ret (PBool true)) Ref.s0 eq_refl eq_refl)|].
    exact (Hcnt _ _ eq_refl).
Defined.

(** The reference library never raises, and its listings can be read. *)
Lemma ref_remote_returns (c : influxdb.client) (hist : list influxdb.method)
    (m : influxdb.method) (s : Ref.server) :
  exists v, (Ref.remote c hist m s).1 = Ret v.
Proof.
  unfold Ref.remote. repeat case_match; eexists; reflexivity.
Qed.

Lemma ref_records_have_names (names : list string) :
  Forall has_name (map Ref.record names).
Proof.
  induction names as [|n names IH]; constructor; [|exact IH].
  exists (PStr n). reflexivity.
Qed.

Lemma ref_admins_readable (c : influxdb.client) (hist : list influxdb.method)
    (s : Ref.server) (v : pyval) :
  (Ref.remote c hist influxdb.get_list_cluster_admins s).1 = Ret v ->
  readable v.
Proof.
  unfold Ref.remote. destruct (negb (Ref.authorized c)); simpl; intros H;
    injection H as <-.
  - left. reflexivity.
  - right. apply ref_records_have_names.
Qed.

Lemma scope_disambiguation_witness :
  emits (user_remove Ref.remote ∅ "root" PNone PNone PNone PNone PNone)
    Ref.w0 cluster_only /\
  emits
    (user_create Ref.remote ∅ "bob" (PStr "pw") (PStr "metrics") PNone PNone
       PNone PNone) Ref.w0 (switched_first (PStr "metrics")) /\
  (exists v,
     (user_create Ref.remote ∅ "bob" (PStr "pw") PNone PNone PNone PNone PNone
        Ref.w0).1 = Ret v) /\
  user_chpass Ref.remote ∅ "root" (PStr "new") PNone PNone PNone PNone PNone
    Ref.w0
  = (Ret (PBool true),
     World Ref.s0
       [EvCall Ref.root influxdb.get_list_cluster_admins;
        EvCall Ref.root
          (influxdb.update_cluster_admin_password (PStr "root")
             (PStr "new"))]) /\
  user_create Ref.remote ∅ "bob" (PStr "pw") (PStr "metrics") PNone PNone
    PNone PNone Ref.w0
  = (Ret (PBool true), Ref.created_user).
Proof.
  destruct (scope_disambiguation Ref.remote ∅ "root" (PStr "new")
              (PStr "metrics") PNone PNone PNone PNone Ref.w0)
    as (((_ & _ & _ & _ & _ & Hadm) & _ & _) & Hcr & _).
  destruct (scope_disambiguation Ref.remote ∅ "bob" (PStr "pw")
              (PStr "metrics") PNone PNone PNone PNone Ref.w0)
    as ((_ & Hdb & Hret) & _ & Hdr).
  split; [exact Hadm|].
  split; [exact (proj1 (proj2 (proj2 (Hdb eq_refl))))|].
  split;
    [exact (proj1 (proj2 (proj2
              (Hret (fun c hist m l _ => ref_remote_returns c hist m l)
                    ref_admins_readable))))|].
  split.
  - unfold cluster_routed in Hcr. cbv zeta in Hcr.
    destruct Hcr as (_ & _ & _ & _ & _ & Hch & _).
    exact (Hch Ref.listed_admins (Ret (PBool true)) Ref.s0 eq_refl eq_refl).
  - specialize (Hdr eq_refl). unfold database_routed in Hdr.
    cbv zeta in Hdr.
    destruct Hdr as (_ & _ & _ & _ & _ & _ & Hcreate & _).
    exact (Hcreate Ref.listed_users (PBool true) Ref.s0 (Ret (PBool true))
             (Ref.Server ["metrics"] ["root"]
                [("metrics", "alice"); ("metrics", "bob")])
             eq_refl eq_refl eq_refl).
Defined.

Lemma falsy_arguments_absent_witness :
  user_exists Ref.remote ∅ "root" (PStr "") PNone PNone PNone PNone Ref.w0
  = (Ret (PBool true), Ref.listed_admins) /\
  user_create Ref.remote ∅ "bob" (PStr "pw") (PStr "") PNone PNone PNone PNone
    Ref.w0
  = (Ret (PBool true),
     World (Ref.Server ["metrics"] ["root"; "bob"] [("metrics", "alice")])
       [EvCall Ref.root influxdb.get_list_cluster_admins;
        EvCall Ref.root
          (influxdb.add_cluster_admin (PStr "bob") (PStr "pw"))]) /\
  user_remove Ref.remote ∅ "root" (PStr "") (PStr "root") (PStr "root") PNone
    PNone Ref.w0
  = (Ret (PBool true),
     World (Ref.Server ["metrics"] [] [("metrics", "alice")])
       [EvCall Ref.root influxdb.get_list_cluster_admins;
        EvCall Ref.root (influxdb.delete_cluster_admin (PStr "root"))]).
Proof.
  pose proof (proj2 (falsy_arguments_absent Ref.remote ∅ "bob" (PStr "pw")
                       PNone PNone PNone PNone Ref.w0)) as Hc.
  pose proof (proj2 (falsy_arguments_absent Ref.remote ∅ "root" PNone
                       (PStr "root") (PStr "root") PNone PNone Ref.w0)) as Hr.
  unfold cluster_routed in Hc, Hr. cbv zeta in Hc, Hr.
  destruct Hc as (_ & _ & _ & _ & Hcreate & _ & _).
  destruct Hr as (_ & _ & _ & _ & _ & _ & Hremove).
  split; [reflexivity|].
  split.
  - exact (Hcreate Ref.listed_admins (Ret (PBool true))
             (Ref.Server ["metrics"] ["root"; "bob"] [("metrics", "alice")])
             eq_refl eq_refl).
  - exact (Hremove Ref.listed_admins (Ret (PBool true))
             (Ref.Server ["metrics"] [] [("metrics", "alice")])
             eq_refl eq_refl).
Defined.

Lemma create_idempotent_witness :
  (db_create Ref.remote ∅ "metrics" PNone PNone PNone PNone Ref.w0
   = (Ret (PBool false),
      World Ref.s0
        [EvCall Ref.root influxdb.get_database_list;
         EvLog "DB {0!r} already exists" [PStr "metrics"]]) /\
   user_create Ref.remote ∅ "alice" (PStr "pw") (PStr "metrics") PNone PNone
     PNone PNone Ref.w0
   = (Ret (PBool false),
      World Ref.s0
        [EvCall Ref.root (influxdb.switch_db (PStr "metrics"));
         EvCall Ref.root influxdb.get_database_users;
         EvLog "User {0!r} already exists for DB {0!r}"
           [PStr "alice"; PStr "metrics"]])) /\
  (db_create Ref.remote ∅ "metrics" PNone PNone PNone PNone
     (World Ref.empty [])
   = (Ret (PBool true), Ref.created_db) /\
   exists w2,
     db_create Ref.remote ∅ "metrics" PNone PNone PNone PNone Ref.created_db
     = (Ret (PBool false), w2) /\
     lib w2 = lib Ref.created_db /\
     mutations (trace w2) = mutations (trace Ref.created_db)) /\
  (user_create Ref.remote ∅ "bob" (PStr "pw") (PStr "metrics") PNone PNone
     PNone PNone Ref.w0
   = (Ret (PBool true), Ref.created_user) /\
   exists w2,
     user_create Ref.remote ∅ "bob" (PStr "pw") (PStr "metrics") PNone PNone
       PNone PNone Ref.created_user
     = (Ret (PBool false), w2) /\
     lib w2 = lib Ref.created_user /\
     mutations (trace w2) = mutations (trace Ref.created_user)).
Proof.
  split; [split|split; (split; [reflexivity|])].
  - exact (proj1 (proj1 (create_idempotent Ref.remote ∅ "metrics" PNone PNone
                           PNone PNone PNone PNone PNone Ref.w0
                           Ref.listed_dbs) eq_refl)).
  - exact (proj1 (proj1 (proj2 (create_idempotent Ref.remote ∅ "alice"
                                  (PStr "pw") (PStr "metrics") PNone PNone
                                  PNone PNone PNone Ref.w0 Ref.listed_users))
                    eq_refl)).
  - refine (proj1 (proj2 (proj2 (create_idempotent Ref.remote ∅ "metrics"
                                   PNone PNone PNone PNone PNone PNone
                                   (PBool true) (World Ref.empty [])
                                   Ref.created_db)))
              (fun w0 => eq_refl) eq_refl _).
    intros _. exists (PList [Ref.record "metrics"]). eexists.
    split; [reflexivity|]. exists [Ref.record "metrics"].
    split; [reflexivity|]. split.
    + apply (ref_records_have_names ["metrics"]).
    + constructor. reflexivity.
  - refine (proj2 (proj2 (proj2 (create_idempotent Ref.remote ∅ "bob"
                                   (PStr "pw") (PStr "metrics") PNone PNone
                                   PNone PNone (PBool true) Ref.w0
                                   Ref.created_user)))
              (fun w0 => eq_refl) eq_refl _).
    intros _. exists (PList [Ref.record "alice"; Ref.record "bob"]). eexists.
    split; [reflexivity|]. exists [Ref.record "alice"; Ref.record "bob"].
    split; [reflexivity|]. split.
    + apply (ref_records_have_names ["alice"; "bob"]).
    + right. constructor. reflexivity.
Defined.

(** The guard and the action on different clients: [db_create] called for
    an account the server does not know lists the databases as root, the
    configured default, and sends the create call as the given account. *)
Example db_create_guard_as_root_action_as_given :
  db_create Ref.remote ∅ "logs" (PStr "mallory") (PStr "guess") PNone PNone
    Ref.w0
  = (Ret Ref.denied,
     World Ref.s0
       [EvCall Ref.root influxdb.get_database_list;
        EvCall Ref.mallory (influxdb.create_database (PStr "logs"))]).
Proof. reflexivity. Qed.

(** The end-to-end scenario of the spec: a first [db_create] on an empty
    server creates the database; a second one is skipped. *)
Example db_create_twice_on_empty_server :
  (db_create Ref.remote ∅ "metrics" PNone PNone PNone PNone
     ≫= λ r1, db_create Ref.remote ∅ "metrics" PNone PNone PNone PNone
     ≫= λ r2, mret (r1, r2)) (World Ref.empty [])
  = (Ret (PBool true, PBool false),
     World (Ref.Server ["metrics"] [] [])
       [EvCall Ref.root influxdb.get_database_list;
        EvCall Ref.root (influxdb.create_database (PStr "metrics"));
        EvCall Ref.root influxdb.get_database_list;
        EvLog "DB {0!r} already exists" [PStr "metrics"]]).
Proof. reflexivity. Qed.

(** ** Further properties of the module *)

Lemma comprehension_raises (pre post : list pyval) (r : pyval) (e : exn) :
  Forall has_name pre ->
  getitem r "name" = Raise e ->
  comprehension (fun x => getitem x "name") (pre ++ r :: post) = Raise e.
Proof.
  intros Hpre Hr. induction Hpre as [|x pre [y Hy] _ IH]; simpl.
  - rewrite Hr. reflexivity.
  - rewrite Hy, IH. reflexivity.
Qed.

Lemma checked_bad (name : string) (pre post : list pyval) (r : pyval)
    (e : exn) (rg : res pyval) :
  Forall has_name pre ->
  getitem r "name" = Raise e ->
  checked name (Ret (PList (pre ++ r :: post))) rg ->
  rg = Raise e.
Proof.
  intros Hpre Hr Hck.
  pose proof (comprehension_raises pre post r e Hpre Hr) as Hc.
  inversion Hck; subst; try discriminate; congruence.
Qed.

Section Further.

Context {L : Type}.
Variable remote :
  influxdb.client -> list influxdb.method -> influxdb.method -> L ->
  res pyval * L.
Variable cfg : gmap string pyval.

(** X1. The listing and existence functions only read: [db_list],
    [db_exists], [user_list] and [user_exists] record no mutating client
    call and no log record, whatever the library answers. *)
Theorem listing_only_reads (name : string)
    (database user password host port : pyval) (w : world L) :
  let quiet (evs : list event) :=
    mutations evs = [] /\ forall fmt args, ~ In (EvLog fmt args) evs in
  emits (db_list remote cfg user password host port) w quiet /\
  emits (db_exists remote cfg name user password host port) w quiet /\
  emits (user_list remote cfg database user password host port) w quiet /\
  emits (user_exists remote cfg name database user password host port) w
    quiet.
Proof.
  intros quiet. subst quiet. unfold emits.
  destruct (db_exists_run remote cfg name user password host port w)
    as (rl & r & l' & _ & _ & -> & ->).
  destruct (user_exists_run remote cfg name database user password host port
              w) as (rl' & r' & l'' & evs & Hsc & _ & -> & ->).
  assert (Hq : mutations evs = [] /\
               forall fmt args, ~ In (EvLog fmt args) evs).
  { destruct Hsc; (split; [reflexivity|]); intros fmt args Hin;
      simpl in Hin; intuition discriminate. }
  assert (Hq1 : forall c m,
             influxdb.mutating m = false ->
             mutations [EvCall c m] = [] /\
             forall fmt args, ~ In (EvLog fmt args) [EvCall c m]).
  { intros c m Hm. split; [simpl; rewrite Hm; reflexivity|].
    intros fmt args Hin. simpl in Hin. intuition discriminate. }
  split; [eexists; split; [reflexivity | apply Hq1; reflexivity]|].
  split; [eexists; split; [reflexivity | apply Hq1; reflexivity]|].
  split; eexists; (split; [reflexivity | exact Hq]).
Qed.

(** X2. An existence check that returns, returns a Python [bool]:
    [db_exists] and [user_exists] never hand the listing, or any other
    value, back to the caller. *)
Theorem exists_returns_bool (name : string)
    (database user password host port v : pyval) (w w1 : world L) :
  (db_exists remote cfg name user password host port w = (Ret v, w1) ->
   exists b, v = PBool b) /\
  (user_exists remote cfg name database user password host port w
   = (Ret v, w1) ->
   exists b, v = PBool b).
Proof.
  split; intros H.
  - destruct (db_exists_run remote cfg name user password host port w)
      as (rl & r & l' & _ & Hck & _ & Hrun).
    rewrite Hrun in H. injection H as -> _. exact (checked_bool _ _ _ Hck).
  - destruct (user_exists_run remote cfg name database user password host
                port w) as (rl & r & l' & evs & _ & Hck & _ & Hrun).
    rewrite Hrun in H. injection H as -> _. exact (checked_bool _ _ _ Hck).
Qed.

(** X3. A record that cannot be read is an error, not a miss.  When the
    listing is a list in which the first record without a readable ['name']
    is a dict lacking the key, [db_exists] and [user_exists] raise
    [KeyError('name')]; when it is not a dict at all they raise [TypeError]
    -- whether or not another record carries the queried name. *)
Theorem exists_bad_record_raises (name : string)
    (database user password host port r : pyval) (pre post : list pyval)
    (w w1 : world L) :
  let e := match r with PDict _ => KeyError "name" | _ => TypeError end in
  Forall has_name pre ->
  match r with PDict d => dict_get d "name" = None | _ => True end ->
  (db_list remote cfg user password host port w
   = (Ret (PList (pre ++ r :: post)), w1) ->
   db_exists remote cfg name user password host port w = (Raise e, w1)) /\
  (user_list remote cfg database user password host port w
   = (Ret (PList (pre ++ r :: post)), w1) ->
   user_exists remote cfg name database user password host port w
   = (Raise e, w1)).
Proof.
  intros e Hpre Hr.
  assert (He : getitem r "name" = Raise e).
  { subst e. destruct r; try reflexivity. simpl. rewrite Hr. reflexivity. }
  split; intros Hl.
  - destruct (db_exists_run remote cfg name user password host port w)
      as (rl & rg & l' & _ & Hck & Hl' & ->).
    rewrite Hl' in Hl. injection Hl as -> <-.
    rewrite (checked_bad _ _ _ _ _ _ Hpre He Hck). reflexivity.
  - destruct (user_exists_run remote cfg name database user password host
                port w) as (rl & rg & l' & evs & _ & Hck & Hl' & ->).
    rewrite Hl' in Hl. injection Hl as -> <-.
    rewrite (checked_bad _ _ _ _ _ _ Hpre He Hck). reflexivity.
Qed.

Lemma exists_not_list (name : string)
    (database user password host port v : pyval) (w w1 : world L) :
  isinstance_list v = false ->
  (db_list remote cfg user password host port w = (Ret v, w1) ->
   db_exists remote cfg name user password host port w
   = (Ret (PBool false), w1)) /\
  (user_list remote cfg database user password host port w = (Ret v, w1) ->
   user_exists remote cfg name database user password host port w
   = (Ret (PBool false), w1)).
Proof.
  intros Hv. split; intros Hl.
  - unfold db_exists. rewrite bind_run, Hl.
    apply (exists_of_listing name v w1), Hv.
  - unfold user_exists. rewrite bind_run, Hl.
    apply (exists_of_listing name v w1), Hv.
Qed.

(** X4. What failing open does to the guarded mutations.  When the guard's
    listing answers with a value that is not a list, [db_create] and
    [user_create] go on to the create call as if the target were absent --
    their answer is that call's answer -- while [db_remove], [user_chpass]
    and [user_remove] log that the target does not exist and return [False]
    without calling the library again. *)
Theorem fail_open_guards (name : string)
    (passwd database user password host port v : pyval) (w w1 : world L) :
  let ac := _client cfg user password host port in
  isinstance_list v = false ->
  (db_list remote cfg PNone PNone PNone PNone w = (Ret v, w1) ->
   db_create remote cfg name user password host port w
   = invoke remote ac (influxdb.create_database (PStr name)) w1 /\
   db_remove remote cfg name user password host port w
   = (Ret (PBool false),
      World (lib w1)
        (trace w1 ++ [EvLog "DB {0!r} does not exist" [PStr name]]))) /\
  (user_list remote cfg database PNone PNone PNone PNone w = (Ret v, w1) ->
   user_create remote cfg name passwd database user password host port w
   = (if truthy database then
        c ← invoke_ remote ac (influxdb.switch_db database);
        invoke remote c (influxdb.add_database_user (PStr name) passwd)
      else invoke remote ac (influxdb.add_cluster_admin (PStr name) passwd))
       w1 /\
   user_chpass remote cfg name passwd database user password host port w
   = (Ret (PBool false),
      World (lib w1)
        (trace w1
         ++ [if truthy database
             then EvLog "User {0!r} does not exist for DB {0!r}"
                    [PStr name; database]
             else EvLog "Cluster admin {0!r} does not exist" [PStr name]])) /\
   user_remove remote cfg name database user password host port w
   = (Ret (PBool false),
      World (lib w1)
        (trace w1
         ++ [if truthy database
             then EvLog "User {0!r} does not exist for DB {0!r}"
                    [PStr name; database]
             else EvLog "Cluster admin {0!r} does not exist" [PStr name]]))).
Proof.
  intros ac Hv. split; intros Hl.
  - pose proof (proj1 (exists_not_list name database PNone PNone PNone PNone
                         v w w1 Hv) Hl) as Hg.
    unfold db_create, db_remove. rewrite !bind_run, Hg. split; reflexivity.
  - pose proof (proj2 (exists_not_list name database PNone PNone PNone PNone
                         v w w1 Hv) Hl) as Hg.
    unfold user_create, user_chpass, user_remove. rewrite !bind_run, Hg.
    cbn [truthy negb]. rewrite !bind_run.
    split; [reflexivity|]. split; destruct (truthy database); reflexivity.
Qed.

Lemma listing_raise_through (name : string)
    (passwd database user password host port : pyval) (e : exn)
    (w w1 : world L) :
  (db_list remote cfg PNone PNone PNone PNone w = (Raise e, w1) ->
   db_exists remote cfg name PNone PNone PNone PNone w = (Raise e, w1) /\
   db_create remote cfg name user password host port w = (Raise e, w1) /\
   db_remove remote cfg name user password host port w = (Raise e, w1)) /\
  (user_list remote cfg database PNone PNone PNone PNone w = (Raise e, w1) ->
   user_exists remote cfg name database PNone PNone PNone PNone w
   = (Raise e, w1) /\
   user_create remote cfg name passwd database user password host port w
   = (Raise e, w1) /\
   user_chpass remote cfg name passwd database user password host port w
   = (Raise e, w1) /\
   user_remove remote cfg name database user password host port w
   = (Raise e, w1)).
Proof.
  split; intros Hl.
  - assert (Hg : db_exists remote cfg name PNone PNone PNone PNone w
                 = (Raise e, w1))
      by (unfold db_exists; rewrite bind_run, Hl; reflexivity).
    unfold db_create, db_remove. rewrite !bind_run, Hg.
    repeat split; reflexivity.
  - assert (Hg : user_exists remote cfg name database PNone PNone PNone PNone
                   w = (Raise e, w1))
      by (unfold user_exists; rewrite bind_run, Hl; reflexivity).
    unfold user_create, user_chpass, user_remove. rewrite !bind_run, Hg.
    repeat split; reflexivity.
Qed.

(** X5. An exception of the library is not swallowed by the guard.  When
    the guard's listing call raises -- [get_database_list], or
    [get_list_cluster_admins], or for a database-scoped principal the
    [switch_db] or the [get_database_users] after it -- the existence check
    and every guarded mutation raise that exception: the calls up to the
    raising one are the only ones made, nothing is logged and no action call
    follows. *)
Theorem listing_exception_propagates (name : string)
    (passwd database user password host port : pyval) (e : exn)
    (w : world L) :
  let gb := influxdb.built (_client cfg PNone PNone PNone PNone) in
  (forall l1,
     remote gb [] influxdb.get_database_list (lib w) = (Raise e, l1) ->
     let w1 := World l1 (trace w ++ [EvCall gb influxdb.get_database_list]) in
     db_exists remote cfg name PNone PNone PNone PNone w = (Raise e, w1) /\
     db_create remote cfg name user password host port w = (Raise e, w1) /\
     db_remove remote cfg name user password host port w = (Raise e, w1)) /\
  (forall w1,
     (truthy database = false /\
      exists l1,
        remote gb [] influxdb.get_list_cluster_admins (lib w) = (Raise e, l1)
        /\ w1 = World l1
                  (trace w ++ [EvCall gb influxdb.get_list_cluster_admins]))
     \/
     (truthy database = true /\
      exists l1,
        remote gb [] (influxdb.switch_db database) (lib w) = (Raise e, l1) /\
        w1 = World l1 (trace w ++ [EvCall gb (influxdb.switch_db database)]))
     \/
     (truthy database = true /\
      exists v l1 l2,
        remote gb [] (influxdb.switch_db database) (lib w) = (Ret v, l1) /\
        remote gb [influxdb.switch_db database] influxdb.get_database_users l1
        = (Raise e, l2) /\
        w1 = World l2 (trace w ++ [EvCall gb (influxdb.switch_db database);
                                   EvCall gb influxdb.get_database_users])) ->
     user_exists remote cfg name database PNone PNone PNone PNone w
     = (Raise e, w1) /\
     user_create remote cfg name passwd database user password host port w
     = (Raise e, w1) /\
     user_chpass remote cfg name passwd database user password host port w
     = (Raise e, w1) /\
     user_remove remote cfg name database user password host port w
     = (Raise e, w1)).
Proof.
  intros gb. split.
  - intros l1 Hr w1.
    apply (proj1 (listing_raise_through name passwd database user password
                    host port e w w1)).
    unfold db_list. rewrite invoke_run. fold gb.
    change (influxdb.calls (_client cfg PNone PNone PNone PNone))
      with (@nil influxdb.method).
    rewrite Hr. reflexivity.
  - intros w1 Hcase.
    apply (proj2 (listing_raise_through name passwd database user password
                    host port e w w1)).
    destruct Hcase as [(Hdb & l1 & Hr & ->)
                      |[(Hdb & l1 & Hr & ->)|(Hdb & v & l1 & l2 & Hs & Hr & ->)]].
    + exact (scoped_admin_run remote database
               (_client cfg PNone PNone PNone PNone)
               influxdb.get_database_users influxdb.get_list_cluster_admins
               w (Raise e) l1 Hdb Hr).
    + unfold user_list, invoke_. rewrite Hdb, !bind_run, invoke_run. fold gb.
      change (influxdb.calls (_client cfg PNone PNone PNone PNone))
        with (@nil influxdb.method).
      rewrite Hr. reflexivity.
    + exact (scoped_db_run remote database
               (_client cfg PNone PNone PNone PNone)
               influxdb.get_database_users influxdb.get_list_cluster_admins
               w v (Raise e) l1 l2 Hdb Hs Hr).
Qed.

(** *** How many calls, and which *)

Lemma guarded_calls (Q : list influxdb.method -> Prop) (skip_if : bool)
    (rg r : res pyval) (lg l' : L) (gevs evs : list event) (logged : event)
    (act : L -> res pyval -> L -> list event -> Prop) :
  calls_of [logged] = [] ->
  Q (calls_of gevs) ->
  (forall l r l' aevs, act l r l' aevs -> Q (calls_of gevs ++ calls_of aevs)) ->
  guarded skip_if rg lg gevs logged act r l' evs ->
  Q (calls_of evs).
Proof.
  intros Hlog Hg Hact. destruct 1 as [e _|v _ _|v r l1 aevs _ _ Ha].
  - exact Hg.
  - rewrite calls_of_app, Hlog, app_nil_r. exact Hg.
  - rewrite calls_of_app. exact (Hact _ _ _ _ Ha).
Qed.

Lemma scoped_calls_of database c m_db m_admin l r l' evs :
  scoped remote database c m_db m_admin l r l' evs ->
  calls_of evs = [m_admin] /\ truthy database = false \/
  (calls_of evs = [influxdb.switch_db database] \/
   calls_of evs = [influxdb.switch_db database; m_db]) /\
  truthy database = true.
Proof.
  destruct 1; [left | right | right]; (split; [|assumption]);
    [reflexivity | left; reflexivity | right; reflexivity].
Qed.

Lemma log_calls (d : pyval) (f1 f2 : string) (a1 a2 : list pyval) :
  calls_of [if truthy d then EvLog f1 a1 else EvLog f2 a2] = [].
Proof. destruct (truthy d); reflexivity. Qed.

Lemma query_run (database q : pyval) (time_precision chunked : option pyval)
    (user password host port : pyval) (w : world L) :
  let b := influxdb.built (_client cfg user password host port) in
  let m := influxdb.query q (default (PStr "s") time_precision)
             (default (PBool false) chunked) in
  exists evs,
    trace (query remote cfg database q time_precision chunked user password
             host port w).2 = trace w ++ evs /\
    (evs = [EvCall b (influxdb.switch_db database)] \/
     evs = [EvCall b (influxdb.switch_db database); EvCall b m]).
Proof.
  intros b m. unfold query, invoke_. rewrite !bind_run, invoke_run.
  destruct (remote _ _ (influxdb.switch_db database) (lib w))
    as [[v|e] l1]; cbn [fst snd].
  - unfold mret, M_ret. rewrite invoke_run. cbn [trace snd].
    eexists. rewrite <- app_assoc. split; [reflexivity|]. right. reflexivity.
  - eexists. split; [reflexivity|]. left. reflexivity.
Qed.

Ltac scoped_lengths H :=
  destruct (scoped_calls_of _ _ _ _ _ _ _ _ H)
    as [[-> ?]|[[-> | ->] ?]]; cbn [length app]; try congruence; try lia.

(** X6. Round trips are bounded.  Every function makes at least one client
    call; the listing and existence functions and [query] make at most two,
    the database mutations at most two, the principal mutations at most
    four; with no database, a principal listing makes exactly one call and a
    principal mutation at most two. *)
Theorem round_trips_bounded (name : string)
    (passwd database q user password host port : pyval)
    (time_precision chunked : option pyval) (w : world L) :
  let within (lo hi : nat) (evs : list event) :=
    lo <= length (calls_of evs) <= hi in
  (emits (db_list remote cfg user password host port) w (within 1 1) /\
   emits (db_exists remote cfg name user password host port) w (within 1 1) /\
   emits (db_create remote cfg name user password host port) w (within 1 2) /\
   emits (db_remove remote cfg name user password host port) w (within 1 2)) /\
  (emits (user_list remote cfg database user password host port) w
     (within 1 2) /\
   emits (user_exists remote cfg name database user password host port) w
     (within 1 2) /\
   emits (user_create remote cfg name passwd database user password host port)
     w (within 1 4) /\
   emits (user_chpass remote cfg name passwd database user password host port)
     w (within 1 4) /\
   emits (user_remove remote cfg name database user password host port) w
     (within 1 4)) /\
  (truthy database = false ->
   emits (user_list remote cfg database user password host port) w
     (within 1 1) /\
   emits (user_exists remote cfg name database user password host port) w
     (within 1 1) /\
   emits (user_create remote cfg name passwd database user password host port)
     w (within 1 2) /\
   emits (user_chpass remote cfg name passwd database user password host port)
     w (within 1 2) /\
   emits (user_remove remote cfg name database user password host port) w
     (within 1 2)) /\
  emits (query remote cfg database q time_precision chunked user password
           host port) w (within 1 2).
Proof.
  intros within. subst within. unfold emits.
  destruct (db_exists_run remote cfg name user password host port w)
    as (? & ? & ? & _ & _ & Hdl & Hde).
  destruct (db_create_run remote cfg name user password host port w)
    as (? & ? & ? & _ & _ & _ & ? & ? & evc & Hdc & Hgc).
  destruct (db_remove_run remote cfg name user password host port w)
    as (? & ? & ? & _ & _ & _ & ? & ? & evr & Hdr & Hgr).
  destruct (user_exists_run remote cfg name database user password host port
              w) as (? & ? & ? & evl & Hsl & _ & Hul & Hue).
  destruct (user_create_run remote cfg name passwd database user password
              host port w)
    as (? & ? & ? & g1 & Hs1 & _ & _ & ? & ? & ev1 & Hu1 & Hg1).
  destruct (user_chpass_run remote cfg name passwd database user password
              host port w)
    as (? & ? & ? & g2 & Hs2 & _ & _ & ? & ? & ev2 & Hu2 & Hg2).
  destruct (user_remove_run remote cfg name database user password host port
              w)
    as (? & ? & ? & g3 & Hs3 & _ & _ & ? & ? & ev3 & Hu3 & Hg3).
  rewrite Hdl, Hde, Hdc, Hdr, Hul, Hue, Hu1, Hu2, Hu3. cbn [snd trace].
  assert (Hdb : forall skip_if rg lg logged c m r l' evs,
             calls_of [logged] = [] ->
             guarded skip_if rg lg
               [EvCall (influxdb.built (_client cfg PNone PNone PNone PNone))
                  influxdb.get_database_list] logged
               (called remote c m) r l' evs ->
             1 <= length (calls_of evs) <= 2).
  { intros skip_if rg lg logged c m r l' evs Hlog Hgd.
    eapply (guarded_calls (fun cs => 1 <= length cs <= 2)) in Hgd;
      [exact Hgd | exact Hlog | simpl; lia |].
    intros ? ? ? ? []. simpl. lia. }
  assert (Hus : forall skip_if rg l lg gevs rl logged c m_db m_admin r l' evs,
             calls_of [logged] = [] ->
             scoped remote database
               (_client cfg PNone PNone PNone PNone)
               influxdb.get_database_users influxdb.get_list_cluster_admins
               l rl lg gevs ->
             guarded skip_if rg lg gevs logged
               (scoped remote database c m_db m_admin) r l' evs ->
             1 <= length (calls_of evs) <= 4 /\
             (truthy database = false -> 1 <= length (calls_of evs) <= 2)).
  { intros skip_if rg l lg gevs rl logged c m_db m_admin r l' evs Hlog Hsc
      Hgd.
    eapply (guarded_calls
              (fun cs => 1 <= length cs <= 4 /\
                         (truthy database = false -> 1 <= length cs <= 2)))
      in Hgd; [exact Hgd | exact Hlog | |].
    - scoped_lengths Hsc; split; intros; try congruence; lia.
    - intros ? ? ? ? Ha. rewrite length_app.
      scoped_lengths Hsc; scoped_lengths Ha;
        split; intros; try congruence; lia. }
  assert (Hl : 1 <= length (calls_of evl) <= 2 /\
               (truthy database = false -> length (calls_of evl) = 1)).
  { scoped_lengths Hsl; split; intros; try congruence; lia. }
  pose proof (Hus _ _ _ _ _ _ _ _ _ _ _ _ _ (log_calls _ _ _ _ _) Hs1 Hg1)
    as [H1 H1'].
  pose proof (Hus _ _ _ _ _ _ _ _ _ _ _ _ _ (log_calls _ _ _ _ _) Hs2 Hg2)
    as [H2 H2'].
  pose proof (Hus _ _ _ _ _ _ _ _ _ _ _ _ _ (log_calls _ _ _ _ _) Hs3 Hg3)
    as [H3 H3'].
  split; [|split; [|split]].
  - split; [eexists; split; [reflexivity | simpl; lia]|].
    split; [eexists; split; [reflexivity | simpl; lia]|].
    split; (eexists; split; [reflexivity|]; eapply Hdb; [|eassumption]);
      reflexivity.
  - split; [exists evl; split; [reflexivity | apply Hl]|].
    split; [exists evl; split; [reflexivity | apply Hl]|].
    split; [exists ev1; split; [reflexivity | exact H1]|].
    split; [exists ev2; split; [reflexivity | exact H2]|].
    exists ev3; split; [reflexivity | exact H3].
  - intros Hdbf. destruct Hl as [_ Hl]. specialize (Hl Hdbf).
    split; [exists evl; split; [reflexivity | lia]|].
    split; [exists evl; split; [reflexivity | lia]|].
    split; [exists ev1; split; [reflexivity | exact (H1' Hdbf)]|].
    split; [exists ev2; split; [reflexivity | exact (H2' Hdbf)]|].
    exists ev3; split; [reflexivity | exact (H3' Hdbf)].
  - destruct (query_run database q time_precision chunked user password host
                port w) as (evs & -> & [-> | ->]);
      eexists; (split; [reflexivity | simpl; lia]).
Qed.

Lemma scoped_vocabulary database c m_db m_admin l r l' evs :
  scoped remote database c m_db m_admin l r l' evs ->
  Forall (fun m => In m [influxdb.switch_db database; m_db; m_admin])
    (calls_of evs).
Proof. destruct 1; simpl; repeat constructor; simpl; tauto. Qed.

Lemma guarded_vocabulary (V : list influxdb.method) (skip_if : bool)
    (database : pyval) (gc ac : influxdb.handle) (l : L) (rl rg r : res pyval)
    (lg l' : L) (gevs evs : list event) (f1 f2 : string)
    (a1 a2 : list pyval) (m_db m_admin : influxdb.method) :
  (forall m, In m [influxdb.switch_db database; influxdb.get_database_users;
                   influxdb.get_list_cluster_admins; m_db; m_admin] ->
             In m V) ->
  scoped remote database gc influxdb.get_database_users
    influxdb.get_list_cluster_admins l rl lg gevs ->
  guarded skip_if rg lg gevs
    (if truthy database then EvLog f1 a1 else EvLog f2 a2)
    (scoped remote database ac m_db m_admin) r l' evs ->
  Forall (fun m => In m V) (calls_of evs).
Proof.
  intros HV Hsc Hgd.
  eapply (guarded_calls (Forall (fun m => In m V))) in Hgd;
    [exact Hgd | apply log_calls | |].
  - eapply Forall_impl; [exact (scoped_vocabulary _ _ _ _ _ _ _ _ Hsc)|].
    intros m Hm. apply HV. simpl in *. tauto.
  - intros ? ? ? ? Ha. apply Forall_app_2.
    + eapply Forall_impl; [exact (scoped_vocabulary _ _ _ _ _ _ _ _ Hsc)|].
      intros m Hm. apply HV. simpl in *. tauto.
    + eapply Forall_impl; [exact (scoped_vocabulary _ _ _ _ _ _ _ _ Ha)|].
      intros m Hm. apply HV. simpl in *. tauto.
Qed.

(** X7. Each mutation keeps to its own calls on its own target.  Besides
    the listing (and the switch to [database]), [db_create] calls only
    [create_database(name)], [db_remove] only [delete_database(name)],
    [user_create] only the two add calls for [name] and [passwd],
    [user_chpass] only the two password updates for [name] and [passwd],
    and [user_remove] only the two delete calls -- with the argument [user].
    No create function ever deletes or updates, no remove function ever
    creates, and none touches another name. *)
Theorem call_vocabulary (name : string)
    (passwd database user password host port : pyval) (w : world L) :
  let only (V : list influxdb.method) (evs : list event) :=
    Forall (fun m => In m V) (calls_of evs) in
  emits (db_create remote cfg name user password host port) w
    (only [influxdb.get_database_list;
           influxdb.create_database (PStr name)]) /\
  emits (db_remove remote cfg name user password host port) w
    (only [influxdb.get_database_list;
           influxdb.delete_database (PStr name)]) /\
  emits (user_create remote cfg name passwd database user password host port)
    w
    (only [influxdb.switch_db database; influxdb.get_database_users;
           influxdb.get_list_cluster_admins;
           influxdb.add_database_user (PStr name) passwd;
           influxdb.add_cluster_admin (PStr name) passwd]) /\
  emits (user_chpass remote cfg name passwd database user password host port)
    w
    (only [influxdb.switch_db database; influxdb.get_database_users;
           influxdb.get_list_cluster_admins;
           influxdb.update_database_user_password (PStr name) passwd;
           influxdb.update_cluster_admin_password (PStr name) passwd]) /\
  emits (user_remove remote cfg name database user password host port) w
    (only [influxdb.switch_db database; influxdb.get_database_users;
           influxdb.get_list_cluster_admins;
           influxdb.delete_database_user user;
           influxdb.delete_cluster_admin user]).
Proof.
  intros only. subst only. unfold emits.
  destruct (db_create_run remote cfg name user password host port w)
    as (? & ? & ? & _ & _ & _ & ? & ? & evc & -> & Hgc).
  destruct (db_remove_run remote cfg name user password host port w)
    as (? & ? & ? & _ & _ & _ & ? & ? & evr & -> & Hgr).
  destruct (user_create_run remote cfg name passwd database user password
              host port w)
    as (? & ? & ? & g1 & Hs1 & _ & _ & ? & ? & ev1 & -> & Hg1).
  destruct (user_chpass_run remote cfg name passwd database user password
              host port w)
    as (? & ? & ? & g2 & Hs2 & _ & _ & ? & ? & ev2 & -> & Hg2).
  destruct (user_remove_run remote cfg name database user password host port
              w)
    as (? & ? & ? & g3 & Hs3 & _ & _ & ? & ? & ev3 & -> & Hg3).
  split; [|split; [|split; [|split]]].
  - exists evc. split; [reflexivity|].
    eapply (guarded_calls (Forall _)) in Hgc; [exact Hgc | reflexivity | |].
    + repeat constructor.
    + intros ? ? ? ? []. repeat constructor; simpl; tauto.
  - exists evr. split; [reflexivity|].
    eapply (guarded_calls (Forall _)) in Hgr; [exact Hgr | reflexivity | |].
    + repeat constructor.
    + intros ? ? ? ? []. repeat constructor; simpl; tauto.
  - exists ev1. split; [reflexivity|].
    eapply guarded_vocabulary; [|exact Hs1|exact Hg1]. intros m Hm. exact Hm.
  - exists ev2. split; [reflexivity|].
    eapply guarded_vocabulary; [|exact Hs2|exact Hg2]. intros m Hm. exact Hm.
  - exists ev3. split; [reflexivity|].
    eapply guarded_vocabulary; [|exact Hs3|exact Hg3]. intros m Hm. exact Hm.
Qed.

(** X8. Resolution is idempotent: the four values a client was built from,
    passed back as explicit arguments, build the same client -- also when
    the configuration store holds a falsy value for a field. *)
Theorem client_resolved_fixed (user password host port : pyval) :
  let c := influxdb.built (_client cfg user password host port) in
  _client cfg (influxdb.username c) (influxdb.password c) (influxdb.host c)
    (influxdb.port c)
  = _client cfg user password host port.
Proof.
  intros c. subst c. rewrite !client_fields.
  cbn [influxdb.built influxdb.username influxdb.password influxdb.host
       influxdb.port].
  destruct (truthy user) eqn:Hu, (truthy password) eqn:Hp,
    (truthy host) eqn:Hh, (truthy port) eqn:Hpo;
    rewrite ?Hu, ?Hp, ?Hh, ?Hpo;
    repeat match goal with
      | |- context [if truthy ?x then _ else _] => destruct (truthy x)
      end; reflexivity.
Qed.

(** *** What is logged *)

Lemma string_app_nil_r (x : string) : x +:+ "" = x.
Proof.
  induction x as [|c x IH]; [reflexivity|].
  change (String c (x +:+ "") = String c x). congruence.
Qed.

Lemma messages_app (repr : pyval -> string) (t t' : list event) :
  messages repr (t ++ t') = messages repr t ++ messages repr t'.
Proof. apply omap_app. Qed.

Lemma scoped_messages (repr : pyval -> string) database c m_db m_admin l r l'
    evs :
  scoped remote database c m_db m_admin l r l' evs -> messages repr evs = [].
Proof. destruct 1; reflexivity. Qed.

Lemma called_messages (repr : pyval -> string) c m l r l' evs :
  called remote c m l r l' evs -> messages repr evs = [].
Proof. destruct 1; reflexivity. Qed.

(** A guarded mutation that logged has skipped: it made no mutating call and
    returned [False]; and one whose check gave the skipping answer logged. *)
Lemma guarded_logs (repr : pyval -> string) (skip_if : bool)
    (rg r : res pyval) (lg l' : L) (gevs evs : list event) (logged : event)
    (act : L -> res pyval -> L -> list event -> Prop) :
  messages repr gevs = [] ->
  mutations gevs = [] ->
  mutations [logged] = [] ->
  (forall l r l' aevs, act l r l' aevs -> messages repr aevs = []) ->
  guarded skip_if rg lg gevs logged act r l' evs ->
  (messages repr evs = [] \/
   (messages repr evs = messages repr [logged] /\ mutations evs = [] /\
    r = Ret (PBool false))) /\
  (rg = Ret (PBool skip_if) -> messages repr evs = messages repr [logged]).
Proof.
  intros Hg Hm Hlog Hact. destruct 1 as [e ->|v -> Hv|v r l1 aevs -> Hv Ha].
  - split; [left; exact Hg | discriminate].
  - split.
    + right. rewrite messages_app, mutations_app, Hg, Hm, Hlog.
      repeat split; reflexivity.
    + intros _. rewrite messages_app, Hg. reflexivity.
  - split.
    + left. rewrite messages_app, Hg, (Hact _ _ _ _ Ha). reflexivity.
    + intros H. injection H as ->. simpl in Hv.
      destruct skip_if; discriminate.
Qed.

Lemma log_mutations (d : pyval) (f1 f2 : string) (a1 a2 : list pyval) :
  mutations [if truthy d then EvLog f1 a1 else EvLog f2 a2] = [].
Proof. destruct (truthy d); reflexivity. Qed.

(** X9. What the log says.  A guarded mutation logs at most one message, and
    only when it skips its action: a run that logged made no mutating call
    and returned [False], and a run whose existence check gave the skipping
    answer did log.  The message is "DB <name> already exists" / "does not
    exist" for a database, "Cluster admin <name> ..." for a cluster admin.
    For a database-scoped principal it is "User <name> ... for DB <name>":
    both replacement fields of the format string have index 0, so the
    principal's name is rendered twice and the database, although passed to
    [format], never appears.  [<x>] is [repr(x)]. *)
Theorem log_messages (repr : pyval -> string) (name : string)
    (passwd database user password host port : pyval) (w : world L) :
  let n := repr (PStr name) in
  let logs (skip_if : bool) (guard op : res pyval * world L) (msg : string) :=
    exists evs,
      trace op.2 = trace w ++ evs /\
      (messages repr evs = [] \/
       (messages repr evs = [Some msg] /\ mutations evs = [] /\
        op.1 = Ret (PBool false))) /\
      (guard.1 = Ret (PBool skip_if) -> messages repr evs = [Some msg]) in
  let db_guard := db_exists remote cfg name PNone PNone PNone PNone w in
  let user_guard :=
    user_exists remote cfg name database PNone PNone PNone PNone w in
  logs true db_guard (db_create remote cfg name user password host port w)
    ("DB " +:+ n +:+ " already exists") /\
  logs false db_guard (db_remove remote cfg name user password host port w)
    ("DB " +:+ n +:+ " does not exist") /\
  logs true user_guard
    (user_create remote cfg name passwd database user password host port w)
    (if truthy database
     then "User " +:+ n +:+ " already exists for DB " +:+ n
     else "Cluster admin " +:+ n +:+ " already exists") /\
  logs false user_guard
    (user_chpass remote cfg name passwd database user password host port w)
    (if truthy database
     then "User " +:+ n +:+ " does not exist for DB " +:+ n
     else "Cluster admin " +:+ n +:+ " does not exist") /\
  logs false user_guard
    (user_remove remote cfg name database user password host port w)
    (if truthy database
     then "User " +:+ n +:+ " does not exist for DB " +:+ n
     else "Cluster admin " +:+ n +:+ " does not exist").
Proof.
  intros n logs db_guard user_guard. subst n logs db_guard user_guard.
  cbv beta.
  destruct (db_create_run remote cfg name user password host port w)
    as (? & ? & ? & _ & _ & Hdg & ? & ? & evc & -> & Hgc).
  destruct (db_remove_run remote cfg name user password host port w)
    as (? & ? & ? & _ & _ & Hdg' & ? & ? & evr & -> & Hgr).
  destruct (user_create_run remote cfg name passwd database user password
              host port w)
    as (? & ? & ? & g1 & Hs1 & _ & Hu1 & ? & ? & ev1 & -> & Hg1).
  destruct (user_chpass_run remote cfg name passwd database user password
              host port w)
    as (? & ? & ? & g2 & Hs2 & _ & Hu2 & ? & ? & ev2 & -> & Hg2).
  destruct (user_remove_run remote cfg name database user password host port
              w)
    as (? & ? & ? & g3 & Hs3 & _ & Hu3 & ? & ? & ev3 & -> & Hg3).
  apply (guarded_logs repr) in Hgc;
    [|reflexivity|reflexivity|reflexivity
     |intros ? ? ? ?; apply called_messages].
  apply (guarded_logs repr) in Hgr;
    [|reflexivity|reflexivity|reflexivity
     |intros ? ? ? ?; apply called_messages].
  apply (guarded_logs repr) in Hg1;
    [|exact (scoped_messages repr _ _ _ _ _ _ _ _ Hs1)
     |exact (scoped_listing_mutations _ _ _ _ _ _ _ Hs1)
     |apply log_mutations
     |intros ? ? ? ?; apply scoped_messages].
  apply (guarded_logs repr) in Hg2;
    [|exact (scoped_messages repr _ _ _ _ _ _ _ _ Hs2)
     |exact (scoped_listing_mutations _ _ _ _ _ _ _ Hs2)
     |apply log_mutations
     |intros ? ? ? ?; apply scoped_messages].
  apply (guarded_logs repr) in Hg3;
    [|exact (scoped_messages repr _ _ _ _ _ _ _ _ Hs3)
     |exact (scoped_listing_mutations _ _ _ _ _ _ _ Hs3)
     |apply log_mutations
     |intros ? ? ? ?; apply scoped_messages].
  assert (Hu : forall f1 f2 : string,
             messages repr
               [if truthy database
                then EvLog f1 [PStr name; database]
                else EvLog f2 [PStr name]]
             = [if truthy database
                then format repr f1 [PStr name; database]
                else format repr f2 [PStr name]]).
  { intros f1 f2. destruct (truthy database); reflexivity. }
  split; [|split; [|split; [|split]]].
  - exists evc. split; [reflexivity|]. rewrite Hdg. exact Hgc.
  - exists evr. split; [reflexivity|]. rewrite Hdg'. exact Hgr.
  - exists ev1. split; [reflexivity|]. rewrite Hu1. rewrite Hu in Hg1.
    destruct (truthy database); simpl in Hg1;
      rewrite ?string_app_nil_r in Hg1; exact Hg1.
  - exists ev2. split; [reflexivity|]. rewrite Hu2. rewrite Hu in Hg2.
    destruct (truthy database); simpl in Hg2;
      rewrite ?string_app_nil_r in Hg2; exact Hg2.
  - exists ev3. split; [reflexivity|]. rewrite Hu3. rewrite Hu in Hg3.
    destruct (truthy database); simpl in Hg3;
      rewrite ?string_app_nil_r in Hg3; exact Hg3.
Qed.

(** *** Removing twice *)

Lemma guarded_remove_returned (rg : res pyval) (lg l' : L)
    (gevs evs : list event) (logged : event)
    (act : L -> res pyval -> L -> list event -> Prop) (r1 : pyval) :
  guarded false rg lg gevs logged act (Ret r1) l' evs ->
  (exists v, rg = Ret v /\ truthy v = false /\ l' = lg /\
             evs = gevs ++ [logged]) \/
  (exists v aevs, rg = Ret v /\ truthy v = true /\
                  act lg (Ret r1) l' aevs /\ evs = gevs ++ aevs).
Proof.
  inversion 1 as [e Hrg Hr|v Hrg Hv Hr Hl Hevs
                 |v r' l1 aevs Hrg Hv Hact Hr Hl Hevs].
  - left. exists v. repeat split; assumption.
  - right. exists v, aevs. repeat split; assumption.
Qed.

Lemma checked_hides (name : string) (v : pyval) (r : res pyval) :
  isinstance_list v = false \/
  (Forall has_name (items v) /\ ~ Exists (named name) (items v)) ->
  checked name (Ret v) r -> r = Ret (PBool false).
Proof.
  intros Hv Hck. inversion Hck as [|? Hnl|recs ns Hns|recs e He]; subst.
  - reflexivity.
  - destruct Hv as [Hv|[_ Hno]]; [discriminate|]. simpl in Hno.
    apply comprehension_Ret in Hns.
    destruct (str_in name ns) eqn:Hin; [|reflexivity].
    exfalso. apply Hno. apply (str_in_names name recs ns Hns), Hin.
  - destruct Hv as [Hv|[Hwf _]]; [discriminate|]. simpl in Hwf.
    destruct (comprehension_names recs Hwf) as (ns & Hns & _). congruence.
Qed.

Local Abbreviation guard_listing :=
  (EvCall (influxdb.built (_client cfg PNone PNone PNone PNone))
     influxdb.get_database_list).

(** In the world a [db_remove] that returned left, the guard answers
    [False]. *)
Lemma db_guard_after_remove (name : string)
    (user password host port r1 : pyval) (w w1 : world L) :
  (forall w0, lib (db_list remote cfg PNone PNone PNone PNone w0).2 = lib w0) ->
  db_remove remote cfg name user password host port w = (Ret r1, w1) ->
  (mutations (trace w1) <> mutations (trace w) ->
   exists v w', db_list remote cfg PNone PNone PNone PNone w1 = (Ret v, w') /\
                (isinstance_list v = false \/
                 (Forall has_name (items v) /\
                  ~ Exists (named name) (items v)))) ->
  db_exists remote cfg name PNone PNone PNone PNone w1
  = (Ret (PBool false), World (lib w1) (trace w1 ++ [guard_listing])).
Proof.
  intros Hro Hrun Hgone.
  destruct (db_exists_run remote cfg name PNone PNone PNone PNone w1)
    as (rl2 & rg2 & l2 & _ & Hck2 & Hl2 & Hg2).
  assert (Hlib2 : l2 = lib w1).
  { specialize (Hro w1). rewrite Hl2 in Hro. exact Hro. }
  rewrite Hg2, Hlib2. f_equal.
  destruct (db_remove_run remote cfg name user password host port w)
    as (rl & rg & lg & _ & Hck & Hg & r & l' & evs & Hrun' & Hgd).
  rewrite Hrun' in Hrun. injection Hrun as -> Hw1.
  assert (Hlw1 : lib w1 = l') by (rewrite <- Hw1; reflexivity).
  assert (Htw1 : trace w1 = trace w ++ evs) by (rewrite <- Hw1; reflexivity).
  clear Hw1.
  destruct (guarded_remove_returned _ _ _ _ _ _ _ _ Hgd)
    as [(v & -> & Hv & -> & ->) | (v & aevs & -> & Hv & Hact & ->)].
  - assert (Hlw : lib w = lib w1).
    { destruct (db_exists_run remote cfg name PNone PNone PNone PNone w)
        as (rl0 & rg0 & l0 & _ & _ & Hl0 & Hg0).
      rewrite Hg0 in Hg. injection Hg as _ <-.
      specialize (Hro w). rewrite Hl0 in Hro. rewrite Hlw1, <- Hro.
      reflexivity. }
    destruct (db_exists_lib remote cfg name PNone PNone PNone PNone w w1 Hlw)
      as [Ha _].
    rewrite Hg, Hg2 in Ha. cbn [fst] in Ha. subst rg2.
    destruct (checked_bool _ _ _ Hck) as [b ->]. simpl in Hv. subst b.
    reflexivity.
  - destruct Hact as [r l1' Hrem].
    destruct Hgone as (v' & w' & Hlist & Hhid).
    { rewrite Htw1, !mutations_app. simpl. apply app_one_neq. }
    rewrite Hl2 in Hlist. injection Hlist as -> _.
    apply (checked_hides name v' rg2 Hhid Hck2).
Qed.

(** In the world a [db_create] that returned left, the guard answers
    [True]. *)
Lemma db_guard_after_create (name : string)
    (user password host port r1 : pyval) (w w1 : world L) :
  (forall w0, lib (db_list remote cfg PNone PNone PNone PNone w0).2 = lib w0) ->
  db_create remote cfg name user password host port w = (Ret r1, w1) ->
  (mutations (trace w1) <> mutations (trace w) ->
   exists v w', db_list remote cfg PNone PNone PNone PNone w1 = (Ret v, w') /\
                shows name v) ->
  db_exists remote cfg name PNone PNone PNone PNone w1
  = (Ret (PBool true), World (lib w1) (trace w1 ++ [guard_listing])).
Proof.
  intros Hro Hrun Hvis.
  destruct (db_exists_run remote cfg name PNone PNone PNone PNone w1)
    as (rl2 & rg2 & l2 & _ & Hck2 & Hl2 & Hg2).
  assert (Hlib2 : l2 = lib w1).
  { specialize (Hro w1). rewrite Hl2 in Hro. exact Hro. }
  rewrite Hg2, Hlib2. f_equal.
  destruct (db_create_run remote cfg name user password host port w)
    as (rl & rg & lg & _ & Hck & Hg & r & l' & evs & Hrun' & Hgd).
  rewrite Hrun' in Hrun. injection Hrun as -> Hw1.
  assert (Hlw1 : lib w1 = l') by (rewrite <- Hw1; reflexivity).
  assert (Htw1 : trace w1 = trace w ++ evs) by (rewrite <- Hw1; reflexivity).
  clear Hw1.
  destruct (guarded_create_returned _ _ _ _ _ _ _ _ Hgd)
    as [(v & -> & Hv & -> & ->) | (v & aevs & -> & Hv & Hact & ->)].
  - assert (Hlw : lib w = lib w1).
    { destruct (db_exists_run remote cfg name PNone PNone PNone PNone w)
        as (rl0 & rg0 & l0 & _ & _ & Hl0 & Hg0).
      rewrite Hg0 in Hg. injection Hg as _ <-.
      specialize (Hro w). rewrite Hl0 in Hro. rewrite Hlw1, <- Hro.
      reflexivity. }
    destruct (db_exists_lib remote cfg name PNone PNone PNone PNone w w1 Hlw)
      as [Ha _].
    rewrite Hg, Hg2 in Ha. cbn [fst] in Ha. subst rg2.
    rewrite (checked_true _ _ _ Hck Hv). reflexivity.
  - destruct Hact as [r l1' Hrem].
    destruct Hvis as (v' & w' & Hlist & Hshows).
    { rewrite Htw1, !mutations_app. simpl. apply app_one_neq. }
    rewrite Hl2 in Hlist. injection Hlist as -> _.
    apply (checked_shows name v' rg2 Hshows Hck2).
Qed.

(** X10. Remove is idempotent through its guard.  When a first [db_remove]
    returned normally, a second one in the world it left returns [False],
    issues no mutating call and leaves the library state as it was -- given
    that the guard's listing reads without changing that state and that,
    once a delete call has been issued, it no longer shows the name. *)
Theorem db_remove_twice (name : string)
    (user password host port r1 : pyval) (w w1 : world L) :
  (forall w0, lib (db_list remote cfg PNone PNone PNone PNone w0).2 = lib w0) ->
  db_remove remote cfg name user password host port w = (Ret r1, w1) ->
  (mutations (trace w1) <> mutations (trace w) ->
   exists v w', db_list remote cfg PNone PNone PNone PNone w1 = (Ret v, w') /\
                (isinstance_list v = false \/
                 (Forall has_name (items v) /\
                  ~ Exists (named name) (items v)))) ->
  exists w2,
    db_remove remote cfg name user password host port w1
    = (Ret (PBool false), w2) /\
    lib w2 = lib w1 /\ mutations (trace w2) = mutations (trace w1).
Proof.
  intros Hro Hrun Hgone.
  pose proof (db_guard_after_remove name user password host port r1 w w1
                Hro Hrun Hgone) as Hg.
  unfold db_remove. rewrite bind_run, Hg. eexists.
  split; [reflexivity|]. split; [reflexivity|]. cbn [trace].
  rewrite !mutations_app. simpl. rewrite !app_nil_r. reflexivity.
Qed.

(** X11. Create and remove answer each other.  In the world a [db_create]
    that returned left, [db_remove] of the same name is not skipped: it
    lists, issues [delete_database(name)] and returns that call's answer.
    In the world a [db_remove] that returned left, [db_create] is not
    skipped either: it lists, issues [create_database(name)] and returns its
    answer.  The library is assumed as in X10 and X12: the guard's listing
    changes nothing, shows the name once a create was issued and no longer
    shows it once a delete was issued. *)
Theorem create_remove_alternate (name : string)
    (user password host port r1 : pyval) (w w1 : world L) :
  let ab := influxdb.built (_client cfg user password host port) in
  (forall w0, lib (db_list remote cfg PNone PNone PNone PNone w0).2 = lib w0) ->
  (db_create remote cfg name user password host port w = (Ret r1, w1) ->
   (mutations (trace w1) <> mutations (trace w) ->
    exists v w', db_list remote cfg PNone PNone PNone PNone w1 = (Ret v, w') /\
                 shows name v) ->
   forall r l2,
     remote ab [] (influxdb.delete_database (PStr name)) (lib w1) = (r, l2) ->
     db_remove remote cfg name user password host port w1
     = (r, World l2
             (trace w1 ++ [guard_listing;
                           EvCall ab (influxdb.delete_database (PStr name))])))
  /\
  (db_remove remote cfg name user password host port w = (Ret r1, w1) ->
   (mutations (trace w1) <> mutations (trace w) ->
    exists v w', db_list remote cfg PNone PNone PNone PNone w1 = (Ret v, w') /\
                 (isinstance_list v = false \/
                  (Forall has_name (items v) /\
                   ~ Exists (named name) (items v)))) ->
   forall r l2,
     remote ab [] (influxdb.create_database (PStr name)) (lib w1) = (r, l2) ->
     db_create remote cfg name user password host port w1
     = (r, World l2
             (trace w1 ++ [guard_listing;
                           EvCall ab (influxdb.create_database (PStr name))]))).
Proof.
  intros ab Hro. split.
  - intros Hrun Hvis r l2 Hrem.
    pose proof (db_guard_after_create name user password host port r1 w w1
                  Hro Hrun Hvis) as Hg.
    unfold db_remove. rewrite bind_run, Hg. cbn [truthy negb]. cbv zeta.
    rewrite invoke_run. fold ab.
    change (influxdb.calls (_client cfg user password host port))
      with (@nil influxdb.method).
    cbn [lib trace]. rewrite Hrem, <- app_assoc. reflexivity.
  - intros Hrun Hgone r l2 Hrem.
    pose proof (db_guard_after_remove name user password host port r1 w w1
                  Hro Hrun Hgone) as Hg.
    unfold db_create. rewrite bind_run, Hg. cbn [truthy]. cbv zeta.
    rewrite invoke_run. fold ab.
    change (influxdb.calls (_client cfg user password host port))
      with (@nil influxdb.method).
    cbn [lib trace]. rewrite Hrem, <- app_assoc. reflexivity.
Qed.

End Further.

(** [__virtual__] offers the module, under the name "influxdb", exactly when
    the client library could be imported. *)
Lemma virtual_iff_library (HAS_INFLUXDB : bool) :
  truthy (__virtual__ HAS_INFLUXDB) = HAS_INFLUXDB /\
  (HAS_INFLUXDB = true -> __virtual__ HAS_INFLUXDB = PStr "influxdb").
Proof. destruct HAS_INFLUXDB; split; try reflexivity; discriminate. Qed.

(** ** The further properties at concrete inputs *)

Lemma exists_returns_bool_witness :
  (exists b, PBool true = PBool b) /\ (exists b, PBool false = PBool b).
Proof.
  split.
  - exact (proj1 (exists_returns_bool Ref.remote ∅ "metrics" PNone PNone PNone
                    PNone PNone (PBool true) Ref.w0 Ref.listed_dbs) eq_refl).
  - exact (proj2 (exists_returns_bool Ref.remote ∅ "bob" (PStr "metrics")
                    PNone PNone PNone PNone (PBool false) Ref.w0
                    Ref.listed_users) eq_refl).
Defined.

Lemma exists_bad_record_raises_witness :
  db_exists Faulty.nameless ∅ "metrics" PNone PNone PNone PNone Ref.w0
  = (Raise (KeyError "name"), Ref.listed_dbs) /\
  user_exists Faulty.nameless ∅ "metrics" PNone PNone PNone PNone PNone Ref.w0
  = (Raise (KeyError "name"), Ref.listed_admins).
Proof.
  split.
  - refine (proj1 (exists_bad_record_raises Faulty.nameless ∅ "metrics" PNone
                     PNone PNone PNone PNone (PDict [("id", PInt 7)])
                     [Ref.record "metrics"] [] Ref.w0 Ref.listed_dbs _ eq_refl)
              eq_refl).
    apply (ref_records_have_names ["metrics"]).
  - refine (proj2 (exists_bad_record_raises Faulty.nameless ∅ "metrics" PNone
                     PNone PNone PNone PNone (PDict [("id", PInt 7)])
                     [Ref.record "metrics"] [] Ref.w0 Ref.listed_admins _
                     eq_refl)
              eq_refl).
    apply (ref_records_have_names ["metrics"]).
Defined.

Lemma fail_open_guards_witness :
  (db_create Faulty.unlisted ∅ "metrics" PNone PNone PNone PNone Ref.w0
   = (Ret (PBool false),
      World Ref.s0
        [EvCall Ref.root influxdb.get_database_list;
         EvCall Ref.root (influxdb.create_database (PStr "metrics"))]) /\
   db_remove Faulty.unlisted ∅ "metrics" PNone PNone PNone PNone Ref.w0
   = (Ret (PBool false),
      World Ref.s0
        [EvCall Ref.root influxdb.get_database_list;
         EvLog "DB {0!r} does not exist" [PStr "metrics"]])) /\
  (user_create Faulty.unlisted ∅ "root" (PStr "pw") PNone PNone PNone PNone
     PNone Ref.w0
   = (Ret (PBool false),
      World Ref.s0
        [EvCall Ref.root influxdb.get_list_cluster_admins;
         EvCall Ref.root (influxdb.add_cluster_admin (PStr "root")
                            (PStr "pw"))]) /\
   user_remove Faulty.unlisted ∅ "root" PNone PNone PNone PNone PNone Ref.w0
   = (Ret (PBool false),
      World Ref.s0
        [EvCall Ref.root influxdb.get_list_cluster_admins;
         EvLog "Cluster admin {0!r} does not exist" [PStr "root"]])).
Proof.
  split.
  - exact (proj1 (fail_open_guards Faulty.unlisted ∅ "metrics" PNone PNone
                    PNone PNone PNone PNone (PStr "503 Service Unavailable")
                    Ref.w0 Ref.listed_dbs eq_refl) eq_refl).
  - assert (Hl : user_list Faulty.unlisted ∅ PNone PNone PNone PNone PNone
                   Ref.w0
                 = (Ret (PStr "503 Service Unavailable"), Ref.listed_admins))
      by reflexivity.
    destruct (proj2 (fail_open_guards Faulty.unlisted ∅ "root" (PStr "pw")
                       PNone PNone PNone PNone PNone
                       (PStr "503 Service Unavailable") Ref.w0
                       Ref.listed_admins eq_refl) Hl)
      as (Hc & _ & Hr).
    split; [exact Hc | exact Hr].
Defined.

Lemma listing_exception_propagates_witness :
  db_create Ref.offline ∅ "metrics" PNone PNone PNone PNone Ref.w0
  = (Raise (ClientError "connection refused"), Ref.listed_dbs) /\
  user_remove Ref.offline ∅ "root" PNone PNone PNone PNone PNone Ref.w0
  = (Raise (ClientError "connection refused"), Ref.listed_admins) /\
  user_chpass Ref.offline ∅ "alice" (PStr "new") (PStr "metrics") PNone PNone
    PNone PNone Ref.w0
  = (Raise (ClientError "connection refused"),
     World Ref.s0 [EvCall Ref.root (influxdb.switch_db (PStr "metrics"))]) /\
  user_create Faulty.no_user_listing ∅ "bob" (PStr "pw") (PStr "metrics")
    PNone PNone PNone PNone Ref.w0
  = (Raise (ClientError "timed out"), Ref.listed_users).
Proof.
  split; [|split; [|split]].
  - exact (proj1 (proj2 (proj1 (listing_exception_propagates Ref.offline ∅
                                  "metrics" PNone PNone PNone PNone PNone
                                  PNone (ClientError "connection refused")
                                  Ref.w0) Ref.s0 eq_refl))).
  - refine (proj2 (proj2 (proj2 (proj2 (listing_exception_propagates
              Ref.offline ∅ "root" PNone PNone PNone PNone PNone PNone
              (ClientError "connection refused") Ref.w0)
              Ref.listed_admins _)))).
    left. split; [reflexivity|]. exists Ref.s0. split; reflexivity.
  - refine (proj1 (proj2 (proj2 (proj2 (listing_exception_propagates
              Ref.offline ∅ "alice" (PStr "new") (PStr "metrics") PNone PNone
              PNone PNone (ClientError "connection refused") Ref.w0)
              (World Ref.s0
                 [EvCall Ref.root (influxdb.switch_db (PStr "metrics"))])
              _)))).
    right. left. split; [reflexivity|]. exists Ref.s0. split; reflexivity.
  - refine (proj1 (proj2 (proj2 (listing_exception_propagates
              Faulty.no_user_listing ∅ "bob" (PStr "pw") (PStr "metrics")
              PNone PNone PNone PNone (ClientError "timed out") Ref.w0)
              Ref.listed_users _))).
    right. right. split; [reflexivity|].
    exists (PBool true), Ref.s0, Ref.s0. repeat split; reflexivity.
Defined.

Lemma round_trips_bounded_witness :
  emits (user_create Ref.remote ∅ "bob" (PStr "pw") PNone PNone PNone PNone
           PNone) Ref.w0
    (fun evs => 1 <= length (calls_of evs) <= 2).
Proof.
  exact (proj1 (proj2 (proj2
           (proj1 (proj2 (proj2 (round_trips_bounded Ref.remote ∅ "bob"
                                   (PStr "pw") PNone PNone PNone PNone PNone
                                   PNone None None Ref.w0)))
              eq_refl)))).
Defined.

Lemma db_remove_twice_witness :
  db_remove Ref.remote ∅ "metrics" PNone PNone PNone PNone Ref.w0
  = (Ret (PBool true), Faulty.removed_db) /\
  exists w2,
    db_remove Ref.remote ∅ "metrics" PNone PNone PNone PNone Faulty.removed_db
    = (Ret (PBool false), w2) /\
    lib w2 = lib Faulty.removed_db /\
    mutations (trace w2) = mutations (trace Faulty.removed_db).
Proof.
  split; [reflexivity|].
  refine (db_remove_twice Ref.remote ∅ "metrics" PNone PNone PNone PNone
            (PBool true) Ref.w0 Faulty.removed_db (fun w0 => eq_refl)
            eq_refl _).
  intros _. exists (PList []). eexists. split; [reflexivity|].
  right. split; [constructor|]. intros H. inversion H.
Defined.

Lemma create_remove_alternate_witness :
  db_remove Ref.remote ∅ "metrics" PNone PNone PNone PNone Ref.created_db
  = (Ret (PBool true),
     World Ref.empty
       (trace Ref.created_db
        ++ [EvCall Ref.root influxdb.get_database_list;
            EvCall Ref.root (influxdb.delete_database (PStr "metrics"))])) /\
  db_create Ref.remote ∅ "metrics" PNone PNone PNone PNone Faulty.removed_db
  = (Ret (PBool true),
     World Ref.s0
       (trace Faulty.removed_db
        ++ [EvCall Ref.root influxdb.get_database_list;
            EvCall Ref.root (influxdb.create_database (PStr "metrics"))])).
Proof.
  split.
  - refine (proj1 (create_remove_alternate Ref.remote ∅ "metrics" PNone PNone
                     PNone PNone (PBool true) (World Ref.empty [])
                     Ref.created_db (fun w0 => eq_refl))
              eq_refl _ (Ret (PBool true)) Ref.empty eq_refl).
    intros _. exists (PList [Ref.record "metrics"]). eexists.
    split; [reflexivity|]. exists [Ref.record "metrics"].
    split; [reflexivity|]. split.
    + apply (ref_records_have_names ["metrics"]).
    + constructor. reflexivity.
  - refine (proj2 (create_remove_alternate Ref.remote ∅ "metrics" PNone PNone
                     PNone PNone (PBool true) Ref.w0 Faulty.removed_db
                     (fun w0 => eq_refl))
              eq_refl _ (Ret (PBool true)) Ref.s0 eq_refl).
    intros _. exists (PList []). eexists. split; [reflexivity|].
    right. split; [constructor|]. intros H. inversion H.
Defined.

Lemma listing_only_reads_witness :
  emits (user_exists Ref.remote ∅ "alice" (PStr "metrics") PNone PNone PNone
           PNone) Ref.w0
    (fun evs => mutations evs = [] /\
                forall fmt args, ~ In (EvLog fmt args) evs).
Proof.
  exact (proj2 (proj2 (proj2 (listing_only_reads Ref.remote ∅ "alice"
                                (PStr "metrics") PNone PNone PNone PNone
                                Ref.w0)))).
Defined.

Lemma call_vocabulary_witness :
  emits (user_remove Ref.remote ∅ "alice" (PStr "metrics") (PStr "root")
           (PStr "root") PNone PNone) Ref.w0
    (fun evs =>
       Forall (fun m => In m [influxdb.switch_db (PStr "metrics");
                              influxdb.get_database_users;
                              influxdb.get_list_cluster_admins;
                              influxdb.delete_database_user (PStr "root");
                              influxdb.delete_cluster_admin (PStr "root")])
         (calls_of evs)).
Proof.
  exact (proj2 (proj2 (proj2 (proj2 (call_vocabulary Ref.remote ∅ "alice" PNone
                                       (PStr "metrics") (PStr "root")
                                       (PStr "root") PNone PNone Ref.w0))))).
Defined.

Lemma client_resolved_fixed_witness :
  _client (<["influxdb.password" := PStr ""]> ∅) (PStr "admin") PNone PNone
    PNone
  = _client (<["influxdb.password" := PStr ""]> ∅) (PStr "admin") (PStr "")
      (PStr "localhost") (PInt 8086).
Proof.
  symmetry.
  exact (client_resolved_fixed (<["influxdb.password" := PStr ""]> ∅)
           (PStr "admin") PNone PNone PNone).
Defined.

Lemma log_messages_witness :
  exists evs,
    trace (user_create Ref.remote ∅ "alice" (PStr "pw") (PStr "metrics") PNone
             PNone PNone PNone Ref.w0).2 = trace Ref.w0 ++ evs /\
    messages (fun v => match v with PStr x => x | _ => "?" end) evs
    = [Some "User alice already exists for DB alice"] /\
    mutations evs = [] /\
    (user_create Ref.remote ∅ "alice" (PStr "pw") (PStr "metrics") PNone
       PNone PNone PNone Ref.w0).1 = Ret (PBool false).
Proof.
  destruct (proj1 (proj2 (proj2
              (log_messages Ref.remote ∅
                 (fun v => match v with PStr x => x | _ => "?" end)
                 "alice" (PStr "pw") (PStr "metrics") PNone PNone PNone PNone
                 Ref.w0))))
    as (evs & Htr & Hlog & Hskip).
  specialize (Hskip eq_refl). exists evs. split; [exact Htr|].
  split; [exact Hskip|].
  destruct Hlog as [Hnone | (_ & Hm & Hr)].
  - rewrite Hnone in Hskip. discriminate.
  - split; [exact Hm | exact Hr].
Defined.
